(** * Netflix Dashboard 2023: the data pipeline of [Netflix.py]

    The script is a straight-line pandas pipeline: load the CSV, clean
    ['Hours Viewed'], parse ['Release Date'] and derive ['Release Month'] and
    ['Release Day'], filter by the sidebar selection, aggregate, render.

    This development embeds the pipeline (everything except the rendering
    calls) and states the properties of the specification about it.

    - A column of dtype float64 is a list of binary64 numbers ([float],
      Rocq's primitive IEEE 754 floats); the null of such a column is NaN.
    - A column of text is a list of [option string]; the null is [None].
    - A datetime64 column is a list of [option Timestamp]: the number of
      nanoseconds since 1970-01-01 UTC together with the UTC offset the text
      carried, if it carried one, or [None] for NaT.
    - A DataFrame is the list of its rows, in index order.
    - A Series with a meaningful index is a list of (label, value) pairs.
    - A Python exception is the [Raise] case of [result].

    The library calls are embedded as pandas 2 and numpy compute them, down
    to the order of the float64 additions in a sum. *)

From Stdlib Require Import ZArith List String Ascii Bool Lia.
From Stdlib Require Import Permutation Sorted Floats.
Import ListNotations.

Set Warnings "-inexact-float".

Local Open Scope string_scope.
Local Open Scope Z_scope.

(* ===================================================================== *)
(** * Part I: the program                                                 *)
(* ===================================================================== *)

(** ** Python exceptions *)

Inductive exn : Type :=
| ValueError (msg : string)
| AttributeError (msg : string).

Inductive result (A : Type) : Type :=
| Ok (a : A)
| Raise (e : exn).

Arguments Ok {A} a.
Arguments Raise {A} e.

Definition bind {A B : Type} (c : result A) (k : A -> result B) : result B :=
  match c with
  | Ok a => k a
  | Raise e => Raise e
  end.

Notation "x <- c ;; k" := (bind c (fun x => k))
  (at level 61, c at next level, right associativity).

(** Evaluate a statement on every element of a column, left to right; the
    first exception aborts the whole column operation. *)
Fixpoint mapM {A B : Type} (f : A -> result B) (l : list A) : result (list B) :=
  match l with
  | [] => Ok []
  | a :: l' => b <- f a ;; bs <- mapM f l' ;; Ok (b :: bs)
  end.

(** ** The pandas operations the script calls *)

Module Pandas.

(** *** Nulls *)

Definition isna (x : float) : bool := PrimFloat.is_nan x.

Definition notna {A : Type} (x : option A) : bool :=
  match x with Some _ => true | None => false end.

(** [Series.dropna()] on a text column. *)
Fixpoint dropna {A : Type} (s : list (option A)) : list A :=
  match s with
  | [] => []
  | Some a :: s' => a :: dropna s'
  | None :: s' => dropna s'
  end.

(** *** Summation

    The script sums ['Hours Viewed'] in two ways, and they are two
    different routines.

    [Series.sum()] replaces the nulls by zero ([nansum]) and calls numpy's
    [add.reduce], whose inner loop over a contiguous array is
    [pairwise_sum]: fewer than eight elements are added one after the other;
    up to 128 elements are added into eight accumulators, element [i] into
    accumulator [i mod 8], which are then combined pair by pair, followed by
    the elements left over; a longer array is cut in two, at a multiple of
    eight, and the sums of the halves are added.

    A grouped [sum()] runs the Cython routine [group_sum], which adds with
    Kahan's compensation: next to the running sum it keeps the rounding
    error of the last addition and takes it off the next value.

    Both routines are templates over the element type; they are written
    here over an arbitrary arithmetic and instantiated at float64 below. *)

Section Summation.
Context {F : Type}.
Variable add sub : F -> F -> F.
Variable zero neg_zero : F.
Variable isnan : F -> bool.

Definition acc8 : Type := F * F * F * F * F * F * F * F.

(** The unrolled loop: as long as eight more elements remain, each goes
    into its accumulator. Returns the accumulators and the elements left. *)
Fixpoint unrolled_loop (r : acc8) (a : list F) : acc8 * list F :=
  match a with
  | x0 :: x1 :: x2 :: x3 :: x4 :: x5 :: x6 :: x7 :: a' =>
      let '(r0, r1, r2, r3, r4, r5, r6, r7) := r in
      unrolled_loop
        (add r0 x0, add r1 x1, add r2 x2, add r3 x3,
         add r4 x4, add r5 x5, add r6 x6, add r7 x7) a'
  | _ => (r, a)
  end.

(** [res += a[i]] over the elements of [a]. *)
Definition accumulate (res : F) (a : list F) : F := fold_left add a res.

(** The recursion halves the array; [fuel] bounds its depth, and the length
    of the array is always enough of it ([pairwise_sum_fuel] below). The
    branch that gives up is never taken then. *)
Fixpoint pairwise_sum (fuel : nat) (a : list F) : F :=
  let n := List.length a in
  if (n <? 8)%nat then accumulate neg_zero a
  else if (n <=? 128)%nat then
    match a with
    | x0 :: x1 :: x2 :: x3 :: x4 :: x5 :: x6 :: x7 :: a' =>
        let '((r0, r1, r2, r3, r4, r5, r6, r7), rest) :=
          unrolled_loop (x0, x1, x2, x3, x4, x5, x6, x7) a' in
        accumulate
          (add (add (add r0 r1) (add r2 r3)) (add (add r4 r5) (add r6 r7)))
          rest
    | _ => accumulate neg_zero a
    end
  else
    match fuel with
    | S fuel' =>
        let n2 := (n / 2 - (n / 2) mod 8)%nat in
        add (pairwise_sum fuel' (firstn n2 a)) (pairwise_sum fuel' (skipn n2 a))
    | O => accumulate neg_zero a
    end.

(** [nanops.nansum], [skipna=True], [min_count=0]: the nulls are set to
    zero, and the reduction starts from the identity of [add]. The sum of an
    empty column is that identity. *)
Definition nansum (values : list F) : F :=
  let values := map (fun x => if isnan x then zero else x) values in
  add zero (pairwise_sum (List.length values) values).

(** One step of [group_sum] for a value of the group: the running sum and
    the compensation. A null value is skipped. A compensation that came
    out as NaN (an infinity was added) is reset to zero. *)
Definition group_sum_step (state : F * F) (val : F) : F * F :=
  let '(sumx, compensation) := state in
  if isnan val then (sumx, compensation)
  else
    let y := sub val compensation in
    let t := add sumx y in
    let compensation := sub (sub t sumx) y in
    (t, if isnan compensation then zero else compensation).

(** [group_sum] for one group, [min_count=0]: the values of the group's
    rows in index order. A group of nulls only sums to zero. *)
Definition group_sum (values : list F) : F :=
  fst (fold_left group_sum_step values (zero, zero)).

End Summation.

(** The float64 instances. *)
Definition neg_zero : float := Eval vm_compute in PrimFloat.opp 0%float.

(** [Series.sum()] of a float64 column. *)
Definition Series_sum (s : list float) : float :=
  nansum PrimFloat.add 0%float neg_zero isna s.

(** [group_sum] over float64. *)
Definition group_sum_float64 (values : list float) : float :=
  group_sum PrimFloat.add PrimFloat.sub 0%float isna values.

(** [Series.nunique()]: number of distinct non-null values. *)
Definition nunique (s : list (option string)) : nat :=
  List.length (nodup string_dec (dropna s)).

(** [Series.unique()] after [dropna()]: distinct values, first appearance
    first. The head of the result is kept, later repeats are dropped. *)
Fixpoint unique {A : Type} (dec : forall a b : A, {a = b} + {a <> b})
    (s : list A) : list A :=
  match s with
  | [] => []
  | a :: s' => a :: remove dec a (unique dec s')
  end.

(** *** Element-wise comparisons, producing boolean masks *)

(** [series == value] on a text column; a null equals nothing, and nothing
    equals [None]. *)
Definition eq_scalar (s : list (option string)) (v : option string) : list bool :=
  map (fun x => match x, v with
                | Some a, Some b => String.eqb a b
                | _, _ => false
                end) s.

(** [Series.between(left, right)], inclusive on both sides; null gives
    [False]. *)
Definition between (s : list (option Z)) (left right : Z) : list bool :=
  map (fun x => match x with
                | Some m => (left <=? m) && (m <=? right)
                | None => false
                end) s.

(** [Series.isin(values)]. *)
Definition isin (s : list (option string)) (values : list string) : list bool :=
  map (fun x => match x with
                | Some a => existsb (String.eqb a) values
                | None => false
                end) s.

(** [mask1 & mask2]. *)
Fixpoint mask_and (m1 m2 : list bool) : list bool :=
  match m1, m2 with
  | b1 :: m1', b2 :: m2' => (b1 && b2) :: mask_and m1' m2'
  | _, _ => []
  end.

(** [df[mask]]: the rows whose mask entry is [True], in index order. *)
Fixpoint getitem_mask {R : Type} (df : list R) (mask : list bool) : list R :=
  match df, mask with
  | r :: df', b :: mask' =>
      if b then r :: getitem_mask df' mask' else getitem_mask df' mask'
  | _, _ => []
  end.

(** *** Sorting *)

Section SortValues.
Context {A : Type} (le : A -> A -> bool) (isnull : A -> bool).

Fixpoint insert_sorted (x : A) (l : list A) : list A :=
  match l with
  | [] => [x]
  | h :: t => if le x h then x :: h :: t else h :: insert_sorted x t
  end.

(** An ascending sort. numpy's default sort does not promise an order
    among equal keys; this one keeps them in input order. *)
Definition sort_asc (l : list A) : list A := fold_right insert_sorted [] l.

(** [sort_values(ascending=..., na_position='last')], as pandas' [nargsort]
    does it: the nulls are set aside and appended at the end; for a
    descending sort the non-null items are reversed, sorted ascending, and
    the result reversed. *)
Definition sort_values (ascending : bool) (l : list A) : list A :=
  let non_nans := filter (fun x => negb (isnull x)) l in
  let nans := filter isnull l in
  (if ascending then sort_asc non_nans
   else rev (sort_asc (rev non_nans))) ++ nans.
End SortValues.

(** [df.head(n)]. *)
Definition head {A : Type} (n : nat) (df : list A) : list A := firstn n df.

(** *** Grouping *)

Section GroupBy.
Context {R K : Type}.
Variable K_dec : forall a b : K, {a = b} + {a <> b}.
Variable K_leb : K -> K -> bool.
Variable key : R -> option K.

Definition key_is (k : K) (r : R) : bool :=
  match key r with
  | Some k' => if K_dec k' k then true else false
  | None => false
  end.

(** The group labels: the distinct non-null keys ([dropna=True]), sorted
    ([sort=True]). *)
Definition group_keys (df : list R) : list K :=
  sort_asc K_leb (nodup K_dec (dropna (map key df))).

(** [df.groupby(key)]: each label with its rows, rows in index order. *)
Definition groupby (df : list R) : list (K * list R) :=
  map (fun k => (k, filter (key_is k) df)) (group_keys df).

(** [df.groupby(key)[col].sum()]. *)
Definition groupby_sum (col : R -> float) (df : list R) : list (K * float) :=
  map (fun g => (fst g, group_sum_float64 (map col (snd g)))) (groupby df).
End GroupBy.

(** [Series.value_counts()]: the count of each distinct non-null value,
    most frequent first. *)
Definition value_counts {K : Type} (K_dec : forall a b : K, {a = b} + {a <> b})
    (s : list (option K)) : list (K * Z) :=
  let values := dropna s in
  sort_values (fun a b => snd a <=? snd b) (fun _ => false) false
    (map (fun k => (k, Z.of_nat (count_occ K_dec values k)))
         (unique K_dec values)).

(** *** Label lookup *)

Fixpoint lookup {K V : Type} (K_dec : forall a b : K, {a = b} + {a <> b})
    (k : K) (s : list (K * V)) : option V :=
  match s with
  | [] => None
  | (k', v) :: s' => if K_dec k' k then Some v else lookup K_dec k s'
  end.

(** [Series.reindex(labels)]: the value at each label, in the order of
    [labels]; a label the Series does not have gets a null. *)
Definition reindex {K V : Type} (K_dec : forall a b : K, {a = b} + {a <> b})
    (labels : list K) (s : list (K * V)) : list (K * option V) :=
  map (fun l => (l, lookup K_dec l s)) labels.

(** The same for a float64 Series, where the null is NaN. *)
Definition reindex_float {K : Type} (K_dec : forall a b : K, {a = b} + {a <> b})
    (labels : list K) (s : list (K * float)) : list (K * float) :=
  map (fun l => (l, match lookup K_dec l s with
                    | Some v => v
                    | None => PrimFloat.nan
                    end)) labels.

(** *** [Series.idxmax()]

    [skipna=True]: nulls are replaced by [-inf] and the label of the first
    maximum is returned. On an empty Series the underlying [argmax] raises
    [ValueError]; on a Series of nulls only the result is the null label. *)
Definition fill_neg_inf (x : float) : float :=
  if isna x then PrimFloat.neg_infinity else x.

Definition argmax_step {K : Type} (best kv : K * float) : K * float :=
  if (fill_neg_inf (snd best) <? fill_neg_inf (snd kv))%float then kv else best.

Definition idxmax {K : Type} (s : list (K * float)) : result (option K) :=
  match s with
  | [] => Raise (ValueError "attempt to get argmax of an empty sequence")
  | kv0 :: rest =>
      if forallb (fun kv => isna (snd kv)) s then Ok None
      else Ok (Some (fst (fold_left argmax_step rest kv0)))
  end.

End Pandas.

(** ** Timestamps: the [.dt] accessors

    A Timestamp is a count of nanoseconds since the epoch, in UTC, and the
    UTC offset of its time zone when it has one. The [.dt.month] and
    [.dt.day_name()] accessors read the wall clock: they add the offset to
    the count ([_local_timestamps]) and break the result down to calendar
    fields, with the C routines pandas shares with numpy
    ([days_to_yearsdays], [set_datetimestruct_days]); [day_name] then calls
    [dayofweek]. C's [/] and [%] truncate towards zero: [Z.quot], [Z.rem]. *)

Module Datetime.

Record Timestamp : Type := {
  value : Z;       (* nanoseconds since 1970-01-01T00:00:00 UTC *)
  tz : option Z    (* seconds east of UTC; [None]: a naive timestamp *)
}.

Definition tz_eqb (a b : option Z) : bool :=
  match a, b with
  | Some x, Some y => x =? y
  | None, None => true
  | _, _ => false
  end.

(** The count of nanoseconds the wall clock of the time zone shows. *)
Definition local_timestamp (ts : Timestamp) : Z :=
  value ts + match tz ts with
             | Some offset => offset * 1000000000
             | None => 0
             end.

Definition int64_max : Z := 9223372036854775807.

(** The values a Timestamp can hold; [-int64_max - 1] is NaT. *)
Definition in_bounds (ns : Z) : bool :=
  (- int64_max <=? ns) && (ns <=? int64_max).

Definition ns_per_day : Z := 24 * 60 * 60 * 1000000000.

(** The day number of a timestamp (floor division: [extract_unit]). *)
Definition days_of_ns (ns : Z) : Z := ns / ns_per_day.

Definition is_leapyear (year : Z) : bool :=
  (Z.land year 3 =? 0) &&
  (negb (Z.rem year 100 =? 0) || (Z.rem year 400 =? 0)).

Definition days_per_month_table (leap : bool) : list Z :=
  if leap then [31; 29; 31; 30; 31; 30; 31; 31; 30; 31; 30; 31]
  else [31; 28; 31; 30; 31; 30; 31; 31; 30; 31; 30; 31].

Definition days_per_400years : Z := 400 * 365 + 100 - 4 + 1.

(** From a day number to the year and the day within the year. *)
Definition days_to_yearsdays (days_ : Z) : Z * Z :=
  (* relative to the year 2000, which is divisible by 400 *)
  let days := days_ - (365 * 30 + 7) in
  let '(year, days) :=
    if 0 <=? days then
      (400 * Z.quot days days_per_400years, Z.rem days days_per_400years)
    else
      let year := 400 * Z.quot (days - (days_per_400years - 1)) days_per_400years in
      let days := Z.rem days days_per_400years in
      (year, if days <? 0 then days + days_per_400years else days) in
  (* the year and the day within the 400 year cycle *)
  let '(year, days) :=
    if 366 <=? days then
      let year := year + 100 * Z.quot (days - 1) (100 * 365 + 25 - 1) in
      let days := Z.rem (days - 1) (100 * 365 + 25 - 1) in
      if 365 <=? days then
        let year := year + 4 * Z.quot (days + 1) (4 * 365 + 1) in
        let days := Z.rem (days + 1) (4 * 365 + 1) in
        if 366 <=? days then
          (year + Z.quot (days - 1) 365, Z.rem (days - 1) 365)
        else (year, days)
      else (year, days)
    else (year, days) in
  (year + 2000, days).

Record datetimestruct : Type := { year : Z; month : Z; day : Z }.

(** The loop over the twelve month lengths; [i] is the loop counter. When
    it runs off the table the fields keep their initial values, month 1 and
    day 1. *)
Fixpoint month_loop (month_lengths : list Z) (i days : Z) : Z * Z :=
  match month_lengths with
  | [] => (1, 1)
  | len :: rest =>
      if days <? len then (i + 1, days + 1)
      else month_loop rest (i + 1) (days - len)
  end.

Definition set_datetimestruct_days (days : Z) : datetimestruct :=
  let '(y, yday) := days_to_yearsdays days in
  let '(m, d) := month_loop (days_per_month_table (is_leapyear y)) 0 yday in
  {| year := y; month := m; day := d |}.

Definition to_datetimestruct (ns : Z) : datetimestruct :=
  set_datetimestruct_days (days_of_ns ns).

(** [get_date_field(values, "M")] for one element. *)
Definition get_month (i8 : Z) : Z := month (to_datetimestruct i8).

Definition sakamoto_arr : list Z := [0; 3; 2; 5; 0; 3; 5; 1; 4; 6; 2; 4].

(** Day of the week by Sakamoto's method; 0 is Monday. *)
Definition dayofweek (y m d : Z) : Z :=
  let y := if m <? 3 then y - 1 else y in
  let day :=
    Z.rem (y + Z.quot y 4 - Z.quot y 100 + Z.quot y 400
           + nth (Z.to_nat (m - 1)) sakamoto_arr 0 + d) 7 in
  Z.rem (day + 6) 7.

Definition DAYS_FULL : list string :=
  ["Monday"; "Tuesday"; "Wednesday"; "Thursday"; "Friday"; "Saturday"; "Sunday"].

(** [get_date_name_field(values, "day_name")] for one element. *)
Definition get_day_name (i8 : Z) : string :=
  let dts := to_datetimestruct i8 in
  nth (Z.to_nat (dayofweek (year dts) (month dts) (day dts))) DAYS_FULL "".

(** [.dt.month] and [.dt.day_name()] of one element. *)
Definition dt_month (ts : Timestamp) : Z := get_month (local_timestamp ts).

Definition dt_day_name (ts : Timestamp) : string := get_day_name (local_timestamp ts).

(** The dtype of a column of parsed dates. It is datetime64 (with or
    without a time zone) when the dates that were read agree on their UTC
    offset, where having none counts as an offset of its own; otherwise
    pandas 2 leaves a column of Python objects, with a warning. (pandas 3
    raises [ValueError] in [to_datetime] itself in that case: the script
    fails there one line earlier.) *)
Definition is_datetime64 (col : list (option Timestamp)) : bool :=
  match Pandas.dropna col with
  | [] => true
  | ts0 :: rest => forallb (fun ts => tz_eqb (tz ts) (tz ts0)) rest
  end.

(** [Series.dt]: only a datetime64 column has the accessor. *)
Definition dt (col : list (option Timestamp)) : result (list (option Timestamp)) :=
  if is_datetime64 col then Ok col
  else Raise (AttributeError "Can only use .dt accessor with datetimelike values").

(** [col.dt.month] and [col.dt.day_name()]; a NaT gives a null. *)
Definition Series_dt_month (col : list (option Timestamp)) : result (list (option Z)) :=
  accessor <- dt col ;; Ok (map (option_map dt_month) accessor).

Definition Series_dt_day_name (col : list (option Timestamp))
  : result (list (option string)) :=
  accessor <- dt col ;; Ok (map (option_map dt_day_name) accessor).

End Datetime.

(** ** The table *)

(** A cell of the ['Hours Viewed'] column as [read_csv] delivers it: text
    when the column could not be read as numbers (thousands separators), a
    number otherwise. An empty cell is the number NaN. *)
Inductive cell : Type :=
| Text (s : string)
| Number (x : float).

(** A row of the CSV file. *)
Record RawRow : Type := {
  raw_Title : option string;
  raw_Content_Type : option string;
  raw_Release_Date : option string;
  raw_Hours_Viewed : cell;
  raw_Language_Indicator : option string
}.

(** A row of [netflix_data] after the preprocessing block. *)
Record Row : Type := {
  Title : option string;
  Content_Type : option string;
  Release_Date : option Datetime.Timestamp;
  Hours_Viewed : float;
  Language_Indicator : option string;
  Release_Month : option Z;
  Release_Day : option string
}.

Definition DataFrame : Type := list Row.

(** ** Preprocessing (lines 11 to 14) *)

(** [re.sub(',', '', s)]. *)
Fixpoint remove_commas (s : string) : string :=
  match s with
  | EmptyString => EmptyString
  | String c s' =>
      if Ascii.eqb c "," then remove_commas s' else String c (remove_commas s')
  end.

(** [Series.replace(',', '', regex=True)]: only text cells are touched. *)
Definition replace_commas (c : cell) : cell :=
  match c with
  | Text s => Text (remove_commas s)
  | Number x => Number x
  end.

Section Normalizer.

(** Python's [float(str)]: the number a text denotes, if it denotes one. *)
Variable py_float : string -> option float.

(** The date parser behind [pd.to_datetime]: the timestamp a text denotes,
    if it denotes one, with the UTC offset the text spells out, if any. *)
Variable parse_datetime : string -> option Datetime.Timestamp.

(** [astype(float)] on one cell. *)
Definition astype_float (c : cell) : result float :=
  match c with
  | Number x => Ok x
  | Text s =>
      match py_float s with
      | Some x => Ok x
      | None => Raise (ValueError ("could not convert string to float: '" ++ s ++ "'"))
      end
  end.

(** Line 11. *)
Definition normalize_Hours_Viewed (col : list cell) : result (list float) :=
  mapM astype_float (map replace_commas col).

(** [pd.to_datetime(..., errors='coerce')] on one cell: whatever is not a
    date, or is a date no Timestamp can hold (as a count in UTC or on the
    wall clock), becomes NaT. *)
Definition to_datetime_coerce (c : option string) : option Datetime.Timestamp :=
  match c with
  | None => None
  | Some s =>
      match parse_datetime s with
      | Some ts =>
          if Datetime.in_bounds (Datetime.value ts)
             && Datetime.in_bounds (Datetime.local_timestamp ts)
          then Some ts else None
      | None => None
      end
  end.

(** Line 12. The conversion itself does not raise; what it returns is a
    datetime64 column only when [Datetime.is_datetime64] holds of it. *)
Definition to_datetime (col : list (option string)) : list (option Datetime.Timestamp) :=
  map to_datetime_coerce col.

(** The table with its two cleaned and its two new columns. The columns
    have the length of the table. *)
Fixpoint assign (raw : list RawRow) (hours : list float)
    (release_date : list (option Datetime.Timestamp))
    (release_month : list (option Z)) (release_day : list (option string))
  : DataFrame :=
  match raw, hours, release_date, release_month, release_day with
  | r :: raw', h :: hours', d :: release_date', m :: release_month', n :: release_day' =>
      {| Title := raw_Title r;
         Content_Type := raw_Content_Type r;
         Release_Date := d;
         Hours_Viewed := h;
         Language_Indicator := raw_Language_Indicator r;
         Release_Month := m;
         Release_Day := n |}
      :: assign raw' hours' release_date' release_month' release_day'
  | _, _, _, _, _ => []
  end.

(** The preprocessing block, lines 11 to 14. Line 11 raises [ValueError] on
    a text that is no number; lines 13 and 14 raise [AttributeError] when
    line 12 did not produce a datetime64 column. *)
Definition preprocess (raw : list RawRow) : result DataFrame :=
  hours <- normalize_Hours_Viewed (map raw_Hours_Viewed raw) ;;
  let release_date := to_datetime (map raw_Release_Date raw) in
  release_month <- Datetime.Series_dt_month release_date ;;
  release_day <- Datetime.Series_dt_day_name release_date ;;
  Ok (assign raw hours release_date release_month release_day).

(** The same table, one row at a time: what lines 12 to 14 make of a row,
    given its cleaned ['Hours Viewed']. *)
Definition normalize_row (r : RawRow) (hours : float) : Row :=
  let release_date := to_datetime_coerce (raw_Release_Date r) in
  {| Title := raw_Title r;
     Content_Type := raw_Content_Type r;
     Release_Date := release_date;
     Hours_Viewed := hours;
     Language_Indicator := raw_Language_Indicator r;
     Release_Month := option_map Datetime.dt_month release_date;
     Release_Day := option_map Datetime.dt_day_name release_date |}.

Fixpoint zip_rows (raw : list RawRow) (hours : list float) : DataFrame :=
  match raw, hours with
  | r :: raw', h :: hours' => normalize_row r h :: zip_rows raw' hours'
  | _, _ => []
  end.

End Normalizer.

(** ** The sidebar (lines 38 to 40) *)

(** What the three widgets return. [content_type] is [None] only when the
    select box has no option to offer. *)
Record Selection : Type := {
  content_type : option string;
  month_range : Z * Z;
  languages : list string
}.

Definition content_type_options (netflix_data : DataFrame) : list string :=
  Pandas.unique string_dec (Pandas.dropna (map Content_Type netflix_data)).

Definition language_options (netflix_data : DataFrame) : list string :=
  Pandas.unique string_dec (Pandas.dropna (map Language_Indicator netflix_data)).

(** The selections the widgets can produce over a given table: one of the
    offered content types, a sub-range of 1..12, some of the offered
    languages. *)
Definition selectable (netflix_data : DataFrame) (sel : Selection) : bool :=
  match content_type sel with
  | Some c => if in_dec string_dec c (content_type_options netflix_data) then true else false
  | None => match content_type_options netflix_data with [] => true | _ => false end
  end
  && (1 <=? fst (month_range sel))
  && (fst (month_range sel) <=? snd (month_range sel))
  && (snd (month_range sel) <=? 12)
  && forallb (fun l => if in_dec string_dec l (language_options netflix_data) then true else false)
       (languages sel).

(** ** Filter Engine (lines 43 to 48) *)

Definition filtered_data (netflix_data : DataFrame) (sel : Selection) : DataFrame :=
  let filtered_data :=
    Pandas.getitem_mask netflix_data
      (Pandas.mask_and
         (Pandas.eq_scalar (map Content_Type netflix_data) (content_type sel))
         (Pandas.between (map Release_Month netflix_data)
            (fst (month_range sel)) (snd (month_range sel)))) in
  match languages sel with
  | [] => filtered_data
  | _ :: _ =>
      Pandas.getitem_mask filtered_data
        (Pandas.isin (map Language_Indicator filtered_data) (languages sel))
  end.

(** ** Summary metrics (lines 52 to 54) *)

Definition total_hours (filtered_data : DataFrame) : float :=
  Pandas.Series_sum (map Hours_Viewed filtered_data).

Definition unique_titles (filtered_data : DataFrame) : nat :=
  Pandas.nunique (map Title filtered_data).

Definition most_viewed_type (filtered_data : DataFrame) : result (option string) :=
  Pandas.idxmax
    (Pandas.groupby_sum string_dec String.leb Content_Type Hours_Viewed filtered_data).

(** ** Aggregator (the six tabs) *)

(** Line 73. *)
Definition monthly_viewership (filtered_data : DataFrame) : list (Z * float) :=
  Pandas.groupby_sum Z.eq_dec Z.leb Release_Month Hours_Viewed filtered_data.

(** Line 88. *)
Definition language_viewership (filtered_data : DataFrame) : list (string * float) :=
  Pandas.groupby_sum string_dec String.leb Language_Indicator Hours_Viewed filtered_data.

(** The list literal of lines 104 and 107. *)
Definition weekdays : list string :=
  ["Monday"; "Tuesday"; "Wednesday"; "Thursday"; "Friday"; "Saturday"; "Sunday"].

(** Lines 103 to 105. A day without releases gets a null count. *)
Definition weekday_releases (netflix_data : DataFrame) : list (string * option Z) :=
  Pandas.reindex string_dec weekdays
    (Pandas.value_counts string_dec (map Release_Day netflix_data)).

(** Lines 106 to 108. *)
Definition weekday_viewership (netflix_data : DataFrame) : list (string * float) :=
  Pandas.reindex_float string_dec weekdays
    (Pandas.groupby_sum string_dec String.leb Release_Day Hours_Viewed netflix_data).

(** Line 147: [pivot_table(index='Release Month', columns='Content Type',
    values='Hours Viewed', aggfunc='sum')]. Rows with a null in either key are
    left out of the grouping; a (month, type) pair whose sum is null is
    dropped; a pair without rows shows as NaN. *)
Record PivotTable : Type := {
  pivot_index : list Z;
  pivot_columns : list string;
  pivot_values : list (list float)
}.

Definition month_type_dec (a b : Z * string) : {a = b} + {a <> b}.
Proof. decide equality; [apply string_dec | apply Z.eq_dec]. Defined.

Definition monthly_viewership_by_type (netflix_data : DataFrame) : PivotTable :=
  let data :=
    filter (fun r => Pandas.notna (Release_Month r) && Pandas.notna (Content_Type r))
      netflix_data in
  let agged :=
    flat_map
      (fun g =>
         map (fun h => ((fst g, fst h), snd h))
           (Pandas.groupby_sum string_dec String.leb Content_Type Hours_Viewed (snd g)))
      (Pandas.groupby Z.eq_dec Z.leb Release_Month data) in
  let agged := filter (fun e => negb (Pandas.isna (snd e))) agged in
  let index :=
    Pandas.sort_asc Z.leb (nodup Z.eq_dec (map (fun e => fst (fst e)) agged)) in
  let columns :=
    Pandas.sort_asc String.leb (nodup string_dec (map (fun e => snd (fst e)) agged)) in
  {| pivot_index := index;
     pivot_columns := columns;
     pivot_values :=
       map (fun m =>
              map (fun c => match Pandas.lookup month_type_dec (m, c) agged with
                            | Some v => v
                            | None => PrimFloat.nan
                            end) columns) index |}.

(** Line 176: the two columns, sorted by ['Hours Viewed'] descending, first
    ten rows. *)
Definition top_content (filtered_data : DataFrame) : list (option string * float) :=
  Pandas.head 10
    (Pandas.sort_values
       (fun a b => (snd a <=? snd b)%float) (fun a => Pandas.isna (snd a)) false
       (map (fun r => (Title r, Hours_Viewed r)) filtered_data)).

(** Line 182. *)
Definition content_distribution (netflix_data : DataFrame) : list (string * Z) :=
  Pandas.value_counts string_dec (map Content_Type netflix_data).

(** ** One run of the script over the preprocessed table

    Everything the script hands to the rendering calls, computed in source
    order. The script has no [try]: an exception in a statement ends the run
    and nothing after it is computed. *)

Record Dashboard : Type := {
  d_total_hours : float;
  d_unique_titles : nat;
  d_most_viewed_type : option string;
  d_monthly_viewership : list (Z * float);
  d_language_viewership : list (string * float);
  d_weekday_releases : list (string * option Z);
  d_weekday_viewership : list (string * float);
  d_monthly_viewership_by_type : PivotTable;
  d_top_content : list (option string * float);
  d_content_distribution : list (string * Z)
}.

Definition dashboard (netflix_data : DataFrame) (sel : Selection) : result Dashboard :=
  let filtered_data := filtered_data netflix_data sel in
  let total_hours := total_hours filtered_data in
  let unique_titles := unique_titles filtered_data in
  most_viewed_type <- most_viewed_type filtered_data ;;
  Ok {| d_total_hours := total_hours;
        d_unique_titles := unique_titles;
        d_most_viewed_type := most_viewed_type;
        d_monthly_viewership := monthly_viewership filtered_data;
        d_language_viewership := language_viewership filtered_data;
        d_weekday_releases := weekday_releases netflix_data;
        d_weekday_viewership := weekday_viewership netflix_data;
        d_monthly_viewership_by_type := monthly_viewership_by_type netflix_data;
        d_top_content := top_content filtered_data;
        d_content_distribution := content_distribution netflix_data |}.

(** The whole script: preprocess, then one run. *)
Definition main (py_float : string -> option float)
    (parse_datetime : string -> option Datetime.Timestamp)
    (raw : list RawRow) (sel : DataFrame -> Selection) : result Dashboard :=
  netflix_data <- preprocess py_float parse_datetime raw ;;
  dashboard netflix_data (sel netflix_data).

(** ** The civil calendar

    What "the month of a date" and "the weekday of a date" mean, said
    without the routines of the [.dt] accessors: the day number of a date
    of the proleptic Gregorian calendar by the civil-from-days formula, the
    lengths of the months, and the weekday by counting from 1970-01-01, a
    Thursday. *)

(** Days since 1970-01-01 of the date [y]-[m]-[d]. *)
Definition days_from_civil (y m d : Z) : Z :=
  let y := if m <=? 2 then y - 1 else y in
  let era := y / 400 in
  let yoe := y - era * 400 in
  let doy := (153 * (if 2 <? m then m - 3 else m + 9) + 2) / 5 + d - 1 in
  let doe := yoe * 365 + yoe / 4 - yoe / 100 + doy in
  era * 146097 + doe - 719468.

Definition leap_year (y : Z) : bool :=
  (y mod 4 =? 0) && (negb (y mod 100 =? 0) || (y mod 400 =? 0)).

Definition days_in_month (y m : Z) : Z :=
  nth (Z.to_nat (m - 1))
    [31; if leap_year y then 29 else 28; 31; 30; 31; 30; 31; 31; 30; 31; 30; 31] 0.

Definition valid_date (y m d : Z) : Prop :=
  1 <= m <= 12 /\ 1 <= d <= days_in_month y m.

(** The days from 1 January 2000 to 1 January of the year [2000 + Y], for
    [Y] from 0 to 399: 365 for each year and one more for each leap year
    among them. *)
Definition days_before_year (Y : Z) : Z :=
  365 * Y + (Y + 3) / 4 - (Y + 99) / 100 + (Y + 399) / 400.

(** The weekday of a day number. *)
Definition weekday_name (days : Z) : string :=
  nth (Z.to_nat ((days + 3) mod 7))
    ["Monday"; "Tuesday"; "Wednesday"; "Thursday"; "Friday"; "Saturday"; "Sunday"] "".

(** The day number the wall clock of a timestamp shows: the count of
    nanoseconds, moved by the UTC offset, in whole days of 86400 seconds. *)
Definition wall_clock_day (ts : Datetime.Timestamp) : Z :=
  (Datetime.value ts
   + match Datetime.tz ts with Some offset => offset * 1000000000 | None => 0 end)
  / 86400000000000.

(** ** Two parsers for the worked examples

    The theorems about preprocessing hold for every [py_float] and every
    [parse_datetime]. The examples need texts to evaluate on; they use plain
    digit strings, which Python's [float] reads as the integer they spell
    (exactly, below 2^53), and ISO 8601 dates: [YYYY-MM-DD], which
    [to_datetime] reads as midnight of that day, without a time zone, and
    [YYYY-MM-DDTHH:MM:SS+HH:MM] (or [-HH:MM]), which it reads as that wall
    clock time at that UTC offset. [to_datetime] reads a column in the
    format of its first date; each example column is written in one of the
    two formats throughout. *)

Module ExampleParsers.

Definition digit_of_ascii (c : ascii) : option Z :=
  let n := Z.of_nat (nat_of_ascii c) - 48 in
  if (0 <=? n) && (n <=? 9) then Some n else None.

Fixpoint digits_value (acc : Z) (s : string) : option Z :=
  match s with
  | EmptyString => Some acc
  | String c s' =>
      match digit_of_ascii c with
      | Some d => digits_value (10 * acc + d) s'
      | None => None
      end
  end.

Definition parse_digits (s : string) : option Z :=
  match s with
  | EmptyString => None
  | _ => digits_value 0 s
  end.

Definition float_of_digits (s : string) : option float :=
  match parse_digits s with
  | Some n => if n <? 2 ^ 53 then Some (PrimFloat.of_uint63 (Uint63.of_Z n)) else None
  | None => None
  end.

(** The date part, [YYYY-MM-DD]: its day number. *)
Definition iso_day (s : string) : option Z :=
  if (String.length s =? 10)%nat
     && String.eqb (substring 4 1 s) "-" && String.eqb (substring 7 1 s) "-"
  then
    match parse_digits (substring 0 4 s),
          parse_digits (substring 5 2 s),
          parse_digits (substring 8 2 s) with
    | Some y, Some m, Some d =>
        if (1 <=? m) && (m <=? 12) && (1 <=? d)
           && (d <=? nth (Z.to_nat (m - 1))
                      (Datetime.days_per_month_table (Datetime.is_leapyear y)) 0)
        then Some (days_from_civil y m d)
        else None
    | _, _, _ => None
    end
  else None.

(** The time part, [HH:MM:SS]: seconds since midnight. *)
Definition iso_clock (s : string) : option Z :=
  if (String.length s =? 8)%nat
     && String.eqb (substring 2 1 s) ":" && String.eqb (substring 5 1 s) ":"
  then
    match parse_digits (substring 0 2 s),
          parse_digits (substring 3 2 s),
          parse_digits (substring 6 2 s) with
    | Some h, Some mi, Some se =>
        if (h <? 24) && (mi <? 60) && (se <? 60)
        then Some (h * 3600 + mi * 60 + se) else None
    | _, _, _ => None
    end
  else None.

(** The offset, [+HH:MM] or [-HH:MM]: seconds east of UTC. *)
Definition iso_offset (s : string) : option Z :=
  if (String.length s =? 6)%nat && String.eqb (substring 3 1 s) ":" then
    match parse_digits (substring 1 2 s), parse_digits (substring 4 2 s) with
    | Some h, Some mi =>
        if (h <? 24) && (mi <? 60) then
          if String.eqb (substring 0 1 s) "+" then Some (h * 3600 + mi * 60)
          else if String.eqb (substring 0 1 s) "-" then Some (- (h * 3600 + mi * 60))
          else None
        else None
    | _, _ => None
    end
  else None.

Definition iso_date (s : string) : option Datetime.Timestamp :=
  if (String.length s =? 10)%nat then
    match iso_day s with
    | Some days =>
        Some {| Datetime.value := days * Datetime.ns_per_day; Datetime.tz := None |}
    | None => None
    end
  else if (String.length s =? 25)%nat && String.eqb (substring 10 1 s) "T" then
    match iso_day (substring 0 10 s),
          iso_clock (substring 11 8 s),
          iso_offset (substring 19 6 s) with
    | Some days, Some seconds, Some offset =>
        Some {| Datetime.value := (days * 86400 + seconds - offset) * 1000000000;
                Datetime.tz := Some offset |}
    | _, _, _ => None
    end
  else None.

Definition mkRaw (title type date hours language : string) : RawRow :=
  {| raw_Title := Some title;
     raw_Content_Type := Some type;
     raw_Release_Date := Some date;
     raw_Hours_Viewed := Text hours;
     raw_Language_Indicator := Some language |}.

(** A row whose ['Hours Viewed'] cell [read_csv] already delivered as a
    number. *)
Definition mkRawNum (title type date : string) (hours : float) (language : string) : RawRow :=
  {| raw_Title := Some title;
     raw_Content_Type := Some type;
     raw_Release_Date := Some date;
     raw_Hours_Viewed := Number hours;
     raw_Language_Indicator := Some language |}.

Definition load (raw : list RawRow) : result DataFrame :=
  preprocess float_of_digits iso_date raw.

End ExampleParsers.

(** ** Notions the specification uses *)

(** A row as the specification's filter contract describes it: the content
    type is the selected one, the release month is known and in range, and
    the language is one of the selected ones when any is selected. *)
Definition spec_row_matches (c : string) (lo hi : Z) (langs : list string)
    (r : Row) : Prop :=
  Content_Type r = Some c /\
  (exists m, Release_Month r = Some m /\ lo <= m <= hi) /\
  (langs = [] \/ exists l, Language_Indicator r = Some l /\ In l langs).

Definition spec_row_matchesb (c : string) (lo hi : Z) (langs : list string)
    (r : Row) : bool :=
  match Content_Type r with Some c' => String.eqb c' c | None => false end
  && match Release_Month r with Some m => (lo <=? m) && (m <=? hi) | None => false end
  && match langs with
     | [] => true
     | _ :: _ =>
         match Language_Indicator r with
         | Some l => if in_dec string_dec l langs then true else false
         | None => false
         end
     end.

(** The rows released on a given day of the week. *)
Definition released_on (day : string) (r : Row) : bool :=
  match Release_Day r with
  | Some d => if string_dec d day then true else false
  | None => false
  end.

(** "Weekly release counts": the number of records of the table released on
    the day; null when there is none. *)
Definition spec_weekday_count (t : DataFrame) (day : string) : option Z :=
  match filter (released_on day) t with
  | [] => None
  | g => Some (Z.of_nat (List.length g))
  end.

(** "Weekly viewership hours": the summed hours of those records, as a
    grouped sum adds them; null when there is none. *)
Definition spec_weekday_hours (t : DataFrame) (day : string) : float :=
  match filter (released_on day) t with
  | [] => PrimFloat.nan
  | g => Pandas.group_sum_float64 (map Hours_Viewed g)
  end.

(** Descending order of a float64 column as [sort_values] understands it:
    numbers from large to small, nulls after all numbers. *)
Definition desc_nulls_last (a b : float) : Prop :=
  Pandas.isna b = true \/
  (Pandas.isna a = false /\ Pandas.isna b = false /\ (b <=? a)%float = true).

(** A float64 number that is not negative; a zero of either sign is
    one. *)
Definition not_negative (x : float) : Prop := (0 <=? x)%float = true.

(** The data model's range of ['Hours Viewed']: a non-negative number, or
    null. *)
Definition hours_in_range (x : float) : bool :=
  Pandas.isna x || (0 <=? x)%float.

(** The sum of an int64 column ([Series.sum()] on counts). *)
Definition Series_sum_int (s : list Z) : Z := fold_left Z.add s 0.

(** A sum in some other arithmetic, for comparing float64 totals with exact
    ones. *)
Definition sum_in {A : Type} (add : A -> A -> A) (zero : A) (l : list A) : A :=
  fold_right add zero l.

(** The integer a float64 number holds, rounded down; zero for what is not
    a finite number. *)
Definition integer_value (x : float) : Z :=
  match Prim2SF x with
  | S754_finite s m e => Z.shiftl (if s then Z.neg m else Z.pos m) e
  | _ => 0
  end.

(** Rows whose release date was read. *)
Definition has_date (r : Row) : bool := Pandas.notna (Release_Date r).

(** Non-negative binary64 numbers, on their specification: the zeros,
    the positive finite numbers and [+inf]. *)
Definition SF_nonneg (f : spec_float) : Prop :=
  match f with
  | S754_zero _ => True
  | S754_infinity s => s = false
  | S754_nan => False
  | S754_finite s _ _ => s = false
  end.

(** ** Tables for the worked examples *)

Module ExampleData.
Import ExampleParsers.

(** The two rows of the specification's example. *)
Definition raw_two_movies : list RawRow :=
  [ mkRaw "A" "Movie" "2023-03-05" "1,000,000" "English";
    mkRaw "B" "Movie" "2023-03-09" "500,000" "Spanish" ].

Definition two_movies : DataFrame :=
  Eval vm_compute in
    match load raw_two_movies with Ok t => t | Raise _ => [] end.

Definition all_movies : Selection :=
  {| content_type := Some "Movie"; month_range := (1, 12); languages := [] |}.

(** What one run over the two rows hands to the rendering calls. *)
Definition two_movies_dashboard : Dashboard :=
  Eval vm_compute in
    match dashboard two_movies all_movies with
    | Ok d => d
    | Raise _ =>
        {| d_total_hours := 0%float; d_unique_titles := 0%nat;
           d_most_viewed_type := None; d_monthly_viewership := [];
           d_language_viewership := []; d_weekday_releases := [];
           d_weekday_viewership := [];
           d_monthly_viewership_by_type :=
             {| pivot_index := []; pivot_columns := []; pivot_values := [] |};
           d_top_content := []; d_content_distribution := [] |}
    end.

(** March releases only, January selected. *)
Definition movies_in_january : Selection :=
  {| content_type := Some "Movie"; month_range := (1, 1); languages := [] |}.

(** Three titles with fractional hours, read by [read_csv] as numbers. *)
Definition raw_three_fractions : list RawRow :=
  [ mkRawNum "A" "Movie" "2023-02-05" 0.1 "English";
    mkRawNum "B" "Movie" "2023-01-09" 0.2 "English";
    mkRawNum "C" "Movie" "2023-01-19" 0.3 "English" ].

Definition three_fractions : DataFrame :=
  Eval vm_compute in
    match load raw_three_fractions with Ok t => t | Raise _ => [] end.

(** A file with an empty ['Content Type'] cell in its second row. *)
Definition raw_untyped_row : list RawRow :=
  [ mkRaw "A" "Movie" "2023-03-05" "1,000,000" "English";
    {| raw_Title := Some "B";
       raw_Content_Type := None;
       raw_Release_Date := Some "2023-03-09";
       raw_Hours_Viewed := Text "500,000";
       raw_Language_Indicator := Some "Spanish" |} ].

Definition untyped_row : DataFrame :=
  Eval vm_compute in
    match load raw_untyped_row with Ok t => t | Raise _ => [] end.

(** A file whose hours are the texts [inf] and [-inf], which [read_csv]
    reads as the two infinities. *)
Definition raw_infinite_hours : list RawRow :=
  [ mkRawNum "A" "Movie" "2023-03-05" PrimFloat.infinity "English";
    mkRawNum "B" "Movie" "2023-03-09" PrimFloat.neg_infinity "English" ].

Definition infinite_hours : DataFrame :=
  Eval vm_compute in
    match load raw_infinite_hours with Ok t => t | Raise _ => [] end.

(** A file with a date that is none and a number that is none. *)
Definition raw_bad_date : list RawRow :=
  [ mkRaw "A" "Movie" "2023-03-05" "1,000,000" "English";
    mkRaw "B" "Movie" "soon" "500,000" "Spanish" ].

Definition bad_date : DataFrame :=
  Eval vm_compute in
    match load raw_bad_date with Ok t => t | Raise _ => [] end.

Definition raw_bad_hours : list RawRow :=
  [ mkRaw "A" "Movie" "2023-03-05" "1,000,000" "English";
    mkRaw "B" "Movie" "2023-03-09" "12abc" "Spanish" ].

(** A file whose dates carry an offset of one hour. Half past midnight on
    Sunday 5 March is still Saturday in UTC, and half past midnight on
    1 April is still March. *)
Definition raw_one_offset : list RawRow :=
  [ mkRaw "A" "Movie" "2023-03-05T00:30:00+01:00" "1,000,000" "English";
    mkRaw "B" "Movie" "2023-04-01T00:30:00+01:00" "500,000" "Spanish" ].

Definition one_offset : DataFrame :=
  Eval vm_compute in
    match load raw_one_offset with Ok t => t | Raise _ => [] end.

(** A file whose dates carry two different offsets. *)
Definition raw_two_offsets : list RawRow :=
  [ mkRaw "A" "Movie" "2023-03-05T00:30:00+01:00" "1,000,000" "English";
    mkRaw "B" "Movie" "2023-03-09T00:30:00+02:00" "500,000" "Spanish" ].

(** Three releases, on three Thursdays of January, whose hours are whole
    numbers too large to add exactly in float64. *)
Definition raw_large_hours : list RawRow :=
  [ mkRawNum "A" "Movie" "2023-01-05" 1e16 "English";
    mkRawNum "B" "Movie" "2023-01-12" 1 "English";
    mkRawNum "C" "Movie" "2023-01-19" 1 "English" ].

Definition large_hours : DataFrame :=
  Eval vm_compute in
    match load raw_large_hours with Ok t => t | Raise _ => [] end.

(** Three releases whose hours are finite and add up to more than float64
    can hold. *)
Definition raw_overflowing_hours : list RawRow :=
  [ mkRawNum "A" "Movie" "2023-01-05" 1e308 "English";
    mkRawNum "B" "Movie" "2023-01-09" 1e308 "English";
    mkRawNum "C" "Movie" "2023-01-19" 1 "English" ].

Definition overflowing_hours : DataFrame :=
  Eval vm_compute in
    match load raw_overflowing_hours with Ok t => t | Raise _ => [] end.

(** Releases of two months, with hours that are whole numbers. *)
Definition raw_two_months : list RawRow :=
  [ mkRaw "A" "Movie" "2023-01-05" "1,000" "English";
    mkRaw "B" "Movie" "2023-02-09" "2,000" "Spanish";
    mkRaw "C" "Movie" "2023-01-19" "3,000" "English" ].

Definition two_months : DataFrame :=
  Eval vm_compute in
    match load raw_two_months with Ok t => t | Raise _ => [] end.

End ExampleData.

(** ** A cell of the month-by-type table, said directly *)

(** The rows released in month [m] whose content type is [c]. *)
Definition in_month_of_type (m : Z) (c : string) (r : Row) : bool :=
  Pandas.key_is Z.eq_dec Release_Month m r && Pandas.key_is string_dec Content_Type c r.

(** The summed hours of these rows, as a grouped sum adds them; NaN when
    there is no such row. *)
Definition spec_pivot_cell (t : DataFrame) (m : Z) (c : string) : float :=
  match filter (in_month_of_type m c) t with
  | [] => PrimFloat.nan
  | g => Pandas.group_sum_float64 (map Hours_Viewed g)
  end.

(* ===================================================================== *)
(** * Part II: properties                                                 *)
(* ===================================================================== *)

(** ** Proof automation *)

(** Linear arithmetic with [/], [mod], [Z.quot] and [Z.rem] by constants. *)
Ltac div_lia := Z.to_euclidean_division_equations; lia.

(** Evaluates the table look-ups and comparisons of constants in the goal. *)
Ltac eval_closed :=
  repeat match goal with
  | |- context [nth ?n Datetime.sakamoto_arr 0] =>
      let v := eval vm_compute in (nth n Datetime.sakamoto_arr 0) in
      change (nth n Datetime.sakamoto_arr 0) with v
  | |- context [Z.pos ?a <? Z.pos ?b] =>
      let v := eval vm_compute in (Z.pos a <? Z.pos b) in
      change (Z.pos a <? Z.pos b) with v
  | |- context [Z.pos ?a <=? Z.pos ?b] =>
      let v := eval vm_compute in (Z.pos a <=? Z.pos b) in
      change (Z.pos a <=? Z.pos b) with v
  end; cbv iota.

(** ** binary64 facts *)

Module FloatFacts.
Import Pandas.

Lemma SFcompare_refl (f : spec_float) :
  f <> S754_nan -> SFcompare f f = Some Eq.
Proof.
  destruct f as [s | s | | s m e]; simpl; intros H; try congruence.
  - destruct s; reflexivity.
  - rewrite Z.compare_refl, Pos.compare_cont_refl. destruct s; reflexivity.
Qed.

Lemma isna_spec (x : float) : isna x = true <-> Prim2SF x = S754_nan.
Proof.
  unfold isna, PrimFloat.is_nan. rewrite eqb_spec. unfold SFeqb. split.
  - intros H. destruct (Prim2SF x) eqn:E; try reflexivity;
      rewrite SFcompare_refl in H by congruence; discriminate.
  - intros ->. reflexivity.
Qed.

Lemma isna_false_spec (x : float) : isna x = false <-> Prim2SF x <> S754_nan.
Proof.
  rewrite <- isna_spec. destruct (isna x); split; congruence.
Qed.

Lemma SFcompare_antisym (f g : spec_float) (c : comparison) :
  SFcompare f g = Some c -> SFcompare g f = Some (CompOpp c).
Proof.
  destruct f as [s | s | | s m e], g as [s' | s' | | s' m' e']; simpl;
    try discriminate;
    intros H; injection H as <-;
    try (destruct s, s'; reflexivity);
    try (destruct s; reflexivity);
    try (destruct s'; reflexivity).
  assert (Hm : Pos.compare_cont Eq m' m = CompOpp (Pos.compare_cont Eq m m'))
    by (symmetry; apply (Pos.compare_cont_antisym m m' Eq)).
  rewrite (Z.compare_antisym e e'), Hm.
  destruct s, s'; try reflexivity;
    destruct (e ?= e')%Z; simpl; try reflexivity;
    destruct (Pos.compare_cont Eq m m'); reflexivity.
Qed.

Lemma leb_total (x y : float) :
  isna x = false -> isna y = false ->
  (x <=? y)%float = false -> (y <=? x)%float = true.
Proof.
  rewrite !isna_false_spec, !leb_spec. unfold SFleb. intros Hx Hy.
  destruct (SFcompare (Prim2SF x) (Prim2SF y)) as [c |] eqn:E.
  - rewrite (SFcompare_antisym _ _ _ E). destruct c; simpl; congruence.
  - destruct (Prim2SF x), (Prim2SF y); simpl in E; congruence.
Qed.

Lemma nonneg_spec (x : float) :
  (0 <=? x)%float = true <-> SF_nonneg (Prim2SF x).
Proof.
  rewrite leb_spec. change (Prim2SF 0) with (S754_zero false).
  unfold SFleb. destruct (Prim2SF x) as [s | s | | s m e]; simpl;
    try destruct s; split; intros H; congruence || exact I || contradiction.
Qed.

Lemma shr_1_nonneg (mrs : shr_record) :
  (0 <= shr_m mrs)%Z -> (0 <= shr_m (shr_1 mrs))%Z.
Proof.
  destruct mrs as [m r s]. destruct m as [| p | p]; try destruct p; simpl; lia.
Qed.

Lemma iter_shr_1_nonneg (p : positive) :
  forall mrs, (0 <= shr_m mrs)%Z -> (0 <= shr_m (iter_pos shr_1 p mrs))%Z.
Proof.
  induction p as [p IH | p IH |]; simpl; intros mrs H;
    auto using shr_1_nonneg.
Qed.

Lemma shr_fexp_nonneg (m e : Z) (l : location) :
  (0 <= m)%Z -> (0 <= shr_m (fst (shr_fexp prec emax m e l)))%Z.
Proof.
  intros H. unfold shr_fexp, shr.
  assert (H0 : (0 <= shr_m (shr_record_of_loc m l))%Z)
    by (destruct l as [| []]; exact H).
  destruct (fexp prec emax (Zdigits2 m + e) - e)%Z; simpl; trivial.
  now apply iter_shr_1_nonneg.
Qed.

Lemma round_nearest_even_nonneg (m : Z) (l : location) :
  (0 <= m)%Z -> (0 <= round_nearest_even m l)%Z.
Proof.
  intros H. destruct l as [| []]; simpl; try destruct (Z.even m); lia.
Qed.

Lemma binary_round_aux_nonneg (m e : Z) (l : location) :
  (0 <= m)%Z -> SF_nonneg (binary_round_aux prec emax false m e l).
Proof.
  intros H. unfold binary_round_aux.
  pose proof (shr_fexp_nonneg m e l H) as H1.
  destruct (shr_fexp prec emax m e l) as [mrs' e']. simpl in H1.
  pose proof (shr_fexp_nonneg _ e' loc_Exact
                (round_nearest_even_nonneg _ (loc_of_shr_record mrs') H1)) as H2.
  destruct (shr_fexp prec emax _ e' loc_Exact) as [mrs'' e'']. simpl in H2.
  destruct (shr_m mrs'') as [| p | p]; simpl; trivial.
  - destruct (_ <=? _)%Z; exact eq_refl.
  - lia.
Qed.

Lemma SFadd_nonneg (f g : spec_float) :
  SF_nonneg f -> SF_nonneg g -> SF_nonneg (SF64add f g).
Proof.
  destruct f as [s | s | | s m e], g as [s' | s' | | s' m' e']; simpl;
    intros Hf Hg; subst; trivial; try contradiction; try exact eq_refl;
    try (destruct s, s'; exact I).
  set (a := fst (shl_align m e _)). set (b := fst (shl_align m' e' _)).
  change (cond_Zopp false (Z.pos a) + cond_Zopp false (Z.pos b))%Z
    with (Z.pos (a + b)).
  unfold binary_normalize, binary_round.
  destruct (shl_align (a + b) _ _) as [mz ez].
  apply binary_round_aux_nonneg. lia.
Qed.

Lemma add_nonneg (x y : float) :
  (0 <=? x)%float = true -> (0 <=? y)%float = true ->
  (0 <=? x + y)%float = true.
Proof.
  rewrite !nonneg_spec, add_spec. apply SFadd_nonneg.
Qed.

Lemma nonneg_notna (x : float) : (0 <=? x)%float = true -> isna x = false.
Proof.
  rewrite nonneg_spec, isna_false_spec. destruct (Prim2SF x); simpl; congruence.
Qed.
End FloatFacts.

(** ** The summation routines *)

Section PairwiseSumFacts.
Context {F : Type}.
Variable add : F -> F -> F.
Variable neg_zero : F.

Lemma pairwise_sum_eq (fuel : nat) (a : list F) :
  Pandas.pairwise_sum add neg_zero fuel a
  = let n := List.length a in
    if (n <? 8)%nat then Pandas.accumulate add neg_zero a
    else if (n <=? 128)%nat then
      match a with
      | x0 :: x1 :: x2 :: x3 :: x4 :: x5 :: x6 :: x7 :: a' =>
          let '((r0, r1, r2, r3, r4, r5, r6, r7), rest) :=
            Pandas.unrolled_loop add (x0, x1, x2, x3, x4, x5, x6, x7) a' in
          Pandas.accumulate add
            (add (add (add r0 r1) (add r2 r3)) (add (add r4 r5) (add r6 r7)))
            rest
      | _ => Pandas.accumulate add neg_zero a
      end
    else
      match fuel with
      | S fuel' =>
          let n2 := (n / 2 - (n / 2) mod 8)%nat in
          add (Pandas.pairwise_sum add neg_zero fuel' (firstn n2 a))
              (Pandas.pairwise_sum add neg_zero fuel' (skipn n2 a))
      | O => Pandas.accumulate add neg_zero a
      end.
Proof. destruct fuel; reflexivity. Qed.

(** Where a long array is cut: both parts are shorter than the array. *)
Lemma split_point (n : nat) :
  (128 < n)%nat ->
  let n2 := (n / 2 - (n / 2) mod 8)%nat in
  (0 < n2 /\ n2 < n)%nat.
Proof.
  intros Hn n2.
  pose proof (Nat.div_mod_eq n 2) as Hq.
  pose proof (Nat.mod_upper_bound n 2 ltac:(discriminate)) as Hr.
  pose proof (Nat.mod_upper_bound (n / 2) 8 ltac:(discriminate)) as Hm.
  unfold n2. lia.
Qed.

(** The length of the array is fuel enough: with that much or more, the
    result does not depend on the fuel. *)
Lemma pairwise_sum_fuel (fuel fuel' : nat) (a : list F) :
  (List.length a <= fuel)%nat -> (List.length a <= fuel')%nat ->
  Pandas.pairwise_sum add neg_zero fuel a = Pandas.pairwise_sum add neg_zero fuel' a.
Proof.
  revert fuel' a. induction fuel as [| fuel IH]; intros fuel' a H H';
    rewrite (pairwise_sum_eq _ a), (pairwise_sum_eq fuel' a); cbv zeta;
    destruct (Nat.ltb_spec (List.length a) 8) as [H8 | H8]; trivial;
    destruct (Nat.leb_spec (List.length a) 128) as [H128 | H128]; trivial.
  - lia.
  - destruct fuel' as [| fuel']; [lia |].
    destruct (split_point (List.length a) H128) as [Hpos Hlt].
    f_equal; apply IH.
    + rewrite length_firstn. lia.
    + rewrite length_firstn. lia.
    + rewrite length_skipn. lia.
    + rewrite length_skipn. lia.
Qed.

End PairwiseSumFacts.

(** A float64 total of hours that are in range is a number, and not
    negative. *)
Section TotalInRange.
Import Pandas.

Lemma accumulate_nonneg (a : list float) (res : float) :
  not_negative res -> Forall not_negative a ->
  not_negative (accumulate PrimFloat.add res a).
Proof.
  unfold accumulate. revert res.
  induction a as [| x a IH]; intros res Hres Ha; simpl; trivial.
  inversion Ha as [| ? ? Hx Ha']; subst.
  apply IH; trivial. now apply FloatFacts.add_nonneg.
Qed.

Lemma unrolled_loop_nonneg (a : list float) :
  forall r0 r1 r2 r3 r4 r5 r6 r7,
  Forall not_negative [r0; r1; r2; r3; r4; r5; r6; r7] -> Forall not_negative a ->
  let '((s0, s1, s2, s3, s4, s5, s6, s7), rest) :=
    unrolled_loop PrimFloat.add (r0, r1, r2, r3, r4, r5, r6, r7) a in
  Forall not_negative [s0; s1; s2; s3; s4; s5; s6; s7] /\ Forall not_negative rest.
Proof.
  remember (List.length a) as n eqn:En. revert a En.
  induction n as [n IH] using lt_wf_ind. intros a En r0 r1 r2 r3 r4 r5 r6 r7 Hr Ha.
  destruct a as [| x0 [| x1 [| x2 [| x3 [| x4 [| x5 [| x6 [| x7 a']]]]]]]];
    try (split; assumption).
  cbn [unrolled_loop].
  repeat match goal with
         | H : Forall not_negative (_ :: _) |- _ =>
             let Hx := fresh "Hx" in
             inversion H as [| ? ? Hx ?]; subst; clear H
         end.
  apply (IH (List.length a') ltac:(simpl; lia) a' eq_refl); trivial.
  repeat constructor; now apply FloatFacts.add_nonneg.
Qed.

Lemma pairwise_sum_nonneg (fuel : nat) (a : list float) :
  Forall not_negative a -> not_negative (pairwise_sum PrimFloat.add neg_zero fuel a).
Proof.
  assert (Hacc : forall a, Forall not_negative a ->
                   not_negative (accumulate PrimFloat.add neg_zero a))
    by (intros l Hl; apply accumulate_nonneg; [reflexivity | exact Hl]).
  revert a. induction fuel as [| fuel IH]; intros a Ha;
    rewrite pairwise_sum_eq; cbv zeta;
    destruct (List.length a <? 8)%nat; auto;
    destruct (List.length a <=? 128)%nat; auto.
  - destruct a as [| x0 [| x1 [| x2 [| x3 [| x4 [| x5 [| x6 [| x7 a']]]]]]]]; auto.
    assert (H8 : Forall not_negative [x0; x1; x2; x3; x4; x5; x6; x7] /\ Forall not_negative a').
    { repeat match goal with
             | H : Forall not_negative (_ :: _) |- _ =>
                 let Hx := fresh "Hx" in
                 inversion H as [| ? ? Hx ?]; subst; clear H
             end.
      split; [repeat constructor |]; assumption. }
    pose proof (unrolled_loop_nonneg a' x0 x1 x2 x3 x4 x5 x6 x7 (proj1 H8) (proj2 H8)) as H.
    destruct (unrolled_loop PrimFloat.add _ a') as [[[[[[[[s0 s1] s2] s3] s4] s5] s6] s7] rest].
    destruct H as [Hs Hrest].
    repeat match goal with
           | H : Forall not_negative (_ :: _) |- _ =>
               let Hx := fresh "Hx" in
               inversion H as [| ? ? Hx ?]; subst; clear H
           end.
    apply accumulate_nonneg; trivial.
    repeat apply FloatFacts.add_nonneg; assumption.
  - destruct a as [| x0 [| x1 [| x2 [| x3 [| x4 [| x5 [| x6 [| x7 a']]]]]]]]; auto.
    assert (H8 : Forall not_negative [x0; x1; x2; x3; x4; x5; x6; x7] /\ Forall not_negative a').
    { repeat match goal with
             | H : Forall not_negative (_ :: _) |- _ =>
                 let Hx := fresh "Hx" in
                 inversion H as [| ? ? Hx ?]; subst; clear H
             end.
      split; [repeat constructor |]; assumption. }
    pose proof (unrolled_loop_nonneg a' x0 x1 x2 x3 x4 x5 x6 x7 (proj1 H8) (proj2 H8)) as H.
    destruct (unrolled_loop PrimFloat.add _ a') as [[[[[[[[s0 s1] s2] s3] s4] s5] s6] s7] rest].
    destruct H as [Hs Hrest].
    repeat match goal with
           | H : Forall not_negative (_ :: _) |- _ =>
               let Hx := fresh "Hx" in
               inversion H as [| ? ? Hx ?]; subst; clear H
           end.
    apply accumulate_nonneg; trivial.
    repeat apply FloatFacts.add_nonneg; assumption.
  - rewrite Forall_forall in Ha.
    apply FloatFacts.add_nonneg; apply IH; apply Forall_forall; intros x Hx;
      apply Ha; rewrite <- (firstn_skipn (List.length a / 2 - (List.length a / 2) mod 8) a);
      apply in_or_app; [now left | now right].
Qed.

Lemma Series_sum_nonneg (l : list float) :
  Forall (fun x => hours_in_range x = true) l ->
  (0 <=? Series_sum l)%float = true.
Proof.
  intros Hl. unfold Series_sum, nansum.
  apply FloatFacts.add_nonneg; [reflexivity |].
  apply pairwise_sum_nonneg. apply Forall_map.
  eapply Forall_impl; [| exact Hl].
  intros x Hx. unfold not_negative, hours_in_range in *.
  destruct (isna x); [reflexivity | exact Hx].
Qed.

End TotalInRange.

(** ** Sorted lists *)

Section SortedFacts.
Context {A : Type}.
Implicit Types (R : A -> A -> Prop) (l : list A).

Lemma Sorted_weaken R R' l :
  (forall a b, In a l -> In b l -> R a b -> R' a b) ->
  Sorted R l -> Sorted R' l.
Proof.
  intros Himp HS. induction HS as [| a l HS IH Hd]; constructor.
  - apply IH. intros x y Hx Hy. apply Himp; now right.
  - destruct Hd as [| b l Hab]; constructor.
    apply Himp; simpl; auto.
Qed.

Lemma Sorted_app R l1 l2 :
  Sorted R l1 -> Sorted R l2 ->
  (forall a b, In a l1 -> In b l2 -> R a b) ->
  Sorted R (l1 ++ l2).
Proof.
  intros H1 H2 Hcross. induction H1 as [| a l1 H1 IH Hd]; simpl; trivial.
  constructor.
  - apply IH. intros x y Hx Hy. apply Hcross; simpl; auto.
  - destruct Hd as [| b l1 Hab]; simpl.
    + destruct l2 as [| b l2]; constructor. apply Hcross; simpl; auto.
    + now constructor.
Qed.

Lemma Sorted_snoc R l x :
  Sorted R l -> HdRel (fun a b => R b a) x (rev l) -> Sorted R (l ++ [x]).
Proof.
  induction 1 as [| a t Ht IH Hd]; simpl; intros Hx.
  - repeat constructor.
  - constructor.
    + apply IH. destruct (rev t) as [| b u] eqn:E; constructor.
      simpl in Hx. inversion Hx; assumption.
    + destruct t as [| b t']; simpl.
      * constructor. simpl in Hx. inversion Hx; assumption.
      * constructor. inversion Hd; assumption.
Qed.

Lemma Sorted_rev R l :
  Sorted R l -> Sorted (fun a b => R b a) (rev l).
Proof.
  induction 1 as [| a l Hl IH Hd]; simpl.
  - constructor.
  - apply Sorted_snoc; trivial. rewrite rev_involutive. exact Hd.
Qed.

Lemma Sorted_firstn R l (n : nat) : Sorted R l -> Sorted R (firstn n l).
Proof.
  intros HS. revert n. induction HS as [| a l HS IH Hd]; intros [| n]; simpl;
    try constructor.
  - apply IH.
  - destruct Hd as [| b l Hab]; destruct n; simpl; now constructor.
Qed.

Lemma Sorted_map {B : Type} (f : A -> B) (S : B -> B -> Prop) l :
  Sorted (fun a b => S (f a) (f b)) l -> Sorted S (map f l).
Proof.
  induction 1 as [| a l HS IH Hd]; simpl; constructor; trivial.
  destruct Hd; simpl; now constructor.
Qed.
End SortedFacts.

(** ** The sort of [Pandas.sort_asc] *)

Section SortAscFacts.
Context {A : Type} (le : A -> A -> bool).

Lemma insert_sorted_perm (x : A) (l : list A) :
  Permutation (Pandas.insert_sorted le x l) (x :: l).
Proof.
  induction l as [| h t IH]; simpl; [reflexivity |].
  destruct (le x h); [reflexivity |].
  rewrite IH. apply perm_swap.
Qed.

Lemma sort_asc_perm (l : list A) : Permutation (Pandas.sort_asc le l) l.
Proof.
  induction l as [| a l IH]; simpl; [constructor |].
  change (Pandas.sort_asc le (a :: l))
    with (Pandas.insert_sorted le a (Pandas.sort_asc le l)).
  rewrite insert_sorted_perm. now constructor.
Qed.

Lemma sort_asc_In (x : A) (l : list A) : In x (Pandas.sort_asc le l) <-> In x l.
Proof.
  split; apply Permutation_in; [| symmetry]; apply sort_asc_perm.
Qed.

(** The order need only be total on the values that are sorted. *)
Variable P : A -> Prop.
Hypothesis le_total : forall a b, P a -> P b -> le a b = false -> le b a = true.

Lemma insert_sorted_Sorted (x : A) (l : list A) :
  P x -> Forall P l ->
  Sorted (fun a b => le a b = true) l ->
  Sorted (fun a b => le a b = true) (Pandas.insert_sorted le x l).
Proof.
  intros Px HP HS. induction HS as [| h t HS IH Hd]; simpl.
  - repeat constructor.
  - inversion HP as [| ? ? Ph HPt]; subst.
    destruct (le x h) eqn:E.
    + repeat constructor; assumption.
    + constructor; [now apply IH |].
      destruct Hd as [| b t Hhb]; simpl.
      * constructor. now apply le_total.
      * destruct (le x b); constructor; trivial. now apply le_total.
Qed.

Lemma sort_asc_Sorted (l : list A) :
  Forall P l -> Sorted (fun a b => le a b = true) (Pandas.sort_asc le l).
Proof.
  induction 1 as [| a l Pa HP IH]; simpl; [constructor |].
  change (Pandas.sort_asc le (a :: l))
    with (Pandas.insert_sorted le a (Pandas.sort_asc le l)).
  apply insert_sorted_Sorted; trivial.
  eapply Permutation_Forall; [symmetry; apply sort_asc_perm | exact HP].
Qed.
End SortAscFacts.

(** ** Nulls and masks *)

Lemma dropna_In {A : Type} (a : A) (s : list (option A)) :
  In a (Pandas.dropna s) <-> In (Some a) s.
Proof.
  induction s as [| [b |] s IH]; simpl.
  - tauto.
  - rewrite IH. split; intros [H | H]; auto; left; congruence.
  - rewrite IH. split; [auto | intros [H | H]; [discriminate | assumption]].
Qed.


(** Indexing a frame by a mask computed row by row is a filter. *)
Lemma getitem_mask_map {R : Type} (p : R -> bool) (df : list R) :
  Pandas.getitem_mask df (map p df) = filter p df.
Proof.
  induction df as [| r df IH]; simpl; trivial.
  rewrite IH. reflexivity.
Qed.

Lemma mask_and_map {R : Type} (p q : R -> bool) (df : list R) :
  Pandas.mask_and (map p df) (map q df) = map (fun r => p r && q r) df.
Proof.
  induction df as [| r df IH]; simpl; congruence.
Qed.

Lemma filter_filter {R : Type} (p q : R -> bool) (l : list R) :
  filter q (filter p l) = filter (fun r => p r && q r) l.
Proof.
  induction l as [| r l IH]; simpl; trivial.
  destruct (p r); simpl; [destruct (q r) |]; congruence.
Qed.

Lemma filter_none {R : Type} (p : R -> bool) (l : list R) :
  (forall r, In r l -> p r = false) -> filter p l = [].
Proof.
  induction l as [| r l IH]; simpl; intros H; trivial.
  rewrite (H r (or_introl eq_refl)). apply IH. intros x Hx. apply H. now right.
Qed.

(** ** Groups *)

Lemma filter_disjoint_perm {R : Type} (p q : R -> bool) (l : list R) :
  (forall r, In r l -> p r = true -> q r = false) ->
  Permutation (filter p l ++ filter q l) (filter (fun r => p r || q r) l).
Proof.
  induction l as [| r l IH]; simpl; intros Hd; [constructor |].
  assert (IH' := IH (fun x Hx => Hd x (or_intror Hx))).
  destruct (p r) eqn:Ep; simpl.
  - rewrite (Hd r (or_introl eq_refl) Ep). now constructor.
  - destruct (q r); [| exact IH'].
    rewrite <- IH'. symmetry. apply Permutation_middle.
Qed.

Section GroupByFacts.
Context {R K : Type}.
Variable K_dec : forall a b : K, {a = b} + {a <> b}.
Variable K_leb : K -> K -> bool.
Variable key : R -> option K.

Lemma key_is_true (k : K) (r : R) :
  Pandas.key_is K_dec key k r = true <-> key r = Some k.
Proof.
  unfold Pandas.key_is. destruct (key r) as [k' |]; [| split; discriminate].
  destruct (K_dec k' k); split; congruence.
Qed.

Lemma key_is_existsb (ks : list K) (r : R) :
  existsb (fun k => Pandas.key_is K_dec key k r) ks = true <->
  exists k, In k ks /\ key r = Some k.
Proof.
  rewrite existsb_exists. split; intros [k [Hk H]]; exists k;
    (split; [exact Hk | now apply key_is_true]).
Qed.

(** Distinct labels cut the frame into disjoint groups. *)
Lemma groups_partition (ks : list K) (l : list R) :
  NoDup ks ->
  Permutation (flat_map (fun k => filter (Pandas.key_is K_dec key k) l) ks)
              (filter (fun r => existsb (fun k => Pandas.key_is K_dec key k r) ks) l).
Proof.
  induction 1 as [| k ks Hk Hnd IH]; simpl.
  - induction l; simpl; trivial.
  - rewrite IH. apply filter_disjoint_perm.
    intros r _ Hr. apply key_is_true in Hr.
    destruct (existsb _ ks) eqn:E; trivial.
    apply key_is_existsb in E. destruct E as [k' [Hk' E]].
    congruence.
Qed.

Lemma group_keys_In (k : K) (l : list R) :
  In k (Pandas.group_keys K_dec K_leb key l) <-> exists r, In r l /\ key r = Some k.
Proof.
  unfold Pandas.group_keys.
  rewrite sort_asc_In, nodup_In, dropna_In, in_map_iff.
  split; intros [r H]; exists r; tauto.
Qed.

Lemma group_keys_NoDup (l : list R) : NoDup (Pandas.group_keys K_dec K_leb key l).
Proof.
  unfold Pandas.group_keys.
  eapply Permutation_NoDup; [symmetry; apply sort_asc_perm | apply NoDup_nodup].
Qed.

Lemma groupby_rows (l : list R) :
  flat_map snd (Pandas.groupby K_dec K_leb key l)
  = flat_map (fun k => filter (Pandas.key_is K_dec key k) l)
      (Pandas.group_keys K_dec K_leb key l).
Proof.
  unfold Pandas.groupby.
  induction (Pandas.group_keys K_dec K_leb key l) as [| k ks IH]; simpl; congruence.
Qed.

(** Distinct labels that cover the keys of the frame: the groups are the
  rows with a key, each in exactly one group. *)
Lemma groups_cover (ks : list K) (l : list R) :
  NoDup ks ->
  (forall r k, In r l -> key r = Some k -> In k ks) ->
  Permutation (flat_map (fun k => filter (Pandas.key_is K_dec key k) l) ks)
              (filter (fun r => Pandas.notna (key r)) l).
Proof.
  intros Hnd Hcov. rewrite (groups_partition ks l Hnd).
  erewrite filter_ext_in; [reflexivity |].
  intros r Hr. simpl.
  destruct (key r) as [k |] eqn:E; simpl.
  - apply key_is_existsb. exists k. split; trivial. now apply (Hcov r).
  - destruct (existsb _ _) eqn:E'; trivial.
    apply key_is_existsb in E'. destruct E' as [k [_ E']]. congruence.
Qed.

(** [groupby] drops the rows with a null key and keeps every other row in
  exactly one group. *)
Lemma groupby_partition (l : list R) :
  Permutation (flat_map snd (Pandas.groupby K_dec K_leb key l))
              (filter (fun r => Pandas.notna (key r)) l).
Proof.
  rewrite groupby_rows. apply groups_cover; [apply group_keys_NoDup |].
  intros r k Hr E. apply group_keys_In. now exists r.
Qed.

Lemma count_occ_key (k : K) (l : list R) :
  count_occ K_dec (Pandas.dropna (map key l)) k
  = List.length (filter (Pandas.key_is K_dec key k) l).
Proof.
  induction l as [| r l IH]; simpl; trivial.
  unfold Pandas.key_is at 1. destruct (key r) as [k' |]; simpl; trivial.
  destruct (K_dec k' k); simpl; congruence.
Qed.
End GroupByFacts.

(** ** The example tables are what preprocessing produces *)

Example load_two_movies :
  ExampleParsers.load ExampleData.raw_two_movies = Ok ExampleData.two_movies.
Proof. vm_compute. reflexivity. Qed.

Example load_three_fractions :
  ExampleParsers.load ExampleData.raw_three_fractions = Ok ExampleData.three_fractions.
Proof. vm_compute. reflexivity. Qed.

Example load_untyped_row :
  ExampleParsers.load ExampleData.raw_untyped_row = Ok ExampleData.untyped_row.
Proof. vm_compute. reflexivity. Qed.

Example load_bad_date :
  ExampleParsers.load ExampleData.raw_bad_date = Ok ExampleData.bad_date.
Proof. vm_compute. reflexivity. Qed.

(** The specification's example: two rows pass the filter, March sums to
    1,500,000, and the top content lists A before B. *)
Example spec_example_two_movies :
  let fd := filtered_data ExampleData.two_movies ExampleData.all_movies in
  List.length fd = 2%nat /\
  monthly_viewership fd = [(3, 1500000%float)] /\
  top_content fd = [(Some "A", 1000000%float); (Some "B", 500000%float)] /\
  selectable ExampleData.two_movies ExampleData.all_movies = true.
Proof. vm_compute. repeat split. Qed.

(** ** Filter Engine *)

(** The mask of lines 44 to 48, row by row. *)
Lemma filtered_data_filter (t : DataFrame) (sel : Selection) :
  filtered_data t sel
  = filter (fun r =>
      match Content_Type r, content_type sel with
      | Some a, Some b => String.eqb a b
      | _, _ => false
      end
      && match Release_Month r with
         | Some m => (fst (month_range sel) <=? m) && (m <=? snd (month_range sel))
         | None => false
         end
      && match languages sel with
         | [] => true
         | _ :: _ =>
             match Language_Indicator r with
             | Some a => existsb (String.eqb a) (languages sel)
             | None => false
             end
         end) t.
Proof.
  unfold filtered_data, Pandas.eq_scalar, Pandas.between, Pandas.isin.
  rewrite !map_map, mask_and_map, getitem_mask_map.
  destruct (languages sel) as [| l ls].
  - apply filter_ext. intros r. now rewrite andb_true_r.
  - rewrite getitem_mask_map, filter_filter. reflexivity.
Qed.

Lemma existsb_eqb_in (a : string) (l : list string) :
  existsb (String.eqb a) l = if in_dec string_dec a l then true else false.
Proof.
  destruct (in_dec string_dec a l) as [H | H].
  - apply existsb_exists. exists a. split; trivial. apply String.eqb_refl.
  - destruct (existsb (String.eqb a) l) eqn:E; trivial.
    apply existsb_exists in E. destruct E as [x [Hx E]].
    apply String.eqb_eq in E. subst. contradiction.
Qed.

Lemma spec_row_matchesb_spec (c : string) (lo hi : Z) (langs : list string) (r : Row) :
  spec_row_matchesb c lo hi langs r = true <-> spec_row_matches c lo hi langs r.
Proof.
  unfold spec_row_matchesb, spec_row_matches.
  rewrite !andb_true_iff. split.
  - intros [[H1 H2] H3]. repeat split.
    + destruct (Content_Type r); [| discriminate].
      apply String.eqb_eq in H1. congruence.
    + destruct (Release_Month r) as [m |]; [| discriminate].
      exists m. split; trivial. apply andb_true_iff in H2. lia.
    + destruct langs as [| l0 ls]; [now left | right].
      destruct (Language_Indicator r) as [l |]; [| discriminate].
      exists l. split; trivial.
      destruct (in_dec string_dec l (l0 :: ls)); [assumption | discriminate].
  - intros [H1 [[m [H2 Hm]] H3]]. rewrite H1, H2. repeat split.
    + apply String.eqb_refl.
    + apply andb_true_iff. lia.
    + destruct langs as [| l0 ls]; trivial.
      destruct H3 as [H3 | [l [H3 Hl]]]; [discriminate |].
      rewrite H3. destruct (in_dec string_dec l (l0 :: ls)); [reflexivity | contradiction].
Qed.

(** C2. For every table, content type, month range and language set, the
    Filter Engine returns exactly the rows that have the selected content
    type, a known release month within the range and, when languages are
    selected, one of these languages; the rows come in input order; when no
    row matches the result is the empty frame (the filter cannot raise). *)
Theorem filter_engine_exact (t : DataFrame) (c : string) (lo hi : Z)
    (langs : list string) :
  let sel := {| content_type := Some c; month_range := (lo, hi); languages := langs |} in
  filtered_data t sel = filter (spec_row_matchesb c lo hi langs) t /\
  (forall r, spec_row_matchesb c lo hi langs r = true <-> spec_row_matches c lo hi langs r) /\
  ((forall r, In r t -> ~ spec_row_matches c lo hi langs r) -> filtered_data t sel = []).
Proof.
  intros sel.
  assert (E : filtered_data t sel = filter (spec_row_matchesb c lo hi langs) t).
  { rewrite filtered_data_filter. apply filter_ext. intros r.
    unfold spec_row_matchesb, sel; simpl.
    destruct langs as [| l0 ls]; trivial.
    destruct (Language_Indicator r) as [l |]; trivial.
    now rewrite existsb_eqb_in. }
  split; [exact E |]. split; [apply spec_row_matchesb_spec |].
  intros Hnone. rewrite E. apply filter_none.
  intros r Hr. destruct (spec_row_matchesb c lo hi langs r) eqn:Er; trivial.
  exfalso. apply (Hnone r Hr). now apply spec_row_matchesb_spec.
Qed.

(** ** Summary metrics on an empty filtered set *)

(** C1 (the code departs from the claim). For every selection whose filtered
    set is empty, the total of ['Hours Viewed'] is 0.0 and the number of
    unique titles is 0, as the claim says; but line 54 takes [idxmax] of an
    empty Series, which raises [ValueError]: the "most viewed type" is neither
    omitted nor flagged, the exception ends the run of the script. *)
Theorem summary_metrics_empty_filtered_set (t : DataFrame) (sel : Selection) :
  filtered_data t sel = [] ->
  total_hours (filtered_data t sel) = 0%float /\
  unique_titles (filtered_data t sel) = 0%nat /\
  most_viewed_type (filtered_data t sel)
    = Raise (ValueError "attempt to get argmax of an empty sequence") /\
  dashboard t sel = Raise (ValueError "attempt to get argmax of an empty sequence").
Proof.
  intros E. unfold dashboard. rewrite E. repeat split.
Qed.

(** The selection "Movie, January to January" over the specification's two
    March releases is one the sidebar can produce; its filtered set is empty
    and the run ends in the exception. *)
Lemma summary_metrics_empty_witness :
  selectable ExampleData.two_movies ExampleData.movies_in_january = true /\
  filtered_data ExampleData.two_movies ExampleData.movies_in_january = [] /\
  dashboard ExampleData.two_movies ExampleData.movies_in_january
    = Raise (ValueError "attempt to get argmax of an empty sequence").
Proof.
  split; [reflexivity |]. split; [reflexivity |].
  exact (proj2 (proj2 (proj2
    (summary_metrics_empty_filtered_set
       ExampleData.two_movies ExampleData.movies_in_january eq_refl)))).
Defined.


(** ** Exceptions in a column operation *)

Lemma mapM_Ok {A B : Type} (f : A -> result B) (l : list A) (out : list B) :
  mapM f l = Ok out -> Forall2 (fun a b => f a = Ok b) l out.
Proof.
  revert out. induction l as [| a l IH]; simpl; intros out H.
  - injection H as <-. constructor.
  - destruct (f a) as [b |] eqn:Ea; simpl in H; [| discriminate].
    destruct (mapM f l) as [bs |]; simpl in H; [| discriminate].
    injection H as <-. constructor; auto.
Qed.

Lemma mapM_Raise {A B : Type} (f : A -> result B) (l : list A) :
  (exists e, mapM f l = Raise e) <-> (exists a e, In a l /\ f a = Raise e).
Proof.
  induction l as [| a l IH]; simpl.
  - split; [intros [e H]; discriminate | intros [a [e [[] _]]]].
  - destruct (f a) as [b |] eqn:Ea; simpl.
    + destruct (mapM f l) as [bs |]; simpl.
      * split; [intros [e H]; discriminate |].
        intros [x [e [[-> | Hx] Hf]]]; [congruence |].
        destruct (proj2 IH) as [e' He']; [now exists x, e | discriminate].
      * split; [| intros _; now exists e].
        intros _. destruct (proj1 IH) as [x [e' [Hx Hf]]]; [now exists e |].
        exists x, e'. auto.
    + split; [| intros _; now exists e].
      intros _. exists a, e. auto.
Qed.


(** ** Preprocessing of ['Hours Viewed'] *)

Lemma remove_commas_spec (s : string) :
  list_ascii_of_string (remove_commas s)
  = filter (fun c => negb (Ascii.eqb c ",")) (list_ascii_of_string s).
Proof.
  induction s as [| c s IH]; simpl; trivial.
  destruct (Ascii.eqb c ","); simpl; congruence.
Qed.

Section NormalizerFacts.
Variable py_float : string -> option float.
Variable parse_datetime : string -> option Datetime.Timestamp.

Lemma astype_float_replace (c : cell) (x : float) :
  astype_float py_float (replace_commas c) = Ok x <->
  match c with
  | Text s => py_float (remove_commas s) = Some x
  | Number y => x = y
  end.
Proof.
  destruct c as [s | y]; simpl.
  - destruct (py_float (remove_commas s)); split; congruence.
  - split; congruence.
Qed.

Lemma astype_float_raises (c : cell) :
  (exists e, astype_float py_float (replace_commas c) = Raise e) <->
  (exists s, c = Text s /\ py_float (remove_commas s) = None).
Proof.
  destruct c as [s | y]; simpl.
  - destruct (py_float (remove_commas s)) eqn:E.
    + split; [intros [e H]; discriminate | intros [s' [H H']]; congruence].
    + split; [intros _; now exists s | intros _; eexists; reflexivity].
  - split; [intros [e H]; discriminate | intros [s [H _]]; discriminate].
Qed.

(** C3. Normalization of ['Hours Viewed'] deletes exactly the comma
  characters of a text cell and hands the rest to the float parser: on
  success every value is the parse of the comma-free text of its cell (a
  number read by [read_csv] stays as it is); a text that does not parse
  after comma removal makes the operation raise, and then so does the
  whole preprocessing: no other number is ever put in its place. *)
Theorem hours_viewed_normalization (col : list cell) :
  (forall s, list_ascii_of_string (remove_commas s)
             = filter (fun c => negb (Ascii.eqb c ",")) (list_ascii_of_string s)) /\
  (forall out, normalize_Hours_Viewed py_float col = Ok out ->
     Forall2 (fun c x => match c with
                         | Text s => py_float (remove_commas s) = Some x
                         | Number y => x = y
                         end) col out) /\
  ((exists e, normalize_Hours_Viewed py_float col = Raise e) <->
   (exists s, In (Text s) col /\ py_float (remove_commas s) = None)) /\
  (forall raw e,
     normalize_Hours_Viewed py_float (map raw_Hours_Viewed raw) = Raise e ->
     preprocess py_float parse_datetime raw = Raise e).
Proof.
  split; [exact remove_commas_spec |]. split; [| split].
  - intros out H. apply mapM_Ok in H.
    remember (map replace_commas col) as col' eqn:E. revert col E.
    induction H as [| c' x col' out Hc H IH]; intros [| c col] E;
      try discriminate; constructor.
    + injection E as -> _. now apply astype_float_replace.
    + injection E as _ E. now apply IH.
  - unfold normalize_Hours_Viewed. rewrite mapM_Raise. split.
    + intros [c' [e [Hin H]]]. apply in_map_iff in Hin.
      destruct Hin as [c [<- Hin]].
      destruct (proj1 (astype_float_raises c)) as [s [-> Hs]]; [now exists e |].
      now exists s.
    + intros [s [Hin Hs]].
      destruct (proj2 (astype_float_raises (Text s))) as [e He]; [now exists s |].
      exists (replace_commas (Text s)), e. split; trivial.
      apply in_map_iff. now exists (Text s).
  - intros raw e H. unfold preprocess. now rewrite H.
Qed.

End NormalizerFacts.

(** ** Calendar fields *)

Lemma month_loop_range (month_lengths : list Z) (i days : Z) :
  let m := fst (Datetime.month_loop month_lengths i days) in
  m = 1 \/ i + 1 <= m <= i + Z.of_nat (List.length month_lengths).
Proof.
  revert i days. induction month_lengths as [| len rest IH]; intros i days.
  - now left.
  - cbn [Datetime.month_loop]. destruct (days <? len).
    + right. cbn [fst List.length]. lia.
    + destruct (IH (i + 1) (days - len)) as [H | H]; [now left |].
      right. cbn [List.length]. lia.
Qed.

Lemma get_month_range (i8 : Z) : 1 <= Datetime.get_month i8 <= 12.
Proof.
  unfold Datetime.get_month, Datetime.to_datetimestruct, Datetime.set_datetimestruct_days.
  destruct (Datetime.days_to_yearsdays (Datetime.days_of_ns i8)) as [y yday].
  pose proof (month_loop_range
                (Datetime.days_per_month_table (Datetime.is_leapyear y)) 0 yday) as H.
  destruct (Datetime.month_loop _ 0 yday) as [m d]. cbn [Datetime.month fst] in *.
  destruct (Datetime.is_leapyear y); cbn in H; lia.
Qed.

Lemma dt_month_range (ts : Datetime.Timestamp) : 1 <= Datetime.dt_month ts <= 12.
Proof. apply get_month_range. Qed.

Lemma dayofweek_range (y m d : Z) : 0 <= Datetime.dayofweek y m d < 7.
Proof.
  unfold Datetime.dayofweek.
  set (x := _ + d). 
  pose proof (Z.rem_bound_abs x 7 ltac:(lia)) as Hx.
  assert (H6 : 0 <= Z.rem x 7 + 6) by lia.
  pose proof (Z.rem_bound_pos (Z.rem x 7 + 6) 7 H6 ltac:(lia)).
  lia.
Qed.

Lemma get_day_name_weekday (i8 : Z) : In (Datetime.get_day_name i8) weekdays.
Proof.
  unfold Datetime.get_day_name.
  set (dts := Datetime.to_datetimestruct i8).
  pose proof (dayofweek_range (Datetime.year dts) (Datetime.month dts) (Datetime.day dts)) as H.
  set (k := Datetime.dayofweek _ _ _) in *.
  assert (E : k = 0 \/ k = 1 \/ k = 2 \/ k = 3 \/ k = 4 \/ k = 5 \/ k = 6) by lia.
  destruct E as [-> | [-> | [-> | [-> | [-> | [-> | ->]]]]]]; cbn; tauto.
Qed.

Lemma dt_day_name_weekday (ts : Datetime.Timestamp) : In (Datetime.dt_day_name ts) weekdays.
Proof. apply get_day_name_weekday. Qed.

(** The fields on the dates of the worked examples; the epoch was a
    Thursday. *)
Example day_names :
  map Datetime.get_day_name
    [0; 1677974400000000000; 1678320000000000000; -1]
  = ["Thursday"; "Sunday"; "Thursday"; "Wednesday"].
Proof. vm_compute. reflexivity. Qed.

Example calendar_fields :
  map (fun days => let dts := Datetime.set_datetimestruct_days days in
                   (Datetime.year dts, Datetime.month dts, Datetime.day dts))
    [0; 19421; -1; 19782; 11016; -106751; 106751]
  = [(1970, 1, 1); (2023, 3, 5); (1969, 12, 31); (2024, 2, 29); (2000, 2, 29);
     (1677, 9, 22); (2262, 4, 11)].
Proof. vm_compute. reflexivity. Qed.

(** *** The routines against the civil calendar *)

(** The calendar on known dates: the epoch, a Thursday; the leap day of
    2024, also a Thursday; and 5 March 2023, a Sunday. *)
Example civil_calendar :
  days_from_civil 1970 1 1 = 0 /\ weekday_name 0 = "Thursday" /\
  days_from_civil 2024 2 29 = 19782 /\ weekday_name 19782 = "Thursday" /\
  days_in_month 2024 2 = 29 /\ days_in_month 2023 2 = 28 /\ days_in_month 1900 2 = 28 /\
  days_from_civil 2023 3 5 = 19421 /\ weekday_name 19421 = "Sunday" /\
  days_from_civil 1969 12 31 = -1 /\ weekday_name (-1) = "Wednesday".
Proof. vm_compute. repeat split. Qed.

Lemma leap_year_cases (y : Z) :
  (leap_year y = true /\ y mod 4 = 0 /\ (y mod 100 <> 0 \/ y mod 400 = 0)) \/
  (leap_year y = false /\ (y mod 4 <> 0 \/ (y mod 100 = 0 /\ y mod 400 <> 0))).
Proof.
  unfold leap_year.
  destruct (Z.eqb_spec (y mod 4) 0), (Z.eqb_spec (y mod 100) 0),
    (Z.eqb_spec (y mod 400) 0); simpl; intuition lia.
Qed.

Lemma is_leapyear_leap_year (y : Z) : Datetime.is_leapyear y = leap_year y.
Proof.
  unfold Datetime.is_leapyear, leap_year.
  change 3 with (Z.ones 2). rewrite Z.land_ones by lia. change (2 ^ 2) with 4.
  f_equal. f_equal; [f_equal |].
  - destruct (Z.eqb_spec (Z.rem y 100) 0), (Z.eqb_spec (y mod 100) 0);
      try reflexivity; exfalso; div_lia.
  - destruct (Z.eqb_spec (Z.rem y 400) 0), (Z.eqb_spec (y mod 400) 0);
      try reflexivity; exfalso; div_lia.
Qed.

(** [days_to_yearsdays]: the 400 year cycle [k], the year [Y] within the
    cycle and the day within the year. *)
Lemma days_to_yearsdays_spec (days : Z) :
  exists k Y yd,
    Datetime.days_to_yearsdays days = (2000 + 400 * k + Y, yd) /\
    0 <= Y < 400 /\
    days - 10957 = 146097 * k + days_before_year Y + yd /\
    0 <= yd < (if leap_year (2000 + 400 * k + Y) then 366 else 365).
Proof.
  unfold Datetime.days_to_yearsdays, Datetime.days_per_400years.
  change (365 * 30 + 7) with 10957.
  change (400 * 365 + 100 - 4 + 1) with 146097.
  change (146097 - 1) with 146096.
  change (100 * 365 + 25 - 1) with 36524.
  change (4 * 365 + 1) with 1461.
  set (d := days - 10957).
  set (k := d / 146097).
  set (d400 := d - 146097 * k).
  assert (Hd400 : 0 <= d400 < 146097) by (subst d400 k; div_lia).
  assert (Hd : d = 146097 * k + d400) by (subst d400; lia).
  assert (H1 : (if 0 <=? d
                then (400 * Z.quot d 146097, Z.rem d 146097)
                else (400 * Z.quot (d - 146096) 146097,
                      if Z.rem d 146097 <? 0 then Z.rem d 146097 + 146097
                      else Z.rem d 146097)) = (400 * k, d400)).
  { destruct (0 <=? d) eqn:E.
    - apply Z.leb_le in E. f_equal; subst d400 k; div_lia.
    - apply Z.leb_gt in E.
      destruct (Z.rem d 146097 <? 0) eqn:E2;
        [apply Z.ltb_lt in E2 | apply Z.ltb_ge in E2];
        f_equal; subst d400 k; div_lia. }
  rewrite H1. clearbody d400 k. clear H1. rewrite Hd. clear Hd d.
  exists k.
  assert (Hfin : forall Y yd,
    0 <= Y < 400 -> d400 = days_before_year Y + yd ->
    0 <= yd < (if leap_year Y then 366 else 365) ->
    exists Y' yd',
      (400 * k + Y + 2000, yd) = (2000 + 400 * k + Y', yd') /\
      0 <= Y' < 400 /\
      146097 * k + d400 = 146097 * k + days_before_year Y' + yd' /\
      0 <= yd' < (if leap_year (2000 + 400 * k + Y') then 366 else 365)).
  { intros Y yd HY Hs Hyd. exists Y, yd.
    split; [f_equal; lia |]. split; [exact HY |]. split; [lia |].
    replace (leap_year (2000 + 400 * k + Y)) with (leap_year Y); [exact Hyd |].
    unfold leap_year.
    replace ((2000 + 400 * k + Y) mod 4) with (Y mod 4) by div_lia.
    replace ((2000 + 400 * k + Y) mod 100) with (Y mod 100) by div_lia.
    replace ((2000 + 400 * k + Y) mod 400) with (Y mod 400) by div_lia.
    reflexivity. }
  destruct (366 <=? d400) eqn:E1; [apply Z.leb_le in E1 | apply Z.leb_gt in E1].
  2:{ replace (400 * k + 2000) with (400 * k + 0 + 2000) by lia.
      apply Hfin; [lia | unfold days_before_year; simpl; lia | simpl; lia]. }
  set (c := Z.quot (d400 - 1) 36524).
  set (r1 := Z.rem (d400 - 1) 36524).
  assert (Hc : d400 - 1 = 36524 * c + r1 /\ 0 <= r1 < 36524 /\ 0 <= c <= 3)
    by (subst c r1; div_lia).
  clearbody c r1.
  destruct (365 <=? r1) eqn:E2; [apply Z.leb_le in E2 | apply Z.leb_gt in E2].
  2:{ replace (400 * k + 100 * c + 2000) with (400 * k + (100 * c) + 2000) by lia.
      assert (c = 1 \/ c = 2 \/ c = 3) as [-> | [-> | ->]] by lia;
        (apply Hfin;
         [lia
         | unfold days_before_year; div_lia
         | match goal with
           | |- context [leap_year ?y] =>
               let b := eval vm_compute in (leap_year y) in
               change (leap_year y) with b
           end; lia]). }
  set (q4 := Z.quot (r1 + 1) 1461).
  set (r4 := Z.rem (r1 + 1) 1461).
  assert (Hq : r1 + 1 = 1461 * q4 + r4 /\ 0 <= r4 < 1461 /\ 0 <= q4 <= 24)
    by (subst q4 r4; div_lia).
  clearbody q4 r4.
  destruct (366 <=? r4) eqn:E3; [apply Z.leb_le in E3 | apply Z.leb_gt in E3].
  - set (j := Z.quot (r4 - 1) 365).
    set (yd := Z.rem (r4 - 1) 365).
    assert (Hj : r4 - 1 = 365 * j + yd /\ 0 <= yd < 365 /\ 1 <= j <= 3)
      by (subst j yd; div_lia).
    clearbody j yd.
    replace (400 * k + 100 * c + 4 * q4 + j + 2000)
      with (400 * k + (100 * c + 4 * q4 + j) + 2000) by lia.
    apply Hfin.
    + lia.
    + unfold days_before_year. div_lia.
    + destruct (leap_year_cases (100 * c + 4 * q4 + j)) as [[-> H] | [-> H]]; [| lia].
      exfalso. div_lia.
  - replace (400 * k + 100 * c + 4 * q4 + 2000)
      with (400 * k + (100 * c + 4 * q4) + 2000) by lia.
    apply Hfin.
    + lia.
    + unfold days_before_year. div_lia.
    + destruct (leap_year_cases (100 * c + 4 * q4)) as [[-> H] | [-> H]]; [lia |].
      exfalso. div_lia.
Qed.

(** The date [set_datetimestruct_days] gives is a date of the calendar, and
    it is the date of the day number it was given. *)
Lemma set_datetimestruct_days_spec (days : Z) :
  let dts := Datetime.set_datetimestruct_days days in
  valid_date (Datetime.year dts) (Datetime.month dts) (Datetime.day dts) /\
  days_from_civil (Datetime.year dts) (Datetime.month dts) (Datetime.day dts) = days /\
  (-719162 <= days -> 1 <= Datetime.year dts).
Proof.
  destruct (days_to_yearsdays_spec days) as (k & Y & yd & Hy & HY & Hd & Hyd).
  unfold Datetime.set_datetimestruct_days. rewrite Hy. rewrite is_leapyear_leap_year.
  unfold valid_date, days_in_month.
  set (y := 2000 + 400 * k + Y) in *.
  assert (Hy4 : y mod 4 = Y mod 4) by (subst y; div_lia).
  assert (Hy100 : y mod 100 = Y mod 100) by (subst y; div_lia).
  assert (Hy400 : y mod 400 = Y mod 400) by (subst y; div_lia).
  assert (Hs : days_before_year Y = 365 * Y + Y / 4 - Y / 100
                                    + (if leap_year y then 0 else 1)).
  { unfold days_before_year.
    destruct (leap_year_cases y) as [[-> H] | [-> H]];
      rewrite Hy4, Hy100, Hy400 in H; div_lia. }
  pose proof Hs as Hs'. unfold days_before_year in Hs'.
  assert (Hm1 : (if Y =? 0 then (y - 1) / 400 = 4 + k /\ (y - 1) - (4 + k) * 400 = 399
                 else (y - 1) / 400 = 5 + k /\ (y - 1) - (5 + k) * 400 = Y - 1)).
  { destruct (Z.eqb_spec Y 0); subst y; div_lia. }
  assert (Hm3 : y / 400 = 5 + k /\ y - (5 + k) * 400 = Y) by (subst y; div_lia).
  assert (Hpos : -719162 <= days -> 1 <= y).
  { intros Hdays. subst y. destruct (leap_year (2000 + 400 * k + Y)); div_lia. }
  destruct (leap_year y) eqn:Hl;
    cbn [Datetime.days_per_month_table Datetime.month_loop];
    repeat (match goal with
            | |- context [?a <? ?b] => destruct (Z.ltb_spec a b)
            end);
    cbn [Datetime.year Datetime.month Datetime.day]; try lia.
  all: unfold days_from_civil; rewrite ?Hl.
  all: repeat match goal with
       | |- context [Z.to_nat ?e] =>
           let v := eval vm_compute in (Z.to_nat e) in change (Z.to_nat e) with v
       | |- context [?a <=? 2] =>
           let v := eval vm_compute in (a <=? 2) in change (a <=? 2) with v
       | |- context [2 <? ?a] =>
           let v := eval vm_compute in (2 <? a) in change (2 <? a) with v
       end.
  all: cbn [nth]; cbv iota.
  all: (split; [split; [lia | lia] | split; [| exact Hpos]]).
  all: try (destruct Hm3 as [-> ->]; div_lia).
  all: destruct (Z.eqb_spec Y 0); destruct Hm1 as [-> ->]; div_lia.
Qed.

(** Sakamoto's method counts the days from a Monday: on the dates of the
    common era it agrees with the day number, taken from Thursday
    1970-01-01, modulo 7. *)
Lemma dayofweek_spec (y m d : Z) :
  1 <= y -> 1 <= m <= 12 -> 1 <= d ->
  Datetime.dayofweek y m d = (days_from_civil y m d + 3) mod 7.
Proof.
  intros Hy Hm Hd.
  assert (Hc : m = 1 \/ m = 2 \/ m = 3 \/ m = 4 \/ m = 5 \/ m = 6 \/
               m = 7 \/ m = 8 \/ m = 9 \/ m = 10 \/ m = 11 \/ m = 12) by lia.
  unfold Datetime.dayofweek, days_from_civil.
  repeat (destruct Hc as [-> | Hc]); [.. | subst m]; eval_closed; div_lia.
Qed.

Lemma in_bounds_days (i8 : Z) :
  Datetime.in_bounds i8 = true -> -719162 <= Datetime.days_of_ns i8.
Proof.
  unfold Datetime.in_bounds, Datetime.int64_max, Datetime.days_of_ns, Datetime.ns_per_day.
  rewrite andb_true_iff, !Z.leb_le. intros [H1 H2].
  change (24 * 60 * 60 * 1000000000) with 86400000000000. div_lia.
Qed.

(** The month of a count of nanoseconds is the month of a date of its day,
    and its day name the weekday of that day. *)
Lemma get_month_spec (i8 : Z) :
  exists y d, valid_date y (Datetime.get_month i8) d /\
              days_from_civil y (Datetime.get_month i8) d = i8 / 86400000000000.
Proof.
  destruct (set_datetimestruct_days_spec (Datetime.days_of_ns i8)) as [Hv [Hd _]].
  exists (Datetime.year (Datetime.to_datetimestruct i8)),
         (Datetime.day (Datetime.to_datetimestruct i8)).
  split; [exact Hv | exact Hd].
Qed.

Lemma get_day_name_spec (i8 : Z) :
  Datetime.in_bounds i8 = true ->
  Datetime.get_day_name i8 = weekday_name (i8 / 86400000000000).
Proof.
  intros Hb.
  destruct (set_datetimestruct_days_spec (Datetime.days_of_ns i8)) as [[Hm Hd] [Hc Hy]].
  specialize (Hy (in_bounds_days i8 Hb)).
  unfold Datetime.get_day_name, weekday_name.
  fold (Datetime.to_datetimestruct i8) in *.
  rewrite dayofweek_spec; [| exact Hy | exact Hm | lia].
  rewrite Hc. reflexivity.
Qed.

(** ** The derived columns *)

Section PreprocessFacts.
Variable py_float : string -> option float.
Variable parse_datetime : string -> option Datetime.Timestamp.

(** Assembling the table from its columns is building it row by row. *)
Lemma assign_zip_rows (raw : list RawRow) (hours : list float) :
  let release_date := to_datetime parse_datetime (map raw_Release_Date raw) in
  assign raw hours release_date
    (map (option_map Datetime.dt_month) release_date)
    (map (option_map Datetime.dt_day_name) release_date)
  = zip_rows parse_datetime raw hours.
Proof.
  unfold to_datetime. revert hours.
  induction raw as [| r raw IH]; intros [| h hours]; simpl; trivial.
  now rewrite IH.
Qed.

(** The preprocessing block, with its two ways to raise. *)
Lemma preprocess_eq (raw : list RawRow) :
  preprocess py_float parse_datetime raw
  = (hours <- normalize_Hours_Viewed py_float (map raw_Hours_Viewed raw) ;;
     if Datetime.is_datetime64 (to_datetime parse_datetime (map raw_Release_Date raw))
     then Ok (zip_rows parse_datetime raw hours)
     else Raise (AttributeError "Can only use .dt accessor with datetimelike values")).
Proof.
  unfold preprocess, Datetime.Series_dt_month, Datetime.Series_dt_day_name, Datetime.dt.
  destruct (normalize_Hours_Viewed py_float (map raw_Hours_Viewed raw)) as [hours |];
    cbn [bind]; trivial.
  destruct (Datetime.is_datetime64 _); cbn [bind]; trivial.
  now rewrite assign_zip_rows.
Qed.

Lemma zip_rows_Forall2 (raw : list RawRow) (hours : list float) :
  List.length raw = List.length hours ->
  Forall2 (fun r n => exists h, n = normalize_row parse_datetime r h)
    raw (zip_rows parse_datetime raw hours).
Proof.
  revert hours. induction raw as [| r raw IH]; intros [| h hours] E;
    try discriminate; simpl; constructor.
  - now exists h.
  - apply IH. now injection E.
Qed.

Lemma normalize_Hours_Viewed_length (col : list cell) (hours : list float) :
  normalize_Hours_Viewed py_float col = Ok hours ->
  List.length col = List.length hours.
Proof.
  unfold normalize_Hours_Viewed. intros E.
  apply mapM_Ok, Forall2_length in E. now rewrite length_map in E.
Qed.

Lemma preprocess_Ok_zip (raw : list RawRow) (t : DataFrame) :
  preprocess py_float parse_datetime raw = Ok t ->
  exists hours,
    normalize_Hours_Viewed py_float (map raw_Hours_Viewed raw) = Ok hours /\
    List.length raw = List.length hours /\
    Datetime.is_datetime64 (to_datetime parse_datetime (map raw_Release_Date raw)) = true /\
    t = zip_rows parse_datetime raw hours.
Proof.
  rewrite preprocess_eq.
  destruct (normalize_Hours_Viewed py_float (map raw_Hours_Viewed raw))
    as [hours |] eqn:E; cbn [bind]; [| discriminate].
  destruct (Datetime.is_datetime64 _) eqn:Ed; [| discriminate].
  intros H. injection H as <-. exists hours.
  apply normalize_Hours_Viewed_length in E as Hlen. rewrite length_map in Hlen.
  auto.
Qed.

Lemma preprocess_Ok (raw : list RawRow) (t : DataFrame) :
  preprocess py_float parse_datetime raw = Ok t ->
  Forall2 (fun r n => exists h, n = normalize_row parse_datetime r h) raw t.
Proof.
  intros H. destruct (preprocess_Ok_zip raw t H) as [hours [_ [Hlen [_ ->]]]].
  now apply zip_rows_Forall2.
Qed.

Lemma preprocess_rows (raw : list RawRow) (t : DataFrame) (n : Row) :
  preprocess py_float parse_datetime raw = Ok t -> In n t ->
  exists r h, In r raw /\ n = normalize_row parse_datetime r h.
Proof.
  intros H Hn. apply preprocess_Ok in H.
  induction H as [| r n' raw t [h Hh] H IH]; [contradiction |].
  destruct Hn as [<- | Hn].
  - exists r, h. split; [now left | exact Hh].
  - destruct (IH Hn) as [r' [h' [Hr' E]]]. exists r', h'. split; [now right | exact E].
Qed.

(** A date that was read fits a Timestamp, on the wall clock too. *)
Lemma to_datetime_coerce_Some (c : option string) (ts : Datetime.Timestamp) :
  to_datetime_coerce parse_datetime c = Some ts <->
  (exists s, c = Some s /\ parse_datetime s = Some ts) /\
  Datetime.in_bounds (Datetime.value ts) = true /\
  Datetime.in_bounds (Datetime.local_timestamp ts) = true.
Proof.
  unfold to_datetime_coerce. split.
  - destruct c as [s |]; [| discriminate].
    destruct (parse_datetime s) as [ts' |] eqn:Ep; [| discriminate].
    destruct (Datetime.in_bounds (Datetime.value ts')
              && Datetime.in_bounds (Datetime.local_timestamp ts')) eqn:E;
      [| discriminate].
    intros H. injection H as <-. apply andb_true_iff in E.
    split; [now exists s | exact E].
  - intros [[s [-> Hp]] [H1 H2]]. now rewrite Hp, H1, H2.
Qed.

(** C5. After normalization, in every row, ['Release Month'] and
  ['Release Day'] are null exactly when ['Release Date'] is null; the
  month, when there is one, is an integer from 1 to 12 and the day one of
  the seven weekday names. And they are the month and the weekday of the
  date: when ['Release Date'] holds a timestamp, the day its wall clock
  shows is the day of a date [y]-[m]-[d] of the civil calendar,
  ['Release Month'] is that [m], and ['Release Day'] is the name of the
  weekday of that day, counted from Thursday 1 January 1970. *)
Theorem derived_columns_consistent (raw : list RawRow) (t : DataFrame) :
  preprocess py_float parse_datetime raw = Ok t ->
  Forall (fun n =>
      (Release_Month n = None <-> Release_Date n = None) /\
      (Release_Day n = None <-> Release_Date n = None) /\
      (forall m, Release_Month n = Some m -> 1 <= m <= 12) /\
      (forall d, Release_Day n = Some d -> In d weekdays) /\
      (forall ts, Release_Date n = Some ts ->
         exists y m d,
           valid_date y m d /\
           days_from_civil y m d = wall_clock_day ts /\
           Release_Month n = Some m /\
           Release_Day n = Some (weekday_name (wall_clock_day ts)))) t.
Proof.
  intros H. apply Forall_forall. intros n Hn.
  destruct (preprocess_rows raw t n H Hn) as [r [h [_ ->]]].
  cbn [normalize_row Release_Month Release_Day Release_Date].
  destruct (to_datetime_coerce parse_datetime (raw_Release_Date r)) as [ts |] eqn:E;
    cbn [option_map].
  - split; [split; discriminate |]. split; [split; discriminate |].
    split; [| split].
    + intros m Em. injection Em as <-. apply dt_month_range.
    + intros d Ed. injection Ed as <-. apply dt_day_name_weekday.
    + intros ts' Ets. injection Ets as <-.
      apply to_datetime_coerce_Some in E. destruct E as [_ [_ Hlocal]].
      destruct (get_month_spec (Datetime.local_timestamp ts)) as [y [d [Hv Hd]]].
      exists y, (Datetime.dt_month ts), d.
      split; [exact Hv |]. split; [exact Hd |]. split; [reflexivity |].
      f_equal. apply (get_day_name_spec _ Hlocal).
  - split; [tauto |]. split; [tauto |]. split; [discriminate |].
    split; discriminate.
Qed.

End PreprocessFacts.

(** The specification's two rows: 5 and 9 March 2023, a Sunday and a
    Thursday. *)
Lemma derived_columns_witness :
  Forall (fun n =>
      (Release_Month n = None <-> Release_Date n = None) /\
      (Release_Day n = None <-> Release_Date n = None) /\
      (forall m, Release_Month n = Some m -> 1 <= m <= 12) /\
      (forall d, Release_Day n = Some d -> In d weekdays) /\
      (forall ts, Release_Date n = Some ts ->
         exists y m d,
           valid_date y m d /\
           days_from_civil y m d = wall_clock_day ts /\
           Release_Month n = Some m /\
           Release_Day n = Some (weekday_name (wall_clock_day ts))))
    ExampleData.two_movies.
Proof.
  exact (derived_columns_consistent
           ExampleParsers.float_of_digits ExampleParsers.iso_date
           ExampleData.raw_two_movies ExampleData.two_movies load_two_movies).
Defined.

(** On the specification's two rows and on the two rows that carry an
    offset of one hour: the month and the weekday are those of the date as
    written, also where the same instant falls on the day before, and in
    the month before, in UTC. *)
Example derived_columns_examples :
  map (fun n => (option_map wall_clock_day (Release_Date n),
                 Release_Month n, Release_Day n)) ExampleData.two_movies
  = [(Some (days_from_civil 2023 3 5), Some 3, Some "Sunday");
     (Some (days_from_civil 2023 3 9), Some 3, Some "Thursday")] /\
  ExampleParsers.load ExampleData.raw_one_offset = Ok ExampleData.one_offset /\
  map (fun n => (option_map wall_clock_day (Release_Date n),
                 Release_Month n, Release_Day n)) ExampleData.one_offset
  = [(Some (days_from_civil 2023 3 5), Some 3, Some "Sunday");
     (Some (days_from_civil 2023 4 1), Some 4, Some "Saturday")] /\
  map (fun n => option_map (fun ts => Datetime.get_day_name (Datetime.value ts))
                  (Release_Date n)) ExampleData.one_offset
  = [Some "Saturday"; Some "Friday"].
Proof. vm_compute. repeat split. Qed.

(** ** Rows with a null key do not count *)

Lemma filter_absorb {R : Type} (p q : R -> bool) (l : list R) :
  (forall r, In r l -> p r = true -> q r = true) ->
  filter p (filter q l) = filter p l.
Proof.
  intros H. rewrite filter_filter. apply filter_ext_in.
  intros r Hr. destruct (p r) eqn:Ep.
  - now rewrite (H r Hr Ep).
  - apply andb_false_r.
Qed.

Lemma dropna_map_filter {R A : Type} (f : R -> option A) (q : R -> bool) (l : list R) :
  (forall r, In r l -> q r = false -> f r = None) ->
  Pandas.dropna (map f (filter q l)) = Pandas.dropna (map f l).
Proof.
  induction l as [| r l IH]; simpl; intros H; trivial.
  assert (IH' := IH (fun x Hx => H x (or_intror Hx))).
  destruct (q r) eqn:Eq; simpl.
  - destruct (f r); congruence.
  - now rewrite (H r (or_introl eq_refl) Eq).
Qed.

Section NullKeyFacts.
Context {R K : Type}.
Variable K_dec : forall a b : K, {a = b} + {a <> b}.
Variable K_leb : K -> K -> bool.
Variable key : R -> option K.
Variable q : R -> bool.
Variable l : list R.
Hypothesis q_null : forall r, In r l -> q r = false -> key r = None.

Lemma groupby_filter_null :
  Pandas.groupby K_dec K_leb key (filter q l) = Pandas.groupby K_dec K_leb key l.
Proof.
  unfold Pandas.groupby, Pandas.group_keys.
  rewrite (dropna_map_filter key q l q_null).
  apply map_ext. intros k. f_equal. apply filter_absorb.
  intros r Hr Hk. apply key_is_true in Hk.
  destruct (q r) eqn:Eq; trivial.
  rewrite (q_null r Hr Eq) in Hk. discriminate.
Qed.

Lemma groupby_sum_filter_null (col : R -> float) :
  Pandas.groupby_sum K_dec K_leb key col (filter q l)
  = Pandas.groupby_sum K_dec K_leb key col l.
Proof.
  unfold Pandas.groupby_sum. now rewrite groupby_filter_null.
Qed.

Lemma value_counts_filter_null :
  Pandas.value_counts K_dec (map key (filter q l)) = Pandas.value_counts K_dec (map key l).
Proof.
  unfold Pandas.value_counts. now rewrite (dropna_map_filter key q l q_null).
Qed.
End NullKeyFacts.

(** ** Unparseable release dates *)

Lemma tz_eqb_eq (a b : option Z) : Datetime.tz_eqb a b = true <-> a = b.
Proof.
  destruct a as [x |], b as [y |]; simpl; try (split; congruence).
  rewrite Z.eqb_eq. split; congruence.
Qed.

(** A column of parsed dates is datetime64 exactly when any two dates that
    were read have the same offset. The nulls have no say. *)
Lemma is_datetime64_spec (col : list (option Datetime.Timestamp)) :
  Datetime.is_datetime64 col = true <->
  (forall ts1 ts2, In (Some ts1) col -> In (Some ts2) col ->
                   Datetime.tz ts1 = Datetime.tz ts2).
Proof.
  unfold Datetime.is_datetime64.
  assert (Hin : forall ts, In (Some ts) col <-> In ts (Pandas.dropna col))
    by (intros ts; symmetry; apply dropna_In).
  destruct (Pandas.dropna col) as [| ts0 rest].
  - split; trivial. intros _ ts1 ts2 H1. apply Hin in H1. contradiction.
  - rewrite forallb_forall. split.
    + intros H ts1 ts2 H1 H2. apply Hin in H1, H2.
      assert (Hts : forall ts, In ts (ts0 :: rest) -> Datetime.tz ts = Datetime.tz ts0).
      { intros ts [<- | Hts]; trivial. now apply tz_eqb_eq, H. }
      now rewrite (Hts ts1 H1), (Hts ts2 H2).
    + intros H ts Hts. apply tz_eqb_eq. apply H; apply Hin; simpl; auto.
Qed.

Section DateFailureFacts.
Variable py_float : string -> option float.
Variable parse_datetime : string -> option Datetime.Timestamp.

Lemma preprocess_no_date (raw : list RawRow) (t : DataFrame) (n : Row) :
  preprocess py_float parse_datetime raw = Ok t -> In n t -> has_date n = false ->
  Release_Month n = None /\ Release_Day n = None.
Proof.
  intros H Hn Hd.
  destruct (preprocess_rows py_float parse_datetime raw t n H Hn) as [r [h [_ ->]]].
  unfold has_date in Hd. cbn [normalize_row Release_Month Release_Day Release_Date] in *.
  destruct (to_datetime_coerce parse_datetime (raw_Release_Date r));
    [discriminate | split; reflexivity].
Qed.

(** Preprocessing succeeds exactly when every text of ['Hours Viewed'] is a
    number and the dates that were read agree on their UTC offset. *)
Lemma preprocess_succeeds (raw : list RawRow) :
  (exists t, preprocess py_float parse_datetime raw = Ok t) <->
  (exists hours, normalize_Hours_Viewed py_float (map raw_Hours_Viewed raw) = Ok hours) /\
  (forall r1 r2 ts1 ts2, In r1 raw -> In r2 raw ->
     to_datetime_coerce parse_datetime (raw_Release_Date r1) = Some ts1 ->
     to_datetime_coerce parse_datetime (raw_Release_Date r2) = Some ts2 ->
     Datetime.tz ts1 = Datetime.tz ts2).
Proof.
  assert (Hcol : Datetime.is_datetime64
                   (to_datetime parse_datetime (map raw_Release_Date raw)) = true <->
                 (forall r1 r2 ts1 ts2, In r1 raw -> In r2 raw ->
                    to_datetime_coerce parse_datetime (raw_Release_Date r1) = Some ts1 ->
                    to_datetime_coerce parse_datetime (raw_Release_Date r2) = Some ts2 ->
                    Datetime.tz ts1 = Datetime.tz ts2)).
  { rewrite is_datetime64_spec. unfold to_datetime. rewrite map_map. split.
    - intros H r1 r2 ts1 ts2 H1 H2 E1 E2.
      apply (H ts1 ts2); apply in_map_iff; [now exists r1 | now exists r2].
    - intros H ts1 ts2 H1 H2. apply in_map_iff in H1, H2.
      destruct H1 as [r1 [E1 H1]], H2 as [r2 [E2 H2]]. now apply (H r1 r2). }
  rewrite preprocess_eq.
  destruct (normalize_Hours_Viewed py_float (map raw_Hours_Viewed raw))
    as [hours | e]; cbn [bind].
  - destruct (Datetime.is_datetime64 _) eqn:Ed.
    + split; [| intros _; eexists; reflexivity].
      intros _. split; [now exists hours | now apply Hcol].
    + split; [intros [t Ht]; discriminate |].
      intros [_ H]. apply Hcol in H. discriminate.
  - split; [intros [t Ht]; discriminate | intros [[hours Hh] _]; discriminate].
Qed.

(** C4. A release date that cannot be parsed never makes preprocessing
  raise. Whether preprocessing raises is decided by the ['Hours Viewed']
  column and by the dates that were read (two of them with different UTC
  offsets leave the column without a [.dt] accessor); a text that is no
  date is read as NaT and is not among these. The row of such a text gets
  a null ['Release Date'], ['Release Month'] and ['Release Day']; and the
  rows without a date count in no month-based or weekday-based
  aggregation: the filtered set, hence the monthly viewership, the weekly
  release counts, the weekly viewership hours and the month-by-type table
  are what they would be without these rows. *)
Theorem unparseable_date_degrades (raw : list RawRow) :
  ((exists t, preprocess py_float parse_datetime raw = Ok t) <->
   (exists hours,
      normalize_Hours_Viewed py_float (map raw_Hours_Viewed raw) = Ok hours) /\
   (forall r1 r2 ts1 ts2, In r1 raw -> In r2 raw ->
      to_datetime_coerce parse_datetime (raw_Release_Date r1) = Some ts1 ->
      to_datetime_coerce parse_datetime (raw_Release_Date r2) = Some ts2 ->
      Datetime.tz ts1 = Datetime.tz ts2)) /\
  (forall s, parse_datetime s = None ->
     to_datetime_coerce parse_datetime (Some s) = None) /\
  (forall t, preprocess py_float parse_datetime raw = Ok t ->
     Forall2 (fun r n => forall s,
                raw_Release_Date r = Some s -> parse_datetime s = None ->
                Release_Date n = None /\ Release_Month n = None /\ Release_Day n = None)
       raw t /\
     (forall sel, filtered_data t sel = filtered_data (filter has_date t) sel) /\
     (forall sel, monthly_viewership (filtered_data t sel)
                  = monthly_viewership (filtered_data (filter has_date t) sel)) /\
     weekday_releases t = weekday_releases (filter has_date t) /\
     weekday_viewership t = weekday_viewership (filter has_date t) /\
     monthly_viewership_by_type t = monthly_viewership_by_type (filter has_date t)).
Proof.
  split; [apply preprocess_succeeds |].
  split; [intros s Hs; unfold to_datetime_coerce; now rewrite Hs |].
  intros t H.
  assert (Hm : forall r, In r t -> has_date r = false -> Release_Month r = None)
    by (intros r Hr Hd; apply (preprocess_no_date raw t r H Hr Hd)).
  assert (Hday : forall r, In r t -> has_date r = false -> Release_Day r = None)
    by (intros r Hr Hd; apply (preprocess_no_date raw t r H Hr Hd)).
  assert (Hfd : forall sel, filtered_data t sel = filtered_data (filter has_date t) sel).
  { intros sel. rewrite !filtered_data_filter. symmetry. apply filter_absorb.
    intros r Hr Hp. destruct (has_date r) eqn:Hd; trivial.
    rewrite (Hm r Hr Hd) in Hp. rewrite andb_false_r in Hp. discriminate. }
  split; [| split; [exact Hfd | split; [| split; [| split]]]].
  - eapply Forall2_impl; [| exact (preprocess_Ok py_float parse_datetime raw t H)].
    intros r n [h ->] s Hs Hp.
    cbn [normalize_row Release_Month Release_Day Release_Date].
    unfold to_datetime_coerce. rewrite Hs, Hp. repeat split.
  - intros sel. now rewrite <- Hfd.
  - unfold weekday_releases. now rewrite (value_counts_filter_null _ _ _ _ Hday).
  - unfold weekday_viewership.
    now rewrite (groupby_sum_filter_null _ _ _ _ _ Hday).
  - unfold monthly_viewership_by_type. rewrite filter_absorb; trivial.
    intros r Hr Hp. destruct (has_date r) eqn:Hd; trivial.
    rewrite (Hm r Hr Hd) in Hp. discriminate.
Qed.

End DateFailureFacts.

(** The text "soon" is no date: the second row keeps its hours, gets three
    nulls, and only the first row is counted under a weekday. *)
Example bad_date_row :
  map (fun n => (Release_Date n, Release_Month n, Release_Day n, Hours_Viewed n))
    ExampleData.bad_date
  = [(Some {| Datetime.value := 1677974400000000000; Datetime.tz := None |},
      Some 3, Some "Sunday", 1000000%float);
     (None, None, None, 500000%float)] /\
  weekday_releases ExampleData.bad_date
  = [("Monday", None); ("Tuesday", None); ("Wednesday", None); ("Thursday", None);
     ("Friday", None); ("Saturday", None); ("Sunday", Some 1)].
Proof. vm_compute. split; reflexivity. Qed.

(** A text that is no number after comma removal: the load fails. *)
Example bad_hours_raise :
  ExampleParsers.load ExampleData.raw_bad_hours
  = Raise (ValueError "could not convert string to float: '12abc'").
Proof. vm_compute. reflexivity. Qed.

(** Two dates that are read, with offsets of one and of two hours: line 12
    leaves a column of objects, and line 13 raises. With a text that is no
    date in the place of the second, the load succeeds. *)
Example two_offsets_raise :
  ExampleParsers.load ExampleData.raw_two_offsets
  = Raise (AttributeError "Can only use .dt accessor with datetimelike values") /\
  map Datetime.tz
    (Pandas.dropna (to_datetime ExampleParsers.iso_date
                      (map raw_Release_Date ExampleData.raw_two_offsets)))
  = [Some 3600; Some 7200] /\
  (exists t,
     ExampleParsers.load
       [ ExampleParsers.mkRaw "A" "Movie" "2023-03-05T00:30:00+01:00" "1,000,000" "English";
         ExampleParsers.mkRaw "B" "Movie" "soon" "500,000" "Spanish" ] = Ok t).
Proof.
  split; [vm_compute; reflexivity |]. split; [vm_compute; reflexivity |].
  eexists. vm_compute. reflexivity.
Qed.

(** ** [sort_values] *)

Lemma Sorted_all {A : Type} (R : A -> A -> Prop) (l : list A) :
  (forall a b, In b l -> R a b) -> Sorted R l.
Proof.
  induction l as [| a l IH]; intros H; constructor.
  - apply IH. intros x y Hy. apply H. now right.
  - destruct l as [| b l]; constructor. apply H. simpl; auto.
Qed.

Lemma filter_split_perm {A : Type} (p : A -> bool) (l : list A) :
  Permutation (filter (fun x => negb (p x)) l ++ filter p l) l.
Proof.
  induction l as [| a l IH]; simpl; [constructor |].
  destruct (p a); simpl.
  - rewrite <- Permutation_middle. now constructor.
  - now constructor.
Qed.

Lemma sort_values_perm {A : Type} (le : A -> A -> bool) (isnull : A -> bool)
    (ascending : bool) (l : list A) :
  Permutation (Pandas.sort_values le isnull ascending l) l.
Proof.
  unfold Pandas.sort_values.
  eapply Permutation_trans; [| apply (filter_split_perm isnull l)].
  apply Permutation_app_tail.
  destruct ascending.
  - apply sort_asc_perm.
  - rewrite <- Permutation_rev, sort_asc_perm. symmetry. apply Permutation_rev.
Qed.

(** A descending sort of a float64 key: numbers from large to small, then
    the nulls. *)
Lemma sort_values_desc_Sorted {A : Type} (by_ : A -> float) (l : list A) :
  Sorted (fun a b => desc_nulls_last (by_ a) (by_ b))
    (Pandas.sort_values (fun a b => (by_ a <=? by_ b)%float)
       (fun a => Pandas.isna (by_ a)) false l).
Proof.
  unfold Pandas.sort_values.
  set (le := fun a b => (by_ a <=? by_ b)%float).
  set (non_nans := filter (fun x => negb (Pandas.isna (by_ x))) l).
  assert (Hnn : forall a, In a (rev (Pandas.sort_asc le (rev non_nans))) ->
                          Pandas.isna (by_ a) = false).
  { intros a Ha. apply in_rev, sort_asc_In, in_rev in Ha.
    apply filter_In in Ha. now apply negb_true_iff. }
  apply Sorted_app.
  - apply Sorted_weaken with (R := fun a b => le b a = true).
    + intros a b Ha Hb Hab. right. auto.
    + apply (Sorted_rev (fun a b => le a b = true)).
      apply sort_asc_Sorted with (P := fun a => Pandas.isna (by_ a) = false).
      * intros a b Ha Hb. now apply FloatFacts.leb_total.
      * apply Forall_forall. intros a Ha. apply in_rev in Ha.
        apply filter_In in Ha. now apply negb_true_iff.
  - apply Sorted_all. intros a b Hb. left. now apply filter_In in Hb.
  - intros a b _ Hb. left. now apply filter_In in Hb.
Qed.

(** ** Top content *)

(** C6. For every filtered set, the top content has at most ten rows, is in
    descending order of ['Hours Viewed'] (rows whose hours are null, if any,
    come after all numbers), and consists of rows of the filtered set, each
    taken at most as often as it occurs there. *)
Theorem top_content_sorted (fd : DataFrame) :
  (List.length (top_content fd) <= 10)%nat /\
  Sorted desc_nulls_last (map snd (top_content fd)) /\
  (forall e, In e (top_content fd) ->
     exists r, In r fd /\ e = (Title r, Hours_Viewed r)) /\
  (exists rest,
     Permutation (top_content fd ++ rest)
       (map (fun r => (Title r, Hours_Viewed r)) fd)).
Proof.
  unfold top_content, Pandas.head.
  set (items := map (fun r => (Title r, Hours_Viewed r)) fd).
  set (sorted := Pandas.sort_values _ _ false items).
  assert (Hperm : Permutation (firstn 10 sorted ++ skipn 10 sorted) items).
  { rewrite firstn_skipn. apply sort_values_perm. }
  split; [apply firstn_le_length |]. split; [| split].
  - apply Sorted_map, Sorted_firstn.
    apply (sort_values_desc_Sorted (fun a : option string * float => snd a)).
  - intros e He.
    assert (Hin : In e items).
    { eapply Permutation_in; [exact Hperm |]. apply in_or_app. now left. }
    apply in_map_iff in Hin. destruct Hin as [r [<- Hr]]. now exists r.
  - now exists (skipn 10 sorted).
Qed.

(** A row without hours sorts last. *)
Example top_content_null_last :
  top_content
    (map (fun h => {| Title := None; Content_Type := None; Release_Date := None;
                      Hours_Viewed := h; Language_Indicator := None;
                      Release_Month := None; Release_Day := None |})
       [2%float; PrimFloat.nan; 5%float])
  = [(None, 5%float); (None, 2%float); (None, PrimFloat.nan)].
Proof. vm_compute. reflexivity. Qed.

(** ** Monthly viewership and the total *)

Lemma filter_all {R : Type} (p : R -> bool) (l : list R) :
  (forall r, In r l -> p r = true) -> filter p l = l.
Proof.
  induction l as [| r l IH]; simpl; intros H; trivial.
  rewrite (H r (or_introl eq_refl)). f_equal. apply IH. intros x Hx. apply H. now right.
Qed.




(** In an arithmetic without rounding the two routines compute the plain
    sum. *)
Section ExactSummation.
Variable A : Type.
Variable add sub : A -> A -> A.
Variable zero : A.
Hypothesis add_assoc : forall x y z, add x (add y z) = add (add x y) z.
Hypothesis add_comm : forall x y, add x y = add y x.
Hypothesis add_zero_l : forall x, add zero x = x.
Hypothesis sub_zero_r : forall x, sub x zero = x.
Hypothesis sub_diag : forall x, sub x x = zero.
Hypothesis add_sub : forall x y, sub (add x y) x = y.



Lemma sum_in_perm (l1 l2 : list A) :
  Permutation l1 l2 -> sum_in add zero l1 = sum_in add zero l2.
Proof.
  induction 1 as [| a l1 l2 H IH | a b l | l1 l2 l3 H1 IH1 H2 IH2]; simpl.
  - reflexivity.
  - now rewrite IH.
  - now rewrite !add_assoc, (add_comm b a).
  - congruence.
Qed.










End ExactSummation.


(** The figures of that example: 4,000 hours in January, 2,000 in
    February, 6,000 in all. *)
Example monthly_two_months :
  let fd := filtered_data ExampleData.two_months ExampleData.all_movies in
  ExampleParsers.load ExampleData.raw_two_months = Ok ExampleData.two_months /\
  monthly_viewership fd = [(1, 4000%float); (2, 2000%float)] /\
  map (fun g => Pandas.group_sum Z.add Z.sub 0 (fun _ => false)
                  (map (fun r => integer_value (Hours_Viewed r)) (snd g)))
    (Pandas.groupby Z.eq_dec Z.leb Release_Month fd) = [4000; 2000] /\
  Pandas.nansum Z.add 0 0 (fun _ => false)
    (map (fun r => integer_value (Hours_Viewed r)) fd) = 6000.
Proof. vm_compute. repeat split. Qed.


(** ** Labels of a Series *)

Section LookupFacts.
Context {K V : Type}.
Variable K_dec : forall a b : K, {a = b} + {a <> b}.

Lemma lookup_map_keys (f : K -> V) (ks : list K) (k : K) :
  Pandas.lookup K_dec k (map (fun x => (x, f x)) ks)
  = if in_dec K_dec k ks then Some (f k) else None.
Proof.
  induction ks as [| x ks IH]; [reflexivity |].
  cbn [map Pandas.lookup]. rewrite IH.
  destruct (K_dec x k) as [E | Hne].
  - subst x. destruct (in_dec K_dec k (k :: ks)) as [_ | Hn]; [reflexivity |].
    exfalso. apply Hn. now left.
  - destruct (in_dec K_dec k ks) as [Hin | Hn];
      destruct (in_dec K_dec k (x :: ks)) as [Hin' | Hn']; trivial.
    + exfalso. apply Hn'. now right.
    + destruct Hin' as [-> | Hin']; contradiction.
Qed.

Lemma lookup_Some_In (k : K) (v : V) (s : list (K * V)) :
  NoDup (map fst s) -> (Pandas.lookup K_dec k s = Some v <-> In (k, v) s).
Proof.
  induction s as [| [k' v'] s IH]; simpl; intros Hnd.
  - split; [discriminate | contradiction].
  - inversion Hnd as [| ? ? Hk' Hnd']; subst.
    destruct (K_dec k' k) as [-> | Hne].
    + split.
      * intros E. injection E as ->. now left.
      * intros [E | Hin]; [congruence |].
        exfalso. apply Hk'. apply in_map_iff. now exists (k, v).
    + rewrite (IH Hnd'). split; [now right |].
      intros [E | Hin]; [congruence | assumption].
Qed.

Lemma lookup_perm (k : K) (s s' : list (K * V)) :
  NoDup (map fst s) -> Permutation s s' ->
  Pandas.lookup K_dec k s = Pandas.lookup K_dec k s'.
Proof.
  intros Hnd Hp.
  assert (Hnd' : NoDup (map fst s'))
    by (eapply Permutation_NoDup; [apply Permutation_map, Hp | exact Hnd]).
  destruct (Pandas.lookup K_dec k s) as [v |] eqn:E.
  - symmetry. apply lookup_Some_In; trivial.
    eapply Permutation_in; [exact Hp |]. now apply lookup_Some_In.
  - destruct (Pandas.lookup K_dec k s') as [v |] eqn:E'; trivial.
    apply lookup_Some_In in E'; trivial.
    apply (Permutation_in _ (Permutation_sym Hp)) in E'.
    apply lookup_Some_In in E'; trivial. congruence.
Qed.
End LookupFacts.

(** ** Distinct values *)

Section UniqueFacts.
Context {A : Type}.
Variable dec : forall a b : A, {a = b} + {a <> b}.

Lemma remove_NoDup (a : A) (l : list A) : NoDup l -> NoDup (remove dec a l).
Proof.
  induction 1 as [| x l Hx Hnd IH]; simpl; [constructor |].
  destruct (dec a x); trivial.
  constructor; trivial. intros Hin. apply in_remove in Hin. tauto.
Qed.

Lemma unique_In (x : A) (l : list A) : In x (Pandas.unique dec l) <-> In x l.
Proof.
  induction l as [| a l IH]; simpl; [tauto |].
  split.
  - intros [-> | Hin]; [now left |].
    apply in_remove in Hin. right. now apply IH.
  - intros [-> | Hin]; [now left |].
    destruct (dec x a) as [-> | Hne]; [now left |].
    right. apply in_in_remove; trivial. now apply IH.
Qed.

Lemma unique_NoDup (l : list A) : NoDup (Pandas.unique dec l).
Proof.
  induction l as [| a l IH]; simpl; constructor.
  - apply remove_In.
  - now apply remove_NoDup.
Qed.
End UniqueFacts.

(** ** [value_counts] *)

Lemma Series_sum_int_fold (l : list Z) : Series_sum_int l = fold_right Z.add 0 l.
Proof.
  unfold Series_sum_int. apply fold_symmetric; intros; lia.
Qed.

Lemma Series_sum_int_perm (l l' : list Z) :
  Permutation l l' -> Series_sum_int l = Series_sum_int l'.
Proof.
  rewrite !Series_sum_int_fold.
  apply (sum_in_perm Z Z.add 0 Z.add_assoc Z.add_comm).
Qed.

Lemma sum_group_sizes {R K : Type} (g : K -> list R) (ks : list K) :
  Series_sum_int (map (fun k => Z.of_nat (List.length (g k))) ks)
  = Z.of_nat (List.length (flat_map g ks)).
Proof.
  rewrite Series_sum_int_fold.
  induction ks as [| k ks IH]; simpl; trivial.
  rewrite IH, length_app. lia.
Qed.

Section ValueCountsFacts.
Context {R K : Type}.
Variable K_dec : forall a b : K, {a = b} + {a <> b}.
Variable key : R -> option K.

(** The counts before they are put in order. *)
Lemma value_counts_perm (l : list R) :
  Permutation (Pandas.value_counts K_dec (map key l))
    (map (fun k => (k, Z.of_nat (List.length (filter (Pandas.key_is K_dec key k) l))))
       (Pandas.unique K_dec (Pandas.dropna (map key l)))).
Proof.
  unfold Pandas.value_counts.
  rewrite sort_values_perm.
  erewrite map_ext; [reflexivity |].
  intros k. simpl. now rewrite count_occ_key.
Qed.

Lemma value_counts_lookup (l : list R) (k : K) :
  Pandas.lookup K_dec k (Pandas.value_counts K_dec (map key l))
  = match filter (Pandas.key_is K_dec key k) l with
    | [] => None
    | g => Some (Z.of_nat (List.length g))
    end.
Proof.
  set (size := fun k => Z.of_nat (List.length (filter (Pandas.key_is K_dec key k) l))).
  set (labels := Pandas.unique K_dec (Pandas.dropna (map key l))).
  assert (Hnd : NoDup (map fst (map (fun k => (k, size k)) labels))).
  { rewrite map_map. cbn [fst]. rewrite map_id. apply unique_NoDup. }
  rewrite <- (lookup_perm K_dec k _ _ Hnd (Permutation_sym (value_counts_perm l))).
  rewrite (lookup_map_keys K_dec size). unfold size, labels.
  destruct (in_dec K_dec k _) as [Hin | Hn].
  - apply unique_In, dropna_In, in_map_iff in Hin. destruct Hin as [r [E Hr]].
    assert (Hf : In r (filter (Pandas.key_is K_dec key k) l))
      by (apply filter_In; split; trivial; now apply key_is_true).
    destruct (filter _ l); [contradiction | reflexivity].
  - destruct (filter (Pandas.key_is K_dec key k) l) as [| r g] eqn:E; trivial.
    exfalso. apply Hn.
    assert (Hf : In r (filter (Pandas.key_is K_dec key k) l)) by (rewrite E; now left).
    apply filter_In in Hf. destruct Hf as [Hr Hk]. apply key_is_true in Hk.
    apply unique_In, dropna_In, in_map_iff. now exists r.
Qed.

(** The counts add up to the number of rows with a value. *)
Lemma value_counts_total (l : list R) :
  Series_sum_int (map snd (Pandas.value_counts K_dec (map key l)))
  = Z.of_nat (List.length (filter (fun r => Pandas.notna (key r)) l)).
Proof.
  rewrite (Series_sum_int_perm _ _ (Permutation_map snd (value_counts_perm l))).
  rewrite map_map. cbn [snd].
  rewrite (sum_group_sizes (fun k => filter (Pandas.key_is K_dec key k) l)).
  f_equal. apply Permutation_length. apply groups_cover.
  - apply unique_NoDup.
  - intros r k Hr E. apply unique_In, dropna_In, in_map_iff. now exists r.
Qed.
End ValueCountsFacts.

(** ** Weekly patterns *)

Lemma groupby_sum_lookup {R K : Type} (K_dec : forall a b : K, {a = b} + {a <> b})
    (K_leb : K -> K -> bool) (key : R -> option K) (col : R -> float)
    (l : list R) (k : K) :
  Pandas.lookup K_dec k (Pandas.groupby_sum K_dec K_leb key col l)
  = match filter (Pandas.key_is K_dec key k) l with
    | [] => None
    | g => Some (Pandas.group_sum_float64 (map col g))
    end.
Proof.
  unfold Pandas.groupby_sum, Pandas.groupby. rewrite map_map. cbn [fst snd].
  rewrite (lookup_map_keys K_dec
             (fun k => Pandas.group_sum_float64 (map col (filter (Pandas.key_is K_dec key k) l)))).
  destruct (in_dec K_dec k _) as [Hin | Hn].
  - apply group_keys_In in Hin. destruct Hin as [r [Hr E]].
    assert (Hf : In r (filter (Pandas.key_is K_dec key k) l))
      by (apply filter_In; split; trivial; now apply key_is_true).
    destruct (filter _ l); [contradiction | reflexivity].
  - destruct (filter (Pandas.key_is K_dec key k) l) as [| r g] eqn:E; trivial.
    exfalso. apply Hn.
    assert (Hf : In r (filter (Pandas.key_is K_dec key k) l)) by (rewrite E; now left).
    apply filter_In in Hf. destruct Hf as [Hr Hk]. apply key_is_true in Hk.
    apply group_keys_In. now exists r.
Qed.

Lemma weekday_releases_spec (t : DataFrame) :
  weekday_releases t = map (fun day => (day, spec_weekday_count t day)) weekdays.
Proof.
  unfold weekday_releases, Pandas.reindex. apply map_ext. intros day.
  now rewrite (value_counts_lookup string_dec Release_Day).
Qed.

Lemma weekday_viewership_spec (t : DataFrame) :
  weekday_viewership t = map (fun day => (day, spec_weekday_hours t day)) weekdays.
Proof.
  unfold weekday_viewership, Pandas.reindex_float. apply map_ext. intros day.
  rewrite groupby_sum_lookup. unfold spec_weekday_hours.
  change (Pandas.key_is string_dec Release_Day day) with (released_on day).
  now destruct (filter (released_on day) t).
Qed.

(** ** Content distribution *)

(** C9, amended. The counts of the content distribution add up to the
    number of rows of the unfiltered table whose ['Content Type'] is not
    null; that is the total row count when no row has a null content type. *)
Theorem content_distribution_total (t : DataFrame) :
  Series_sum_int (map snd (content_distribution t))
  = Z.of_nat (List.length (filter (fun r => Pandas.notna (Content_Type r)) t)) /\
  ((forall r, In r t -> Content_Type r <> None) ->
   Series_sum_int (map snd (content_distribution t)) = Z.of_nat (List.length t)).
Proof.
  unfold content_distribution.
  split; [apply value_counts_total |].
  intros H. rewrite value_counts_total, filter_all; trivial.
  intros r Hr. specialize (H r Hr). now destruct (Content_Type r).
Qed.

(** C9 as stated fails: a file of two rows, the second with an empty
    ['Content Type'] cell. [value_counts] leaves the null out: one group,
    "Movie", of count 1. *)
Lemma content_distribution_misses_nulls :
  content_distribution ExampleData.untyped_row = [("Movie", 1)] /\
  Series_sum_int (map snd (content_distribution ExampleData.untyped_row)) = 1 /\
  Z.of_nat (List.length ExampleData.untyped_row) = 2.
Proof. vm_compute. repeat split. Qed.

(** ** The most viewed type *)

Lemma nodup_all_eq {A : Type} (dec : forall a b : A, {a = b} + {a <> b})
    (c : A) (l : list A) :
  l <> [] -> (forall x, In x l -> x = c) -> nodup dec l = [c].
Proof.
  induction l as [| a l IH]; intros Hne Hall; [contradiction |].
  assert (a = c) by (apply Hall; now left). subst a.
  cbn [nodup]. destruct l as [| b l].
  - reflexivity.
  - destruct (in_dec dec c (b :: l)) as [_ | Hn].
    + apply IH; [discriminate |]. intros x Hx. apply Hall. now right.
    + exfalso. apply Hn. left. apply Hall. right. now left.
Qed.

(** On a non-empty filtered set the selection names a content type, and
    every row has it. *)
Lemma filtered_data_type (t : DataFrame) (sel : Selection) (r : Row) :
  In r (filtered_data t sel) -> Content_Type r = content_type sel /\ Content_Type r <> None.
Proof.
  rewrite filtered_data_filter, filter_In. intros [_ H].
  apply andb_true_iff in H. destruct H as [H _].
  apply andb_true_iff in H. destruct H as [H _].
  destruct (Content_Type r) as [a |], (content_type sel) as [b |]; try discriminate.
  apply String.eqb_eq in H. subst. split; [reflexivity | discriminate].
Qed.

Lemma filtered_data_In (t : DataFrame) (sel : Selection) (r : Row) :
  In r (filtered_data t sel) -> In r t.
Proof.
  rewrite filtered_data_filter, filter_In. tauto.
Qed.

(** Rows of one content type make one group, which holds them all. *)
Lemma single_content_group (fd : DataFrame) (c : string) :
  fd <> [] ->
  (forall r, In r fd -> Content_Type r = Some c) ->
  Pandas.groupby_sum string_dec String.leb Content_Type Hours_Viewed fd
  = [(c, Pandas.group_sum_float64 (map Hours_Viewed fd))].
Proof.
  intros Hne Hc.
  unfold Pandas.groupby_sum, Pandas.groupby, Pandas.group_keys.
  rewrite (nodup_all_eq string_dec c).
  - cbn [Pandas.sort_asc fold_right Pandas.insert_sorted map fst snd].
    rewrite filter_all; [reflexivity |].
    intros r Hr. apply key_is_true. now apply Hc.
  - destruct fd as [| r fd]; [contradiction |].
    simpl. rewrite (Hc r (or_introl eq_refl)). discriminate.
  - intros x Hx. apply dropna_In, in_map_iff in Hx.
    destruct Hx as [r [E Hr]]. rewrite (Hc r Hr) in E. congruence.
Qed.

Lemma filtered_data_group (t : DataFrame) (sel : Selection) :
  filtered_data t sel <> [] ->
  exists c, content_type sel = Some c /\
    Pandas.groupby_sum string_dec String.leb Content_Type Hours_Viewed
      (filtered_data t sel)
    = [(c, Pandas.group_sum_float64 (map Hours_Viewed (filtered_data t sel)))].
Proof.
  intros Hne.
  destruct (filtered_data t sel) as [| r0 fd] eqn:Efd; [contradiction |].
  assert (Hr0 : In r0 (filtered_data t sel)) by (rewrite Efd; now left).
  destruct (filtered_data_type t sel r0 Hr0) as [E0 Hsome].
  destruct (Content_Type r0) as [c |] eqn:Ec; [| contradiction].
  exists c. split; [now symmetry |].
  apply single_content_group; [discriminate |].
  intros r Hr. rewrite <- Efd in Hr.
  destruct (filtered_data_type t sel r Hr) as [E _]. congruence.
Qed.

(** Line 54 on a non-empty filtered set. *)
Lemma most_viewed_type_filtered (t : DataFrame) (sel : Selection) :
  filtered_data t sel <> [] ->
  most_viewed_type (filtered_data t sel)
  = Ok (if Pandas.isna (Pandas.group_sum_float64
                          (map Hours_Viewed (filtered_data t sel)))
        then None else content_type sel).
Proof.
  intros Hne. destruct (filtered_data_group t sel Hne) as [c [Ec Hg]].
  unfold most_viewed_type. rewrite Hg, Ec.
  cbn [Pandas.idxmax forallb snd fst fold_left]. rewrite andb_true_r.
  now destruct (Pandas.isna _).
Qed.

(** One run of the script: it ends in the [ValueError] of line 54 when the
    filtered set is empty, and hands over its figures when it is not. *)
Lemma dashboard_empty (t : DataFrame) (sel : Selection) :
  filtered_data t sel = [] ->
  dashboard t sel = Raise (ValueError "attempt to get argmax of an empty sequence").
Proof.
  intros E. unfold dashboard. now rewrite E.
Qed.

Lemma dashboard_runs (t : DataFrame) (sel : Selection) :
  filtered_data t sel <> [] ->
  dashboard t sel
  = Ok {| d_total_hours := total_hours (filtered_data t sel);
          d_unique_titles := unique_titles (filtered_data t sel);
          d_most_viewed_type :=
            if Pandas.isna (Pandas.group_sum_float64
                              (map Hours_Viewed (filtered_data t sel)))
            then None else content_type sel;
          d_monthly_viewership := monthly_viewership (filtered_data t sel);
          d_language_viewership := language_viewership (filtered_data t sel);
          d_weekday_releases := weekday_releases t;
          d_weekday_viewership := weekday_viewership t;
          d_monthly_viewership_by_type := monthly_viewership_by_type t;
          d_top_content := top_content (filtered_data t sel);
          d_content_distribution := content_distribution t |}.
Proof.
  intros Hne. unfold dashboard.
  now rewrite (most_viewed_type_filtered t sel Hne).
Qed.

(** C10, amended. For every dataset and every selection whose filtered set
    is not empty, the filtered rows all have the selected content type, so
    the grouped sums have a single entry, for that type. The "most viewed
    type" is the selected content type whenever that sum is a number; when
    it is NaN, [idxmax] has nothing to choose from and gives the null
    label. The run gets past line 54 in both cases. *)
Theorem most_viewed_type_is_selected (t : DataFrame) (sel : Selection) :
  filtered_data t sel <> [] ->
  let fd := filtered_data t sel in
  let hours := Pandas.group_sum_float64 (map Hours_Viewed fd) in
  (exists c, content_type sel = Some c /\
     Pandas.groupby_sum string_dec String.leb Content_Type Hours_Viewed fd
     = [(c, hours)]) /\
  (Pandas.isna hours = false -> most_viewed_type fd = Ok (content_type sel)) /\
  (Pandas.isna hours = true -> most_viewed_type fd = Ok None) /\
  exists d, dashboard t sel = Ok d /\
            d_most_viewed_type d = if Pandas.isna hours then None else content_type sel.
Proof.
  intros Hne fd hours.
  pose proof (most_viewed_type_filtered t sel Hne) as Hmvt. fold fd hours in Hmvt.
  split; [exact (filtered_data_group t sel Hne) |].
  split; [intros E; now rewrite E in Hmvt |].
  split; [intros E; now rewrite E in Hmvt |].
  rewrite (dashboard_runs t sel Hne). eexists. split; reflexivity.
Qed.

(** The specification's two rows, all months: the sum is 1,500,000 and the
    most viewed type "Movie". *)
Lemma most_viewed_type_witness :
  let fd := filtered_data ExampleData.two_movies ExampleData.all_movies in
  let hours := Pandas.group_sum_float64 (map Hours_Viewed fd) in
  (exists c, content_type ExampleData.all_movies = Some c /\
     Pandas.groupby_sum string_dec String.leb Content_Type Hours_Viewed fd
     = [(c, hours)]) /\
  (Pandas.isna hours = false ->
   most_viewed_type fd = Ok (content_type ExampleData.all_movies)) /\
  (Pandas.isna hours = true -> most_viewed_type fd = Ok None) /\
  exists d, dashboard ExampleData.two_movies ExampleData.all_movies = Ok d /\
            d_most_viewed_type d
            = if Pandas.isna hours then None else content_type ExampleData.all_movies.
Proof.
  apply (most_viewed_type_is_selected ExampleData.two_movies ExampleData.all_movies).
  vm_compute. discriminate.
Defined.

Example most_viewed_type_two_movies :
  Pandas.group_sum_float64
    (map Hours_Viewed (filtered_data ExampleData.two_movies ExampleData.all_movies))
  = 1500000%float /\
  most_viewed_type (filtered_data ExampleData.two_movies ExampleData.all_movies)
  = Ok (Some "Movie").
Proof. vm_compute. split; reflexivity. Qed.

(** C10 as stated fails: two movies whose hours are [+inf] and [-inf]. The
    filtered set has both rows, its single group sums to NaN, and [idxmax]
    of a Series of nulls only gives the null label, not "Movie". The run
    goes on with that label. *)
Lemma most_viewed_type_null_on_infinities :
  ExampleParsers.load ExampleData.raw_infinite_hours = Ok ExampleData.infinite_hours /\
  selectable ExampleData.infinite_hours ExampleData.all_movies = true /\
  List.length (filtered_data ExampleData.infinite_hours ExampleData.all_movies) = 2%nat /\
  content_type ExampleData.all_movies = Some "Movie" /\
  most_viewed_type (filtered_data ExampleData.infinite_hours ExampleData.all_movies)
  = Ok None /\
  match dashboard ExampleData.infinite_hours ExampleData.all_movies with
  | Ok d => d_most_viewed_type d = None
  | Raise _ => False
  end.
Proof. vm_compute. repeat split. Qed.

(** The same with hours of the data model's range: 1e308, 1e308 and 1 are
    finite and not negative. The total of line 52 overflows to [+inf]; the
    grouped sum of line 54 takes the compensation, by then infinite, off
    the third value and ends in NaN. *)
Example most_viewed_type_null_on_overflow :
  let fd := filtered_data ExampleData.overflowing_hours ExampleData.all_movies in
  ExampleParsers.load ExampleData.raw_overflowing_hours = Ok ExampleData.overflowing_hours /\
  forallb (fun r => hours_in_range (Hours_Viewed r)) ExampleData.overflowing_hours = true /\
  List.length fd = 3%nat /\
  total_hours fd = PrimFloat.infinity /\
  Pandas.isna (Pandas.group_sum_float64 (map Hours_Viewed fd)) = true /\
  most_viewed_type fd = Ok None.
Proof. vm_compute. repeat split. Qed.

(** ** The weekly figures in a run *)

(** C8 (the code departs from the claim on an empty filtered set). The
    weekly release counts and the weekly viewership hours are functions of
    the whole, unfiltered table alone: for each of Monday, ..., Sunday, in
    this order, the number of records of the table released on that day
    (null when there is none) and the grouped sum of their hours. A run
    whose filtered set is not empty hands over exactly these figures,
    whatever the content type, month range and languages selected. A run
    whose filtered set is empty ends at line 54, before lines 103 to 108:
    for such a selection no weekly figure is computed. *)
Theorem weekly_aggregations_unfiltered (t : DataFrame) (sel : Selection) :
  weekday_releases t
  = map (fun day => (day, spec_weekday_count t day))
      ["Monday"; "Tuesday"; "Wednesday"; "Thursday"; "Friday"; "Saturday"; "Sunday"] /\
  weekday_viewership t
  = map (fun day => (day, spec_weekday_hours t day))
      ["Monday"; "Tuesday"; "Wednesday"; "Thursday"; "Friday"; "Saturday"; "Sunday"] /\
  (filtered_data t sel <> [] ->
   exists d, dashboard t sel = Ok d /\
             d_weekday_releases d = weekday_releases t /\
             d_weekday_viewership d = weekday_viewership t) /\
  (filtered_data t sel = [] ->
   dashboard t sel = Raise (ValueError "attempt to get argmax of an empty sequence")).
Proof.
  split; [apply weekday_releases_spec |].
  split; [apply weekday_viewership_spec |].
  split; [| apply dashboard_empty].
  intros Hne. rewrite (dashboard_runs t sel Hne). eexists. repeat split.
Qed.

(** The specification's two March releases with the slider on January: the
    table has a release on a Thursday and one on a Sunday, and the run
    shows neither. *)
Lemma weekly_aggregations_witness :
  selectable ExampleData.two_movies ExampleData.movies_in_january = true /\
  weekday_releases ExampleData.two_movies
  = [("Monday", None); ("Tuesday", None); ("Wednesday", None); ("Thursday", Some 1);
     ("Friday", None); ("Saturday", None); ("Sunday", Some 1)] /\
  map snd (weekday_viewership ExampleData.two_movies)
  = [PrimFloat.nan; PrimFloat.nan; PrimFloat.nan; 500000%float;
     PrimFloat.nan; PrimFloat.nan; 1000000%float] /\
  dashboard ExampleData.two_movies ExampleData.movies_in_january
  = Raise (ValueError "attempt to get argmax of an empty sequence").
Proof.
  split; [reflexivity |]. split; [reflexivity |]. split; [reflexivity |].
  exact (proj2 (proj2 (proj2
    (weekly_aggregations_unfiltered
       ExampleData.two_movies ExampleData.movies_in_january))) eq_refl).
Defined.

(** Three releases on Thursdays with hours 1e16, 1 and 1: the day's figure
    is the grouped sum, which keeps the two units. *)
Example weekly_large_hours :
  ExampleParsers.load ExampleData.raw_large_hours = Ok ExampleData.large_hours /\
  weekday_releases ExampleData.large_hours
  = [("Monday", None); ("Tuesday", None); ("Wednesday", None); ("Thursday", Some 3);
     ("Friday", None); ("Saturday", None); ("Sunday", None)] /\
  map snd (weekday_viewership ExampleData.large_hours)
  = [PrimFloat.nan; PrimFloat.nan; PrimFloat.nan; 10000000000000002%float;
     PrimFloat.nan; PrimFloat.nan; PrimFloat.nan].
Proof. vm_compute. repeat split. Qed.

(** The run over the specification's two rows with all months selected:
    one release on a Thursday, one on a Sunday. *)
Example weekly_two_movies :
  d_weekday_releases ExampleData.two_movies_dashboard
  = [("Monday", None); ("Tuesday", None); ("Wednesday", None); ("Thursday", Some 1);
     ("Friday", None); ("Saturday", None); ("Sunday", Some 1)] /\
  map fst (d_weekday_viewership ExampleData.two_movies_dashboard)
  = ["Monday"; "Tuesday"; "Wednesday"; "Thursday"; "Friday"; "Saturday"; "Sunday"] /\
  dashboard ExampleData.two_movies ExampleData.all_movies
  = Ok ExampleData.two_movies_dashboard.
Proof. vm_compute. repeat split. Qed.

(* ===================================================================== *)
(** * Part III: further properties of the pipeline                        *)
(* ===================================================================== *)

(** ** The filter, applied again and narrowed *)

(** X1. Filtering a filtered set again with the same selection changes
    nothing, and a filtered set never has more rows than its table. *)
Theorem filtered_data_idempotent (t : DataFrame) (sel : Selection) :
  filtered_data (filtered_data t sel) sel = filtered_data t sel /\
  (List.length (filtered_data t sel) <= List.length t)%nat.
Proof.
  split.
  - rewrite (filtered_data_filter t sel). rewrite filtered_data_filter.
    apply filter_absorb. auto.
  - rewrite filtered_data_filter. apply filter_length_le.
Qed.

(** X2. The language step of lines 47 and 48. With at least one language
    selected, the filtered set is the filtered set of the same selection
    without languages, cut down to the rows whose language is one of the
    selected ones: a row with a null language is dropped, although it is
    kept when no language is selected. *)
Theorem language_step (t : DataFrame) (c : option string) (range : Z * Z)
    (l0 : string) (ls : list string) :
  let with_languages :=
    filtered_data t {| content_type := c; month_range := range; languages := l0 :: ls |} in
  let without :=
    filtered_data t {| content_type := c; month_range := range; languages := [] |} in
  with_languages
  = filter (fun r => match Language_Indicator r with
                     | Some l => if in_dec string_dec l (l0 :: ls) then true else false
                     | None => false
                     end) without /\
  (forall r, In r with_languages ->
     exists l, Language_Indicator r = Some l /\ In l (l0 :: ls)) /\
  (forall r, In r t -> In r without ->
     Language_Indicator r = None -> ~ In r with_languages).
Proof.
  intros wl wo.
  assert (E : wl = filter (fun r => match Language_Indicator r with
                     | Some l => if in_dec string_dec l (l0 :: ls) then true else false
                     | None => false
                     end) wo).
  { unfold wl, wo. rewrite !filtered_data_filter. cbn [languages content_type month_range].
    rewrite filter_filter. apply filter_ext. intros r.
    rewrite andb_true_r. f_equal.
    destruct (Language_Indicator r) as [l |]; trivial. apply existsb_eqb_in. }
  split; [exact E |]. split.
  - intros r Hr. rewrite E in Hr. apply filter_In in Hr. destruct Hr as [_ Hr].
    destruct (Language_Indicator r) as [l |]; [| discriminate].
    exists l. split; trivial.
    destruct (in_dec string_dec l (l0 :: ls)); [assumption | discriminate].
  - intros r _ _ Hnull Hr. rewrite E in Hr. apply filter_In in Hr.
    destruct Hr as [_ Hr]. rewrite Hnull in Hr. discriminate.
Qed.

(** X3. The month range of line 45. A range whose upper end is below its
    lower end selects nothing; narrowing a range narrows the filtered set to
    the rows whose month lies in the narrower range; and every filtered row
    has a month within the range. *)
Theorem month_range_narrowing (t : DataFrame) (c : option string)
    (langs : list string) (lo hi : Z) :
  let fd := filtered_data t {| content_type := c; month_range := (lo, hi); languages := langs |} in
  (hi < lo -> fd = []) /\
  (forall r, In r fd -> exists m, Release_Month r = Some m /\ lo <= m <= hi) /\
  (forall lo' hi', lo' <= lo -> hi <= hi' ->
     fd = filter (fun r => match Release_Month r with
                           | Some m => (lo <=? m) && (m <=? hi)
                           | None => false
                           end)
            (filtered_data t {| content_type := c; month_range := (lo', hi');
                                languages := langs |})).
Proof.
  intros fd. unfold fd. split; [| split].
  - intros Hlt. rewrite filtered_data_filter. apply filter_none.
    intros r _. cbn [month_range fst snd].
    destruct (Release_Month r) as [m |];
      [| now rewrite andb_false_r].
    assert (E : (lo <=? m) && (m <=? hi) = false).
    { apply andb_false_iff. destruct (Z.leb_spec lo m); [right | now left].
      apply Z.leb_gt. lia. }
    rewrite E. now rewrite andb_false_r.
  - intros r Hr. rewrite filtered_data_filter in Hr. apply filter_In in Hr.
    destruct Hr as [_ Hr]. cbn [month_range fst snd] in Hr.
    apply andb_true_iff in Hr. destruct Hr as [Hr _].
    apply andb_true_iff in Hr. destruct Hr as [_ Hr].
    destruct (Release_Month r) as [m |]; [| discriminate].
    exists m. split; trivial. apply andb_true_iff in Hr. lia.
  - intros lo' hi' Hlo Hhi. rewrite !filtered_data_filter.
    cbn [content_type month_range languages fst snd].
    rewrite filter_filter. apply filter_ext. intros r.
    destruct (Release_Month r) as [m |];
      [| now rewrite !andb_false_r].
    destruct ((lo <=? m) && (m <=? hi)) eqn:E.
    + apply andb_true_iff in E.
      assert (E' : (lo' <=? m) && (m <=? hi') = true)
        by (apply andb_true_iff; split; apply Z.leb_le; lia).
      rewrite E'. now rewrite !andb_true_r.
    + rewrite !andb_false_r. reflexivity.
Qed.

(** ** When a run of the script raises *)

(** X4. A run over a table raises exactly when the filtered set is empty
    (the [ValueError] of line 54), and succeeds exactly when it is not. When
    it succeeds, the total is the pairwise sum of line 52, and the "most
    viewed type" is the selected content type if the grouped sum of line 54
    is a number, and the null label if that sum is NaN: it is never another
    content type. *)
Theorem run_raises_iff_empty (t : DataFrame) (sel : Selection) :
  (filtered_data t sel = [] <->
   dashboard t sel = Raise (ValueError "attempt to get argmax of an empty sequence")) /\
  (filtered_data t sel <> [] <-> exists d, dashboard t sel = Ok d) /\
  (forall d, dashboard t sel = Ok d ->
     d_total_hours d = Pandas.Series_sum (map Hours_Viewed (filtered_data t sel)) /\
     d_most_viewed_type d
     = if Pandas.isna (Pandas.group_sum_float64
                         (map Hours_Viewed (filtered_data t sel)))
       then None else content_type sel).
Proof.
  assert (Hcases : filtered_data t sel = [] \/ filtered_data t sel <> [])
    by (destruct (filtered_data t sel); [now left | right; discriminate]).
  split; [| split].
  - split; [apply dashboard_empty |]. intros H.
    destruct Hcases as [E | Hne]; trivial.
    rewrite (dashboard_runs t sel Hne) in H. discriminate.
  - split.
    + intros Hne. eexists. now apply dashboard_runs.
    + intros [d Hd] E. rewrite (dashboard_empty t sel E) in Hd. discriminate.
  - intros d Hd. destruct Hcases as [E | Hne].
    + rewrite (dashboard_empty t sel E) in Hd. discriminate.
    + rewrite (dashboard_runs t sel Hne) in Hd. injection Hd as <-.
      split; reflexivity.
Qed.

(** A run over hours that overflow: the total is [+inf], the grouped sum
    NaN, and the run goes on with the null label. *)
Example run_on_overflowing_hours :
  match dashboard ExampleData.overflowing_hours ExampleData.all_movies with
  | Ok d => d_total_hours d = PrimFloat.infinity /\ d_most_viewed_type d = None /\
            d_monthly_viewership d = [(1, PrimFloat.nan)]
  | Raise _ => False
  end.
Proof. vm_compute. repeat split. Qed.

(** ** Unique titles *)

Lemma nodup_length_le {A : Type} (dec : forall a b : A, {a = b} + {a <> b})
    (l : list A) : (List.length (nodup dec l) <= List.length l)%nat.
Proof.
  induction l as [| a l IH]; simpl; [lia |].
  destruct (in_dec dec a l); simpl; lia.
Qed.

Lemma nodup_length_eq {A : Type} (dec : forall a b : A, {a = b} + {a <> b})
    (l : list A) : List.length (nodup dec l) = List.length l <-> NoDup l.
Proof.
  split.
  - induction l as [| a l IH]; simpl; intros H; [constructor |].
    pose proof (nodup_length_le dec l) as Hle.
    destruct (in_dec dec a l) as [Hin | Hn]; simpl in H; [lia |].
    constructor; trivial. apply IH. lia.
  - intros H. now rewrite (nodup_fixed_point dec H).
Qed.

Lemma dropna_length_le {A : Type} (s : list (option A)) :
  (List.length (Pandas.dropna s) <= List.length s)%nat.
Proof.
  induction s as [| [a |] s IH]; simpl; lia.
Qed.

Lemma dropna_no_null {A : Type} (s : list (option A)) :
  List.length (Pandas.dropna s) = List.length s <-> s = map Some (Pandas.dropna s).
Proof.
  induction s as [| [a |] s IH]; simpl.
  - tauto.
  - split; intros H.
    + f_equal. apply IH. lia.
    + f_equal. apply IH. now injection H.
  - pose proof (dropna_length_le s).
    split; [lia | intros E; destruct (Pandas.dropna s); discriminate].
Qed.

Lemma NoDup_map_Some {A : Type} (l : list A) :
  NoDup l <-> NoDup (map Some l).
Proof.
  induction l as [| a l IH]; simpl; split; intros H; try constructor;
    inversion H as [| ? ? Ha Hl]; subst.
  - intros Hin. apply in_map_iff in Hin. destruct Hin as [x [E Hx]].
    injection E as ->. contradiction.
  - now apply IH.
  - intros Hin. apply Ha. apply in_map_iff. now exists a.
  - now apply IH.
Qed.

(** X5. The number of unique titles is at most the number of rows of the
    filtered set, and it is that number exactly when no filtered row has a
    null title and no two filtered rows have the same title. *)
Theorem unique_titles_bound (fd : DataFrame) :
  (unique_titles fd <= List.length fd)%nat /\
  (unique_titles fd = List.length fd <->
   NoDup (map Title fd) /\ forall r, In r fd -> Title r <> None).
Proof.
  unfold unique_titles, Pandas.nunique.
  pose proof (nodup_length_le string_dec (Pandas.dropna (map Title fd))) as H1.
  pose proof (dropna_length_le (map Title fd)) as H2.
  rewrite length_map in H2.
  split; [lia |]. split.
  - intros E.
    assert (E1 : List.length (nodup string_dec (Pandas.dropna (map Title fd)))
                 = List.length (Pandas.dropna (map Title fd))) by lia.
    assert (E2 : List.length (Pandas.dropna (map Title fd))
                 = List.length (map Title fd)) by (rewrite length_map; lia).
    apply nodup_length_eq in E1. apply dropna_no_null in E2. split.
    + rewrite E2. now apply (proj1 (NoDup_map_Some _)).
    + intros r Hr Hnone.
      assert (Hin : In None (map Title fd))
        by (apply in_map_iff; now exists r).
      rewrite E2 in Hin. apply in_map_iff in Hin.
      destruct Hin as [x [Hx _]]. discriminate.
  - intros [Hnd Hnn].
    assert (E2 : map Title fd = map Some (Pandas.dropna (map Title fd))).
    { clear Hnd H1 H2. induction fd as [| r fd IH]; simpl; trivial.
      destruct (Title r) as [a |] eqn:Ea.
      - simpl. f_equal. apply IH. intros x Hx. apply Hnn. now right.
      - exfalso. apply (Hnn r (or_introl eq_refl) Ea). }
    assert (Hnd' : NoDup (Pandas.dropna (map Title fd))).
    { rewrite E2 in Hnd. now apply (proj2 (NoDup_map_Some _)). }
    rewrite (nodup_fixed_point string_dec Hnd').
    apply dropna_no_null in E2. rewrite E2. apply length_map.
Qed.

(** ** What preprocessing leaves alone *)

Section PreprocessFrame.
Variable py_float : string -> option float.
Variable parse_datetime : string -> option Datetime.Timestamp.

Lemma zip_rows_columns (raw : list RawRow) (hours : list float) :
  List.length raw = List.length hours ->
  let t := zip_rows parse_datetime raw hours in
  map Title t = map raw_Title raw /\
  map Content_Type t = map raw_Content_Type raw /\
  map Language_Indicator t = map raw_Language_Indicator raw /\
  map Hours_Viewed t = hours /\
  map Release_Date t = map (fun r => to_datetime_coerce parse_datetime (raw_Release_Date r)) raw.
Proof.
  revert hours. induction raw as [| r raw IH]; intros [| h hours] E;
    try discriminate; simpl.
  - repeat split.
  - destruct (IH hours) as [H1 [H2 [H3 [H4 H5]]]]; [now injection E |].
    repeat split; f_equal; assumption.
Qed.

(** X6. Preprocessing keeps the rows and their order and changes two columns
    only: the titles, content types and language indicators of the table are
    those of the file, row by row; the hours are the output of the float
    conversion and the dates the output of the date conversion. *)
Theorem preprocess_frame (raw : list RawRow) (t : DataFrame) :
  preprocess py_float parse_datetime raw = Ok t ->
  List.length t = List.length raw /\
  map Title t = map raw_Title raw /\
  map Content_Type t = map raw_Content_Type raw /\
  map Language_Indicator t = map raw_Language_Indicator raw /\
  normalize_Hours_Viewed py_float (map raw_Hours_Viewed raw) = Ok (map Hours_Viewed t) /\
  map Release_Date t
  = map (fun r => to_datetime_coerce parse_datetime (raw_Release_Date r)) raw.
Proof.
  intros H.
  destruct (preprocess_Ok_zip py_float parse_datetime raw t H)
    as [hours [E [Hlen [_ ->]]]].
  destruct (zip_rows_columns raw hours Hlen) as [H1 [H2 [H3 [H4 H5]]]].
  split; [| repeat split; trivial; now rewrite H4].
  rewrite <- (length_map Title), H1. apply length_map.
Qed.

End PreprocessFrame.

(** The file of the specification's example. *)
Lemma preprocess_frame_witness :
  List.length ExampleData.two_movies = List.length ExampleData.raw_two_movies /\
  map Title ExampleData.two_movies = map raw_Title ExampleData.raw_two_movies /\
  map Content_Type ExampleData.two_movies
  = map raw_Content_Type ExampleData.raw_two_movies /\
  map Language_Indicator ExampleData.two_movies
  = map raw_Language_Indicator ExampleData.raw_two_movies /\
  normalize_Hours_Viewed ExampleParsers.float_of_digits
    (map raw_Hours_Viewed ExampleData.raw_two_movies)
  = Ok (map Hours_Viewed ExampleData.two_movies) /\
  map Release_Date ExampleData.two_movies
  = map (fun r => to_datetime_coerce ExampleParsers.iso_date (raw_Release_Date r))
      ExampleData.raw_two_movies.
Proof.
  apply (preprocess_frame ExampleParsers.float_of_digits ExampleParsers.iso_date
           ExampleData.raw_two_movies ExampleData.two_movies).
  vm_compute. reflexivity.
Defined.

(** ** Comma removal *)

Lemma remove_commas_no_comma (s : string) :
  ~ In ","%char (list_ascii_of_string (remove_commas s)).
Proof.
  rewrite remove_commas_spec. intros H. apply filter_In in H.
  destruct H as [_ H]. now rewrite Ascii.eqb_refl in H.
Qed.

Lemma remove_commas_fixed (s : string) :
  remove_commas s = s <-> ~ In ","%char (list_ascii_of_string s).
Proof.
  split.
  - intros E. rewrite <- E. apply remove_commas_no_comma.
  - induction s as [| c s IH]; simpl; intros H; trivial.
    destruct (Ascii.eqb_spec c ","%char) as [-> | Hne].
    + exfalso. apply H. now left.
    + f_equal. apply IH. intros Hin. apply H. now right.
Qed.

(** X7. Comma removal leaves no comma, changes nothing else (a text without
    commas is returned as it is, and only such a text is), is idempotent,
    and works piece by piece on a concatenation. *)
Theorem remove_commas_properties (s1 s2 : string) :
  ~ In ","%char (list_ascii_of_string (remove_commas s1)) /\
  (remove_commas s1 = s1 <-> ~ In ","%char (list_ascii_of_string s1)) /\
  remove_commas (remove_commas s1) = remove_commas s1 /\
  remove_commas (s1 ++ s2) = (remove_commas s1 ++ remove_commas s2)%string /\
  (String.length (remove_commas s1) <= String.length s1)%nat.
Proof.
  split; [apply remove_commas_no_comma |].
  split; [apply remove_commas_fixed |].
  split; [apply remove_commas_fixed, remove_commas_no_comma |].
  split.
  - induction s1 as [| c s1 IH]; simpl; trivial.
    destruct (Ascii.eqb c ","); simpl; congruence.
  - induction s1 as [| c s1 IH]; simpl; [lia |].
    destruct (Ascii.eqb c ","); simpl; lia.
Qed.

Example remove_commas_million : remove_commas "1,000,000" = "1000000".
Proof. reflexivity. Qed.

(** ** The top ten are the largest *)

Lemma float_leb_trans (x y z : float) :
  (x <=? y)%float = true -> (y <=? z)%float = true -> (x <=? z)%float = true.
Proof.
  rewrite !leb_spec. unfold SFleb.
  destruct (Prim2SF x) as [s | s | | s m e], (Prim2SF y) as [s' | s' | | s' m' e'],
           (Prim2SF z) as [s'' | s'' | | s'' m'' e'']; simpl;
    try discriminate; try reflexivity;
    try (destruct s; simpl; try discriminate; try reflexivity;
         destruct s'; simpl; try discriminate; try reflexivity;
         destruct s''; simpl; try discriminate; reflexivity);
    try (destruct s; simpl; try discriminate; try reflexivity;
         destruct s''; simpl; try discriminate; reflexivity);
    try (destruct s'; simpl; try discriminate; try reflexivity;
         destruct s''; simpl; try discriminate; reflexivity);
    try (destruct s; simpl; try discriminate; try reflexivity;
         destruct s'; simpl; try discriminate; reflexivity).
  all: change (Pos.compare_cont Eq) with Pos.compare.
  all: destruct s, s', s''; simpl; try discriminate; try reflexivity.
  all: destruct (Z.compare_spec e e'), (Z.compare_spec e' e''), (Z.compare_spec e e'');
       simpl; try discriminate; try reflexivity; try lia.
  all: destruct (Pos.compare_spec m m'), (Pos.compare_spec m' m''), (Pos.compare_spec m m'');
       simpl; try discriminate; try reflexivity; try lia.
Qed.

Lemma desc_nulls_last_trans (a b c : float) :
  desc_nulls_last a b -> desc_nulls_last b c -> desc_nulls_last a c.
Proof.
  intros [Hb | [Ha [Hb Hba]]] [Hc | [Hb' [Hc Hcb]]]; try (now left); try congruence.
  right. repeat split; trivial. now apply (float_leb_trans c b a).
Qed.

Lemma StronglySorted_app_cross {A : Type} (R : A -> A -> Prop) (l1 l2 : list A) :
  StronglySorted R (l1 ++ l2) -> forall a b, In a l1 -> In b l2 -> R a b.
Proof.
  induction l1 as [| x l1 IH]; simpl; intros H a b Ha Hb; [contradiction |].
  inversion H as [| ? ? Hs Hall]; subst.
  destruct Ha as [<- | Ha].
  - rewrite Forall_forall in Hall. apply Hall. apply in_or_app. now right.
  - now apply IH.
Qed.

(** X8. The top content has ten rows, or all the rows of the filtered set
    when there are fewer; and the rows it leaves out are not larger than the
    rows it keeps: whenever a row is kept and another is left out, the one
    left out has null hours, or both have numbers and the hours left out are
    at most the hours kept. *)
Theorem top_content_largest (fd : DataFrame) :
  List.length (top_content fd) = Nat.min 10 (List.length fd) /\
  exists rest,
    Permutation (top_content fd ++ rest) (map (fun r => (Title r, Hours_Viewed r)) fd) /\
    forall kept left_out, In kept (top_content fd) -> In left_out rest ->
      desc_nulls_last (snd kept) (snd left_out).
Proof.
  unfold top_content, Pandas.head.
  set (items := map (fun r => (Title r, Hours_Viewed r)) fd).
  set (sorted := Pandas.sort_values _ _ false items).
  assert (Hperm : Permutation sorted items) by apply sort_values_perm.
  split.
  - rewrite length_firstn, (Permutation_length Hperm). unfold items.
    now rewrite length_map.
  - exists (skipn 10 sorted). split; [now rewrite firstn_skipn |].
    apply (StronglySorted_app_cross
             (fun a b : option string * float => desc_nulls_last (snd a) (snd b))).
    rewrite firstn_skipn. apply Sorted_StronglySorted.
    + intros a b c. apply desc_nulls_last_trans.
    + apply (sort_values_desc_Sorted (fun a : option string * float => snd a)).
Qed.

(** ** The labels of the grouped sums *)

Section GroupedSumLabels.
Context {R K : Type}.
Variable K_dec : forall a b : K, {a = b} + {a <> b}.
Variable K_leb : K -> K -> bool.
Variable key : R -> option K.
Variable col : R -> float.

Lemma groupby_sum_labels (l : list R) :
  map fst (Pandas.groupby_sum K_dec K_leb key col l)
  = Pandas.group_keys K_dec K_leb key l.
Proof.
  unfold Pandas.groupby_sum, Pandas.groupby. rewrite !map_map. cbn [fst].
  apply map_id.
Qed.

Lemma groupby_sum_In (l : list R) (k : K) (v : float) :
  In (k, v) (Pandas.groupby_sum K_dec K_leb key col l) <->
  In k (Pandas.group_keys K_dec K_leb key l) /\
  v = Pandas.group_sum_float64 (map col (filter (Pandas.key_is K_dec key k) l)).
Proof.
  unfold Pandas.groupby_sum, Pandas.groupby. rewrite map_map. cbn [fst snd].
  rewrite in_map_iff. split.
  - intros [k' [E Hk']]. injection E as -> <-. auto.
  - intros [Hk ->]. now exists k.
Qed.
End GroupedSumLabels.

Lemma StronglySorted_le_lt (l : list Z) :
  NoDup l -> StronglySorted Z.le l -> StronglySorted Z.lt l.
Proof.
  induction 2 as [| a l Hs IH Hall]; constructor.
  - apply IH. now inversion H.
  - inversion H as [| ? ? Ha _]; subst.
    rewrite Forall_forall in *. intros x Hx.
    specialize (Hall x Hx). assert (x <> a) by congruence. lia.
Qed.

Lemma sort_asc_Z_ascending (l : list Z) :
  NoDup l -> StronglySorted Z.lt (Pandas.sort_asc Z.leb l).
Proof.
  intros Hnd. apply StronglySorted_le_lt.
  - eapply Permutation_NoDup; [symmetry; apply sort_asc_perm | exact Hnd].
  - apply Sorted_StronglySorted; [intros a b c; apply Z.le_trans |].
    apply Sorted_weaken with (R := fun a b => Z.leb a b = true).
    + intros a b _ _. apply Z.leb_le.
    + apply sort_asc_Sorted with (P := fun _ => True).
      * intros a b _ _ H. apply Z.leb_le. apply Z.leb_gt in H. lia.
      * apply Forall_forall. trivial.
Qed.

(** X9. The monthly viewership lists the months in strictly ascending
    order; a month is listed exactly when some row of the filtered set was
    released in it, so every listed month lies in the selected range; and
    the figure of a month is the grouped sum, with Kahan's compensation, of
    the hours of the filtered rows of that month, taken in row order. *)
Theorem monthly_viewership_labels (t : DataFrame) (sel : Selection) :
  let fd := filtered_data t sel in
  StronglySorted Z.lt (map fst (monthly_viewership fd)) /\
  (forall m, In m (map fst (monthly_viewership fd)) <->
             exists r, In r fd /\ Release_Month r = Some m) /\
  (forall m, In m (map fst (monthly_viewership fd)) ->
             fst (month_range sel) <= m <= snd (month_range sel)) /\
  (forall m v, In (m, v) (monthly_viewership fd) ->
     v = Pandas.group_sum_float64
           (map Hours_Viewed
              (filter (fun r => match Release_Month r with
                                | Some m' => if Z.eq_dec m' m then true else false
                                | None => false
                                end) fd))).
Proof.
  intros fd. unfold monthly_viewership. rewrite groupby_sum_labels.
  assert (Hin : forall m, In m (Pandas.group_keys Z.eq_dec Z.leb Release_Month fd) <->
                          exists r, In r fd /\ Release_Month r = Some m)
    by (intros m; apply group_keys_In).
  split; [| split; [exact Hin | split]].
  - unfold Pandas.group_keys. apply sort_asc_Z_ascending, NoDup_nodup.
  - intros m Hm. apply Hin in Hm. destruct Hm as [r [Hr E]].
    unfold fd in Hr. rewrite filtered_data_filter in Hr. apply filter_In in Hr.
    destruct Hr as [_ Hr]. rewrite E in Hr.
    apply andb_true_iff in Hr. destruct Hr as [Hr _].
    apply andb_true_iff in Hr. destruct Hr as [_ Hr].
    apply andb_true_iff in Hr. lia.
  - intros m v Hv. apply groupby_sum_In in Hv. now destruct Hv as [_ ->].
Qed.

(** X10. The language viewership lists each language of the filtered set
    once, in the order of [sort]; a language is listed exactly when some
    filtered row has it, so when languages are selected only selected
    languages are listed; rows with a null language are in no group. *)
Theorem language_viewership_labels (t : DataFrame) (sel : Selection) :
  let fd := filtered_data t sel in
  NoDup (map fst (language_viewership fd)) /\
  Sorted (fun a b => String.leb a b = true) (map fst (language_viewership fd)) /\
  (forall l, In l (map fst (language_viewership fd)) <->
             exists r, In r fd /\ Language_Indicator r = Some l) /\
  (forall l, In l (map fst (language_viewership fd)) ->
             languages sel = [] \/ In l (languages sel)) /\
  Permutation
    (flat_map snd (Pandas.groupby string_dec String.leb Language_Indicator fd))
    (filter (fun r => Pandas.notna (Language_Indicator r)) fd).
Proof.
  intros fd. unfold language_viewership. rewrite groupby_sum_labels.
  assert (Hin : forall l, In l (Pandas.group_keys string_dec String.leb
                                  Language_Indicator fd) <->
                          exists r, In r fd /\ Language_Indicator r = Some l)
    by (intros l; apply group_keys_In).
  split; [apply group_keys_NoDup |].
  split; [| split; [exact Hin | split; [| apply groupby_partition]]].
  - unfold Pandas.group_keys.
    apply sort_asc_Sorted with (P := fun _ => True).
    + intros a b _ _ H. destruct (String.leb_total a b) as [E | E]; congruence.
    + apply Forall_forall. trivial.
  - intros l Hl. apply Hin in Hl. destruct Hl as [r [Hr E]].
    destruct (languages sel) as [| l0 ls] eqn:El; [now left | right].
    unfold fd in Hr. rewrite filtered_data_filter in Hr. apply filter_In in Hr.
    destruct Hr as [_ Hr]. rewrite E, El in Hr.
    apply andb_true_iff in Hr. destruct Hr as [_ Hr].
    apply existsb_exists in Hr. destruct Hr as [x [Hx Hlx]].
    apply String.eqb_eq in Hlx. now subst.
Qed.

(** ** The content distribution and the select box *)

Lemma sort_values_desc_Z_Sorted {A : Type} (by_ : A -> Z) (l : list A) :
  Sorted (fun a b => by_ b <= by_ a)
    (Pandas.sort_values (fun a b => by_ a <=? by_ b) (fun _ => false) false l).
Proof.
  unfold Pandas.sort_values.
  rewrite (filter_none (fun _ => false) l) by reflexivity.
  rewrite (filter_all (fun x => negb false) l) by reflexivity.
  rewrite app_nil_r.
  apply Sorted_weaken with (R := fun a b => (by_ b <=? by_ a) = true).
  - intros a b _ _. apply Z.leb_le.
  - apply (Sorted_rev (fun a b => (by_ a <=? by_ b) = true)).
    apply sort_asc_Sorted with (P := fun _ => True).
    + intros a b _ _ H. apply Z.leb_le. apply Z.leb_gt in H. lia.
    + apply Forall_forall. trivial.
Qed.

(** X11. The content distribution lists the content types from the most to
    the least frequent, each type once; its types are exactly the options of
    the content type select box; and a type is listed with a count [n]
    exactly when [n] is the number of rows of the table with that type and
    is at least 1. *)
Theorem content_distribution_order (t : DataFrame) :
  Sorted (fun a b => snd b <= snd a) (content_distribution t) /\
  NoDup (map fst (content_distribution t)) /\
  Permutation (map fst (content_distribution t)) (content_type_options t) /\
  (forall c n, In (c, n) (content_distribution t) <->
     n = Z.of_nat (List.length
                     (filter (fun r => match Content_Type r with
                                       | Some c' => if string_dec c' c then true else false
                                       | None => false
                                       end) t)) /\
     1 <= n).
Proof.
  pose proof (value_counts_perm string_dec Content_Type t) as Hperm.
  fold (content_distribution t) in Hperm.
  assert (Hlabels : Permutation (map fst (content_distribution t))
                      (content_type_options t)).
  { rewrite (Permutation_map fst Hperm), map_map. cbn [fst]. now rewrite map_id. }
  split; [apply (sort_values_desc_Z_Sorted (fun a : string * Z => snd a)) |].
  split; [| split; [exact Hlabels |]].
  - eapply Permutation_NoDup; [symmetry; exact Hlabels | apply unique_NoDup].
  - intros c n.
    change (fun r => match Content_Type r with
                     | Some c' => if string_dec c' c then true else false
                     | None => false
                     end) with (Pandas.key_is string_dec Content_Type c).
    split.
    + intros Hin. apply (Permutation_in _ Hperm) in Hin.
      apply in_map_iff in Hin. destruct Hin as [c' [E Hc']].
      injection E as -> <-. split; trivial.
      apply unique_In, dropna_In, in_map_iff in Hc'. destruct Hc' as [r [E Hr]].
      assert (Hf : In r (filter (Pandas.key_is string_dec Content_Type c) t))
        by (apply filter_In; split; trivial; now apply key_is_true).
      destruct (filter _ t); [contradiction | simpl; lia].
    + intros [-> Hn]. apply (Permutation_in _ (Permutation_sym Hperm)).
      apply in_map_iff. exists c. split; trivial.
      destruct (filter (Pandas.key_is string_dec Content_Type c) t) as [| r g] eqn:E;
        [simpl in Hn; lia |].
      assert (Hf : In r (filter (Pandas.key_is string_dec Content_Type c) t))
        by (rewrite E; now left).
      apply filter_In in Hf. destruct Hf as [Hr Hk]. apply key_is_true in Hk.
      apply unique_In, dropna_In, in_map_iff. now exists r.
Qed.

(** ** Weekly release counts add up *)

Section WeeklyFacts.
Variable py_float : string -> option float.
Variable parse_datetime : string -> option Datetime.Timestamp.

Lemma preprocess_day_known (raw : list RawRow) (t : DataFrame) (r : Row) (d : string) :
  preprocess py_float parse_datetime raw = Ok t -> In r t ->
  Release_Day r = Some d -> In d weekdays.
Proof.
  intros H Hr E.
  destruct (preprocess_rows py_float parse_datetime raw t r H Hr) as [r0 [h [_ ->]]].
  cbn [normalize_row Release_Day] in E.
  destruct (to_datetime_coerce parse_datetime (raw_Release_Date r0)) as [ns |];
    [| discriminate].
  injection E as <-. apply dt_day_name_weekday.
Qed.

(** X12. Over a preprocessed table no release is lost by the weekly
    release counts: the seven counts, a null count taken as zero, add up to
    the number of rows that have a release date. *)
Theorem weekday_releases_total (raw : list RawRow) (t : DataFrame) :
  preprocess py_float parse_datetime raw = Ok t ->
  Series_sum_int
    (map (fun e => match snd e with Some n => n | None => 0 end) (weekday_releases t))
  = Z.of_nat (List.length (filter has_date t)).
Proof.
  intros H.
  assert (Hnd : NoDup weekdays)
    by (repeat constructor; simpl; intuition discriminate).
  assert (Hcov : forall r d, In r t -> Release_Day r = Some d -> In d weekdays)
    by (intros r d Hr E; now apply (preprocess_day_known raw t r d)).
  rewrite weekday_releases_spec, map_map. cbn [snd].
  rewrite (map_ext _ (fun day => Z.of_nat (List.length (filter (released_on day) t)))).
  - rewrite (sum_group_sizes (fun day => filter (released_on day) t)).
    f_equal.
    change (fun day => filter (released_on day) t)
      with (fun day => filter (Pandas.key_is string_dec Release_Day day) t).
    rewrite (Permutation_length (groups_cover string_dec Release_Day weekdays t Hnd Hcov)).
    f_equal. apply filter_ext_in. intros r Hr. unfold has_date.
    destruct (preprocess_rows py_float parse_datetime raw t r H Hr) as [r0 [h [_ ->]]].
    cbn [normalize_row Release_Day Release_Date].
    now destruct (to_datetime_coerce parse_datetime (raw_Release_Date r0)).
  - intros day. unfold spec_weekday_count.
    now destruct (filter (released_on day) t).
Qed.

(** X13. With the month slider at its full range, 1 to 12, and no language
    selected, the filtered set of a preprocessed table is made of the rows
    of the selected content type that have a release date: the full range
    leaves no dated row out. *)
Theorem full_range_keeps_dated_rows (raw : list RawRow) (t : DataFrame) (c : string) :
  preprocess py_float parse_datetime raw = Ok t ->
  filtered_data t {| content_type := Some c; month_range := (1, 12); languages := [] |}
  = filter (fun r => match Content_Type r with
                     | Some c' => String.eqb c' c
                     | None => false
                     end && has_date r) t.
Proof.
  intros H. rewrite filtered_data_filter. cbn [content_type month_range languages fst snd].
  apply filter_ext_in. intros r Hr. rewrite andb_true_r. f_equal.
  destruct (preprocess_rows py_float parse_datetime raw t r H Hr) as [r0 [h [_ ->]]].
  unfold has_date. cbn [normalize_row Release_Month Release_Date].
  destruct (to_datetime_coerce parse_datetime (raw_Release_Date r0)) as [ns |];
    cbn [option_map Pandas.notna]; trivial.
  pose proof (dt_month_range ns). apply andb_true_iff. split; apply Z.leb_le; lia.
Qed.

End WeeklyFacts.

Lemma weekday_releases_total_witness :
  Series_sum_int
    (map (fun e => match snd e with Some n => n | None => 0 end)
       (weekday_releases ExampleData.bad_date))
  = Z.of_nat (List.length (filter has_date ExampleData.bad_date)).
Proof.
  exact (weekday_releases_total ExampleParsers.float_of_digits ExampleParsers.iso_date
           ExampleData.raw_bad_date ExampleData.bad_date load_bad_date).
Defined.

Lemma full_range_witness :
  filtered_data ExampleData.bad_date
    {| content_type := Some "Movie"; month_range := (1, 12); languages := [] |}
  = filter (fun r => match Content_Type r with
                     | Some c' => String.eqb c' "Movie"
                     | None => false
                     end && has_date r) ExampleData.bad_date.
Proof.
  exact (full_range_keeps_dated_rows ExampleParsers.float_of_digits ExampleParsers.iso_date
           ExampleData.raw_bad_date ExampleData.bad_date "Movie" load_bad_date).
Defined.

(** ** The total is a number *)

(** X14. Over a table whose hours are non-negative or null, the total of
    line 52 is a non-negative number, never NaN, for every selection and
    however many rows the filtered set has: pairwise summation only ever
    adds numbers that are not negative. The grouped sums have no such
    guarantee ([most_viewed_type_null_on_overflow]). In the weekly
    viewership hours, a day without releases shows NaN. *)
Theorem sums_in_range (t : DataFrame) (sel : Selection) :
  forallb (fun r => hours_in_range (Hours_Viewed r)) t = true ->
  let fd := filtered_data t sel in
  (0 <=? total_hours fd)%float = true /\
  Pandas.isna (total_hours fd) = false /\
  (forall day v, In (day, v) (weekday_viewership t) ->
     filter (released_on day) t = [] -> Pandas.isna v = true).
Proof.
  intros Hrange fd. rewrite forallb_forall in Hrange.
  assert (Htotal : (0 <=? total_hours fd)%float = true).
  { apply Series_sum_nonneg, Forall_forall.
    intros x Hx. apply in_map_iff in Hx. destruct Hx as [r [<- Hr]].
    apply Hrange. now apply (filtered_data_In t sel). }
  split; [exact Htotal |]. split; [now apply FloatFacts.nonneg_notna |].
  intros day v Hv Hnone. rewrite weekday_viewership_spec in Hv.
  apply in_map_iff in Hv. destruct Hv as [day' [E _]]. injection E as -> <-.
  unfold spec_weekday_hours. now rewrite Hnone.
Qed.

Lemma sums_in_range_witness :
  let fd := filtered_data ExampleData.two_movies ExampleData.all_movies in
  (0 <=? total_hours fd)%float = true /\
  Pandas.isna (total_hours fd) = false /\
  (forall day v, In (day, v) (weekday_viewership ExampleData.two_movies) ->
     filter (released_on day) ExampleData.two_movies = [] -> Pandas.isna v = true).
Proof.
  apply (sums_in_range ExampleData.two_movies ExampleData.all_movies).
  vm_compute. reflexivity.
Defined.

(** Ten times 0.1: added pairwise, in eight accumulators, the total is 1.0;
    added one after the other it would be 0.9999999999999999. *)
Example total_of_ten_tenths :
  Pandas.Series_sum (repeat 0.1%float 10) = 1%float /\
  fold_left PrimFloat.add (repeat 0.1%float 10) 0%float = 0.99999999999999989%float.
Proof. vm_compute. split; reflexivity. Qed.

(** ** The month-by-type table *)

Lemma isna_eq_nan (x : float) : Pandas.isna x = true -> x = PrimFloat.nan.
Proof.
  intros H. apply FloatFacts.isna_spec in H. apply Prim2SF_inj.
  rewrite H. reflexivity.
Qed.

(** Looking a label up in a list where a label has one value at most. *)
Lemma lookup_functional {K V : Type} (K_dec : forall a b : K, {a = b} + {a <> b})
    (k : K) (s : list (K * V)) :
  (forall v v', In (k, v) s -> In (k, v') s -> v = v') ->
  forall v, Pandas.lookup K_dec k s = Some v <-> In (k, v) s.
Proof.
  induction s as [| [k' v'] s IH]; simpl; intros Hfun v.
  - split; [discriminate | contradiction].
  - destruct (K_dec k' k) as [-> | Hne].
    + split.
      * intros E. injection E as ->. now left.
      * intros Hin. f_equal. apply Hfun; [now left | exact Hin].
    + rewrite IH by (intros a b Ha Hb; apply Hfun; now right).
      split; [now right |]. intros [E | Hin]; [congruence | exact Hin].
Qed.

Lemma filter_nonempty_In {R : Type} (p : R -> bool) (l : list R) :
  filter p l <> [] <-> exists r, In r l /\ p r = true.
Proof.
  split.
  - destruct (filter p l) as [| r g] eqn:E; [congruence |]. intros _.
    exists r. apply filter_In. rewrite E. now left.
  - intros [r Hr] E. apply filter_In in Hr. rewrite E in Hr. contradiction.
Qed.

(** The grouped sums of line 147 before the table is laid out: one entry
    for each month and type that some row has, with the sum of the hours
    of these rows. *)
Lemma pivot_agged_In (t : DataFrame) (m : Z) (c : string) (v : float) :
  In ((m, c), v)
    (flat_map
       (fun g =>
          map (fun h => ((fst g, fst h), snd h))
            (Pandas.groupby_sum string_dec String.leb Content_Type Hours_Viewed (snd g)))
       (Pandas.groupby Z.eq_dec Z.leb Release_Month
          (filter (fun r => Pandas.notna (Release_Month r) && Pandas.notna (Content_Type r))
             t)))
  <->
  filter (in_month_of_type m c) t <> [] /\
  v = Pandas.group_sum_float64 (map Hours_Viewed (filter (in_month_of_type m c) t)).
Proof.
  set (data := filter _ t).
  assert (Hgroup : filter (Pandas.key_is string_dec Content_Type c)
                     (filter (Pandas.key_is Z.eq_dec Release_Month m) data)
                   = filter (in_month_of_type m c) t).
  { unfold data. rewrite !filter_filter. apply filter_ext. intros r.
    unfold in_month_of_type, Pandas.key_is.
    destruct (Release_Month r) as [z |], (Content_Type r) as [s |]; simpl;
      try destruct (Z.eq_dec z m); try destruct (string_dec s c); reflexivity. }
  rewrite in_flat_map. split.
  - intros [g [Hg Hin]]. unfold Pandas.groupby in Hg. apply in_map_iff in Hg.
    destruct Hg as [k [<- Hk]]. cbn [fst snd] in Hin.
    apply in_map_iff in Hin. destruct Hin as [[c' v'] [E Hin]].
    cbn [fst snd] in E. injection E as -> -> ->.
    apply groupby_sum_In in Hin. destruct Hin as [Hc ->].
    rewrite Hgroup. split; trivial.
    apply group_keys_In in Hc. destruct Hc as [r [Hr E]].
    rewrite <- Hgroup. apply filter_nonempty_In. exists r. split; trivial.
    now apply key_is_true.
  - intros [Hne ->]. rewrite <- Hgroup in Hne. apply filter_nonempty_In in Hne.
    destruct Hne as [r [Hr Hc]]. apply key_is_true in Hc.
    pose proof Hr as Hr'. apply filter_In in Hr'. destruct Hr' as [Hd Hm].
    apply key_is_true in Hm.
    exists (m, filter (Pandas.key_is Z.eq_dec Release_Month m) data). split.
    + unfold Pandas.groupby. apply in_map_iff. exists m. split; trivial.
      apply group_keys_In. now exists r.
    + cbn [fst snd]. apply in_map_iff.
      exists (c, Pandas.group_sum_float64 (map Hours_Viewed (filter (in_month_of_type m c) t))).
      split; trivial. apply groupby_sum_In. rewrite Hgroup. split; trivial.
      apply group_keys_In. now exists r.
Qed.

(** X15. The month-by-type table of line 147. Its cell for a month of its
    index and a type of its columns is the sum of the hours of the rows of
    the whole table released in that month with that type, and NaN when
    there is no such row. The index lists, in strictly ascending order, the
    months that have such a sum that is a number for some type; the columns
    list, each once, the types that have one for some month. *)
Theorem pivot_table_cells (t : DataFrame) :
  let p := monthly_viewership_by_type t in
  pivot_values p
  = map (fun m => map (fun c => spec_pivot_cell t m c) (pivot_columns p)) (pivot_index p) /\
  StronglySorted Z.lt (pivot_index p) /\
  NoDup (pivot_columns p) /\
  (forall m, In m (pivot_index p) <->
     exists c, filter (in_month_of_type m c) t <> [] /\
               Pandas.isna (spec_pivot_cell t m c) = false) /\
  (forall c, In c (pivot_columns p) <->
     exists m, filter (in_month_of_type m c) t <> [] /\
               Pandas.isna (spec_pivot_cell t m c) = false).
Proof.
  unfold monthly_viewership_by_type. cbv zeta.
  set (agged0 := flat_map _ _).
  set (agged := filter (fun e : Z * string * float => negb (Pandas.isna (snd e))) agged0).
  cbn [pivot_values pivot_index pivot_columns].
  assert (Hin : forall m c v, In ((m, c), v) agged <->
            filter (in_month_of_type m c) t <> [] /\
            v = Pandas.group_sum_float64 (map Hours_Viewed (filter (in_month_of_type m c) t)) /\
            Pandas.isna v = false).
  { intros m c v. unfold agged. rewrite filter_In. cbn [snd].
    unfold agged0. rewrite pivot_agged_In, negb_true_iff. tauto. }
  assert (Hcell : forall m c, filter (in_month_of_type m c) t <> [] ->
            spec_pivot_cell t m c
            = Pandas.group_sum_float64 (map Hours_Viewed (filter (in_month_of_type m c) t))).
  { intros m c Hne. unfold spec_pivot_cell.
    now destruct (filter (in_month_of_type m c) t). }
  assert (Hlabel : forall m c,
            (exists v, In ((m, c), v) agged) <->
            filter (in_month_of_type m c) t <> [] /\
            Pandas.isna (spec_pivot_cell t m c) = false).
  { intros m c. split.
    - intros [v Hv]. apply Hin in Hv. destruct Hv as [Hne [-> Hv]].
      split; trivial. now rewrite Hcell.
    - intros [Hne Hv]. rewrite Hcell in Hv by exact Hne.
      eexists. apply Hin. split; [exact Hne | split; [reflexivity | exact Hv]]. }
  split; [| split; [| split; [| split]]].
  - apply map_ext. intros m. apply map_ext. intros c.
    pose proof (lookup_functional month_type_dec (m, c) agged) as Hl.
    assert (Hfun : forall v v', In ((m, c), v) agged -> In ((m, c), v') agged -> v = v').
    { intros v v' Hv Hv'. apply Hin in Hv, Hv'.
      destruct Hv as [_ [-> _]], Hv' as [_ [-> _]]. reflexivity. }
    specialize (Hl Hfun).
    destruct (Pandas.lookup month_type_dec (m, c) agged) as [v |] eqn:E.
    + pose proof (proj1 (Hl v) eq_refl) as Hv. apply Hin in Hv.
      destruct Hv as [Hne [-> _]]. symmetry. now apply Hcell.
    + unfold spec_pivot_cell.
      destruct (filter (in_month_of_type m c) t) as [| r g] eqn:Eg; trivial.
      destruct (Pandas.isna (Pandas.group_sum_float64 (map Hours_Viewed (r :: g)))) eqn:En.
      * symmetry. now apply isna_eq_nan.
      * assert (Hv : In ((m, c), Pandas.group_sum_float64 (map Hours_Viewed (r :: g))) agged).
        { apply Hin. rewrite Eg. split; [discriminate | split; trivial]. }
        apply Hl in Hv. discriminate.
  - apply sort_asc_Z_ascending, NoDup_nodup.
  - eapply Permutation_NoDup; [symmetry; apply sort_asc_perm | apply NoDup_nodup].
  - intros m. rewrite sort_asc_In, nodup_In, in_map_iff. split.
    + intros [[[m' c] v] [E Hv]]. cbn [fst] in E. subst m'.
      exists c. apply Hlabel. now exists v.
    + intros [c Hc]. apply Hlabel in Hc. destruct Hc as [v Hv].
      now exists ((m, c), v).
  - intros c. rewrite sort_asc_In, nodup_In, in_map_iff. split.
    + intros [[[m c'] v] [E Hv]]. cbn [fst snd] in E. subst c'.
      exists m. apply Hlabel. now exists v.
    + intros [m Hm]. apply Hlabel in Hm. destruct Hm as [v Hv].
      now exists ((m, c), v).
Qed.

(** The table of the specification's two rows: one month, one type. *)
Example pivot_two_movies :
  monthly_viewership_by_type ExampleData.two_movies
  = {| pivot_index := [3]; pivot_columns := ["Movie"];
       pivot_values := [[1500000%float]] |}.
Proof. vm_compute. reflexivity. Qed.

(** With hours 1e16, 1 and 1 in one month the cell is the grouped sum,
    which keeps the two units; with hours 1e308, 1e308 and 1 the grouped sum
    is NaN, and the table drops the cell, its month and its type. *)
Example pivot_grouped_sums :
  monthly_viewership_by_type ExampleData.large_hours
  = {| pivot_index := [1]; pivot_columns := ["Movie"];
       pivot_values := [[10000000000000002%float]] |} /\
  monthly_viewership_by_type ExampleData.overflowing_hours
  = {| pivot_index := []; pivot_columns := []; pivot_values := [] |}.
Proof. vm_compute. split; reflexivity. Qed.

(** ** The three ways the script fails *)

Section MainFacts.
Variable py_float : string -> option float.
Variable parse_datetime : string -> option Datetime.Timestamp.

Lemma normalize_Hours_Viewed_succeeds (col : list cell) :
  (exists hours, normalize_Hours_Viewed py_float col = Ok hours) <->
  (forall s, In (Text s) col -> py_float (remove_commas s) <> None).
Proof.
  unfold normalize_Hours_Viewed. split.
  - intros [hours Hh] s Hs Hnone.
    assert (Hraise : exists e,
              mapM (astype_float py_float) (map replace_commas col) = Raise e).
    { apply mapM_Raise.
      destruct (proj2 (astype_float_raises py_float (Text s))) as [e He];
        [now exists s |].
      exists (replace_commas (Text s)), e. split; trivial.
      apply in_map_iff. now exists (Text s). }
    destruct Hraise as [e He]. rewrite He in Hh. discriminate.
  - intros Hall.
    destruct (mapM (astype_float py_float) (map replace_commas col))
      as [hours | e] eqn:E.
    + now exists hours.
    + exfalso.
      destruct (proj1 (mapM_Raise (astype_float py_float) (map replace_commas col)))
        as [c' [e' [Hin Hc']]]; [now exists e |].
      apply in_map_iff in Hin. destruct Hin as [c [<- Hin]].
      destruct (proj1 (astype_float_raises py_float c)) as [s [-> Hs]];
        [now exists e' |].
      now apply (Hall s).
Qed.

(** X16. The script as a whole runs to its end exactly when every text in
    the ['Hours Viewed'] column is a number once its commas are removed
    (line 11), the release dates that were read agree on their UTC offset,
    none counting as an offset of its own (lines 12 to 14), and the
    filtered set of the selection is not empty (line 54). *)
Theorem main_succeeds_iff (raw : list RawRow) (sel : DataFrame -> Selection) :
  (exists d, main py_float parse_datetime raw sel = Ok d) <->
  (forall s, In (Text s) (map raw_Hours_Viewed raw) ->
             py_float (remove_commas s) <> None) /\
  (forall r1 r2 ts1 ts2, In r1 raw -> In r2 raw ->
     to_datetime_coerce parse_datetime (raw_Release_Date r1) = Some ts1 ->
     to_datetime_coerce parse_datetime (raw_Release_Date r2) = Some ts2 ->
     Datetime.tz ts1 = Datetime.tz ts2) /\
  (forall t, preprocess py_float parse_datetime raw = Ok t ->
             filtered_data t (sel t) <> []).
Proof.
  rewrite <- normalize_Hours_Viewed_succeeds.
  unfold main. split.
  - intros [d Hd].
    destruct (preprocess py_float parse_datetime raw) as [t | e] eqn:Et;
      [| discriminate].
    cbn [bind] in Hd.
    destruct (proj1 (preprocess_succeeds py_float parse_datetime raw)) as [Hh Hz];
      [rewrite Et; now exists t |].
    split; [exact Hh |]. split; [exact Hz |].
    intros t' E. injection E as <-. intros Hempty.
    rewrite (dashboard_empty t (sel t) Hempty) in Hd. discriminate.
  - intros [Hh [Hz Hne]].
    destruct (proj2 (preprocess_succeeds py_float parse_datetime raw)) as [t Ht];
      [now split |].
    rewrite Ht. cbn [bind]. rewrite (dashboard_runs t (sel t) (Hne t Ht)).
    eexists. reflexivity.
Qed.

End MainFacts.

(** The script over the specification's two rows and over the file with the
    text that is no date; and its three ways to fail. *)
Example main_runs :
  (exists d, main ExampleParsers.float_of_digits ExampleParsers.iso_date
               ExampleData.raw_two_movies (fun _ => ExampleData.all_movies) = Ok d) /\
  (exists d, main ExampleParsers.float_of_digits ExampleParsers.iso_date
               ExampleData.raw_bad_date (fun _ => ExampleData.all_movies) = Ok d) /\
  main ExampleParsers.float_of_digits ExampleParsers.iso_date
    ExampleData.raw_bad_hours (fun _ => ExampleData.all_movies)
  = Raise (ValueError "could not convert string to float: '12abc'") /\
  main ExampleParsers.float_of_digits ExampleParsers.iso_date
    ExampleData.raw_two_offsets (fun _ => ExampleData.all_movies)
  = Raise (AttributeError "Can only use .dt accessor with datetimelike values") /\
  main ExampleParsers.float_of_digits ExampleParsers.iso_date
    ExampleData.raw_two_movies (fun _ => ExampleData.movies_in_january)
  = Raise (ValueError "attempt to get argmax of an empty sequence").
Proof.
  split; [| split; [| split; [| split]]].
  - eexists. vm_compute. reflexivity.
  - eexists. vm_compute. reflexivity.
  - vm_compute. reflexivity.
  - vm_compute. reflexivity.
  - vm_compute. reflexivity.
Qed.
